(** * Fitbit-to-Garmin converter: a shallow embedding of
      [convert_fitbit_to_garmin.py] and the properties of its
      reconciliation pipeline.

    The development follows the layout of the script: Python's string,
    number and date primitives first, then the two normalizers
    ([parse_date], [parse_sleep_datetime]), then the four stages of
    [FitbitToGarminConverter] and [convert], and the theorems last. *)

From Stdlib Require Import ZArith Ascii String List Bool Lia.
From Stdlib Require Import SpecFloat.
From stdpp Require Import base option list gmap strings sorting.

Local Open Scope Z_scope.

(* ================================================================== *)
(** * Exceptions *)
(* ================================================================== *)

(** The exception classes the script can meet. [SystemExit] is what
    [sys.exit(1)] raises. *)
Inductive exn : Type :=
  | ValueError
  | TypeError
  | OverflowError
  | SystemExit.

Global Instance exn_eq_dec : EqDecision exn.
Proof. solve_decision. Defined.

(** A Python expression either evaluates or raises. *)
Inductive result (A : Type) : Type :=
  | Ok (a : A)
  | Raise (e : exn).
Arguments Ok {A} a.
Arguments Raise {A} e.

Definition rbind {A B} (r : result A) (k : A → result B) : result B :=
  match r with
  | Ok a => k a
  | Raise e => Raise e
  end.

Notation "'let!' x ':=' r 'in' k" := (rbind r (fun x => k))
  (at level 10, x pattern, r at level 100, k at level 200).

Definition of_option {A} (e : exn) (o : option A) : result A :=
  match o with
  | Some a => Ok a
  | None => Raise e
  end.

Definition is_ok {A} (r : result A) : bool :=
  match r with Ok _ => true | Raise _ => false end.

(* ================================================================== *)
(** * Python strings *)
(* ================================================================== *)

(** Strings are byte strings; the methods below are the [str] methods the
    script calls, at the arguments it calls them with. *)
Module PyStr.

(** ASCII white space as [str.strip] and [str.isspace] see it. *)
Definition is_space (c : ascii) : bool :=
  let n := Z.of_N (N_of_ascii c) in
  ((9 <=? n) && (n <=? 13)) || ((28 <=? n) && (n <=? 32)).

Fixpoint lstrip (s : string) : string :=
  match s with
  | String c s' => if is_space c then lstrip s' else s
  | EmptyString => EmptyString
  end.

(** [rstrip] keeps a character when it is not a space or when something
    that is kept follows it. *)
Fixpoint rstrip (s : string) : string :=
  match s with
  | EmptyString => EmptyString
  | String c s' =>
      match rstrip s' with
      | EmptyString => if is_space c then EmptyString else String c EmptyString
      | r => String c r
      end
  end.

(** [s.strip()] *)
Definition strip (s : string) : string := rstrip (lstrip s).

(** [c in s], for a one-character [c] *)
Fixpoint contains (c : ascii) (s : string) : bool :=
  match s with
  | EmptyString => false
  | String d s' => if Ascii.eqb c d then true else contains c s'
  end.

(** [s.replace(c, new)], for a one-character [c] *)
Fixpoint replace (c : ascii) (new : string) (s : string) : string :=
  match s with
  | EmptyString => EmptyString
  | String d s' =>
      if Ascii.eqb c d then new +:+ replace c new s'
      else String d (replace c new s')
  end.

(** [s.replace(c, new, 1)] *)
Fixpoint replace_first (c : ascii) (new : string) (s : string) : string :=
  match s with
  | EmptyString => EmptyString
  | String d s' =>
      if Ascii.eqb c d then new +:+ s'
      else String d (replace_first c new s')
  end.

(** [s.rsplit(c, 1)] when [c] occurs in [s]: the text before the last
    occurrence and the text after it. *)
Fixpoint rsplit1 (c : ascii) (s : string) : option (string * string) :=
  match s with
  | EmptyString => None
  | String d s' =>
      match rsplit1 c s' with
      | Some (a, b) => Some (String d a, b)
      | None => if Ascii.eqb c d then Some (EmptyString, s') else None
      end
  end.

Definition len (s : string) : Z := Z.of_nat (String.length s).

(** [s[:n]] and [s[n:]] for a literal [n >= 0] *)
Definition take (n : nat) (s : string) : string := String.substring 0 n s.
Fixpoint drop (n : nat) (s : string) : string :=
  match n, s with
  | O, _ => s
  | S n', String _ s' => drop n' s'
  | S _, EmptyString => EmptyString
  end.

(** [s[:-n]] for a literal [n > 0] *)
Definition drop_last (n : nat) (s : string) : string :=
  take (String.length s - n)%nat s.

End PyStr.

(* ================================================================== *)
(** * Python numbers *)
(* ================================================================== *)

Module PyNum.

(** ** Decimal digits *)

Definition digit_val (c : ascii) : option Z :=
  let n := Z.of_N (N_of_ascii c) in
  if (48 <=? n) && (n <=? 57) then Some (n - 48) else None.

Definition is_digit (c : ascii) : bool :=
  match digit_val c with Some _ => true | None => false end.

Definition digit_char (d : Z) : ascii := ascii_of_N (Z.to_N (48 + d)).

(** Value of a run of digits read left to right, and how many there are;
    [None] when a character is not a digit. *)
Fixpoint digits_val (acc : Z) (s : string) : option Z :=
  match s with
  | EmptyString => Some acc
  | String c s' =>
      match digit_val c with
      | Some d => digits_val (10 * acc + d) s'
      | None => None
      end
  end.

(** [str(n)] for an [int] *)
Fixpoint dec_digits (fuel : nat) (n : Z) (acc : string) : string :=
  match fuel with
  | O => acc
  | S f =>
      let acc' := String (digit_char (n mod 10)) acc in
      if n / 10 =? 0 then acc' else dec_digits f (n / 10) acc'
  end.

Definition str_of_nonneg (n : Z) : string :=
  dec_digits (S (Z.to_nat (Z.log2 n))) n EmptyString.

Definition str_of_int (n : Z) : string :=
  if n <? 0 then String "-"%char (str_of_nonneg (- n)) else str_of_nonneg n.

(** ** Underscores in numeric literals

    [int] and [float] accept a single underscore between two digits and
    nowhere else; the underscores are dropped before the number is read. *)
Fixpoint drop_underscores (prev : ascii) (s : string) : option string :=
  match s with
  | EmptyString => if Ascii.eqb prev "_" then None else Some EmptyString
  | String c s' =>
      if Ascii.eqb c "_" then
        if is_digit prev then drop_underscores c s' else None
      else if Ascii.eqb prev "_" && negb (is_digit c) then None
      else option_map (String c) (drop_underscores c s')
  end.

(** An optional sign in front: [true] for a minus. *)
Definition split_sign (s : string) : bool * string :=
  match s with
  | String "-" s' => (true, s')
  | String "+" s' => (false, s')
  | _ => (false, s)
  end.

(** ** [int(s)] for a string, base 10 *)
Definition int_of_string (s : string) : result Z :=
  match drop_underscores "000" (PyStr.strip s) with
  | None => Raise ValueError
  | Some t =>
      let '(neg, body) := split_sign t in
      match body with
      | EmptyString => Raise ValueError
      | _ =>
          match digits_val 0 body with
          | Some n => Ok (if neg then - n else n)
          | None => Raise ValueError
          end
      end
  end.

(** ** Floats: IEEE 754 binary64 *)

Definition prec : Z := 53.
Definition emax : Z := 1024.

Abbreviation pyfloat := spec_float.

Global Instance pyfloat_eq_dec : EqDecision pyfloat.
Proof. solve_decision. Defined.

Definition fadd : pyfloat → pyfloat → pyfloat := SFadd prec emax.
Definition fsub : pyfloat → pyfloat → pyfloat := SFsub prec emax.
Definition fmul : pyfloat → pyfloat → pyfloat := SFmul prec emax.
(** [x / y] for a divisor that is not zero (the script divides by the
    literals 1000 and 60 only). *)
Definition fdiv : pyfloat → pyfloat → pyfloat := SFdiv prec emax.

(** The float nearest to the fraction [p / q], ties to even. *)
Definition round_ratio (neg : bool) (p q : positive) : pyfloat :=
  let '(mz, ez, lz) := SFdiv_core_binary prec emax (Zpos p) 0 (Zpos q) 0 in
  binary_round_aux prec emax neg mz ez lz.

(** The float nearest to [n * 10^e]. *)
Definition float_of_decimal (neg : bool) (n e : Z) : pyfloat :=
  match n with
  | Zpos p =>
      if 0 <=? e then round_ratio neg (p * Z.to_pos (10 ^ e)) 1
      else round_ratio neg p (Z.to_pos (10 ^ (- e)))
  | _ => S754_zero neg
  end.

(** [float(n)] for an [int]; a value beyond the largest float raises. *)
Definition float_of_int (n : Z) : result pyfloat :=
  match float_of_decimal (n <? 0) (Z.abs n) 0 with
  | S754_infinity _ => Raise OverflowError
  | f => Ok f
  end.

Definition is_finite (x : pyfloat) : bool :=
  match x with
  | S754_zero _ | S754_finite _ _ _ => true
  | _ => false
  end.

Definition lower (c : ascii) : ascii :=
  let n := N_of_ascii c in
  if ((65 <=? n) && (n <=? 90))%N then ascii_of_N (n + 32) else c.

Fixpoint lower_str (s : string) : string :=
  match s with
  | EmptyString => EmptyString
  | String c s' => String (lower c) (lower_str s')
  end.

(** Split a string at its first character satisfying [p]. *)
Fixpoint break (p : ascii → bool) (s : string) : string * string :=
  match s with
  | EmptyString => (EmptyString, EmptyString)
  | String c s' =>
      if p c then (EmptyString, s)
      else let '(a, b) := break p s' in (String c a, b)
  end.

Definition is_e (c : ascii) : bool := Ascii.eqb c "e" || Ascii.eqb c "E".
Definition is_dot (c : ascii) : bool := Ascii.eqb c ".".

(** The exponent part: empty, or [e], an optional sign and digits. *)
Definition exponent_val (s : string) : option Z :=
  match s with
  | EmptyString => Some 0
  | String _ t =>
      let '(neg, ds) := split_sign t in
      match ds with
      | EmptyString => None
      | _ => option_map (fun n => if neg then - n else n) (digits_val 0 ds)
      end
  end.

(** [float(s)] for a string: white space stripped, underscores dropped,
    then a sign and [inf], [infinity], [nan] or a decimal number with an
    optional fraction and exponent, rounded to the nearest float. *)
Definition float_of_string (s : string) : result pyfloat :=
  match drop_underscores "000" (PyStr.strip s) with
  | None => Raise ValueError
  | Some t =>
      let '(neg, body) := split_sign t in
      let low := lower_str body in
      if String.eqb low "inf" || String.eqb low "infinity" then Ok (S754_infinity neg)
      else if String.eqb low "nan" then Ok S754_nan
      else
        let '(mant, ex) := break is_e body in
        let '(ip, fp0) := break is_dot mant in
        let fp := PyStr.drop 1 fp0 in
        match (String.length ip + String.length fp)%nat with
        | O => Raise ValueError
        | _ =>
            match digits_val 0 (ip +:+ fp), exponent_val ex with
            | Some n, Some e =>
                Ok (float_of_decimal neg n (e - PyStr.len fp))
            | _, _ => Raise ValueError
            end
        end
  end.

(** ** Rounding *)

(** The integer nearest to [n / d] for [d > 0], ties to even. *)
Definition div_half_even (n d : Z) : Z :=
  let q := n / d in
  match 2 * (n mod d) ?= d with
  | Lt => q
  | Gt => q + 1
  | Eq => if Z.even q then q else q + 1
  end.

(** [round(x, nd)] for a literal [nd >= 0]: the exact value of [x] is
    rounded to [nd] decimals, ties to even, and the float nearest to that
    decimal is returned; infinities and NaN round to themselves. *)
Definition round_ndigits (x : pyfloat) (nd : Z) : pyfloat :=
  match x with
  | S754_finite s m e =>
      let num := Zpos m * 10 ^ nd in
      let r := if 0 <=? e then num * 2 ^ e else div_half_even num (2 ^ (- e)) in
      float_of_decimal s r (- nd)
  | _ => x
  end.

(** [round(x)]: the nearest [int], ties to even *)
Definition round_int (x : pyfloat) : result Z :=
  match x with
  | S754_zero _ => Ok 0
  | S754_finite s m e =>
      let a := if 0 <=? e then Zpos m * 2 ^ e
               else div_half_even (Zpos m) (2 ^ (- e)) in
      Ok (if s then - a else a)
  | S754_infinity _ => Raise OverflowError
  | S754_nan => Raise ValueError
  end.

(** [int(x)]: truncation toward zero *)
Definition int_of_float (x : pyfloat) : result Z :=
  match x with
  | S754_zero _ => Ok 0
  | S754_finite s m e =>
      let a := if 0 <=? e then Zpos m * 2 ^ e else Zpos m / 2 ^ (- e) in
      Ok (if s then - a else a)
  | S754_infinity _ => Raise OverflowError
  | S754_nan => Raise ValueError
  end.

(** ** [repr(x)]: the shortest decimal string that reads back as [x] *)

Fixpoint strip_zeros_go (fuel : nat) (n : Z) : Z :=
  match fuel with
  | O => n
  | S f => if (n mod 10 =? 0) && negb (n =? 0)
           then strip_zeros_go f (n / 10) else n
  end.
Definition strip_zeros (n : Z) : Z := strip_zeros_go 400 n.

Definition zeros (n : Z) : string :=
  String.string_of_list_ascii (List.repeat "0"%char (Z.to_nat n)).

(** The least [j >= 1], searched from [j], with [p * 10^j >= q]. *)
Fixpoint lead_zeros (fuel : nat) (p q j : Z) : Z :=
  match fuel with
  | O => j
  | S f => if q <=? p * 10 ^ j then j else lead_zeros f p q (j + 1)
  end.

(** The decimal point position [k] of [p / q > 0]:
    [10^(k-1) <= p / q < 10^k]. *)
Definition decpt (p q : Z) : Z :=
  if q <=? p then PyStr.len (str_of_nonneg (p / q))
  else 1 - lead_zeros 400 p q 1.

(** The [n]-digit decimals just below and above [p / q], and the one of
    them that reads back as [x], the nearer one when both do. *)
Definition candidate (x : pyfloat) (p q k n : Z) : option Z :=
  let s := n - k in
  let num := if 0 <=? s then p * 10 ^ s else p in
  let den := if 0 <=? s then q else q * 10 ^ (- s) in
  let lo := num / den in
  let hi := lo + 1 in
  let back c := bool_decide (float_of_decimal false c (- s) = x) in
  match back lo, back hi with
  | true, true =>
      Some (match 2 * (num mod den) ?= den with
            | Lt => lo
            | Gt => hi
            | Eq => if Z.even lo then lo else hi
            end)
  | true, false => Some lo
  | false, true => Some hi
  | false, false => None
  end.

Fixpoint shortest (fuel : nat) (x : pyfloat) (p q k n : Z) : Z * Z :=
  match fuel with
  | O => (p, 0)
  | S f =>
      match candidate x p q k n with
      | Some c => (c, n)
      | None => shortest f x p q k (n + 1)
      end
  end.

(** Digits and decimal point position of the shortest decimal of a
    positive finite float [m * 2^e]. *)
Definition shortest_digits (m : positive) (e : Z) : string * Z :=
  let p := if 0 <=? e then Zpos m * 2 ^ e else Zpos m in
  let q := if 0 <=? e then 1 else 2 ^ (- e) in
  let k := decpt p q in
  let '(c, n) := shortest 17 (S754_finite false m e) p q k 1 in
  (str_of_nonneg (strip_zeros c), if c =? 10 ^ n then k + 1 else k).

Definition pad2 (n : Z) : string :=
  String (digit_char (n / 10 mod 10)) (String (digit_char (n mod 10)) EmptyString).

Definition repr_finite (neg : bool) (ds : string) (dp : Z) : string :=
  let l := PyStr.len ds in
  let body :=
    if (dp <=? -4) || (16 <? dp) then
      let ex := dp - 1 in
      PyStr.take 1 ds
      +:+ (if 1 <? l then String "."%char (PyStr.drop 1 ds) else EmptyString)
      +:+ String "e"%char (String (if ex <? 0 then "-"%char else "+"%char)
            (if Z.abs ex <? 10 then pad2 (Z.abs ex) else str_of_nonneg (Z.abs ex)))
    else if dp <=? 0 then "0." +:+ zeros (- dp) +:+ ds
    else if dp <? l then
      PyStr.take (Z.to_nat dp) ds +:+ String "."%char (PyStr.drop (Z.to_nat dp) ds)
    else ds +:+ zeros (dp - l) +:+ ".0" in
  if neg then String "-"%char body else body.

Definition repr_float (x : pyfloat) : string :=
  match x with
  | S754_zero s => if s then "-0.0" else "0.0"
  | S754_infinity s => if s then "-inf" else "inf"
  | S754_nan => "nan"
  | S754_finite s m e =>
      let '(ds, dp) := shortest_digits m e in repr_finite s ds dp
  end.

(** ** Numbers as the script holds them: an [int] or a [float] *)
Inductive pynum : Type :=
  | PInt (n : Z)
  | PFloat (x : pyfloat).

(** [str(v)], which is what an f-string field writes *)
Definition str_of_num (v : pynum) : string :=
  match v with
  | PInt n => str_of_int n
  | PFloat x => repr_float x
  end.

End PyNum.

(* ================================================================== *)
(** * Calendar dates and instants ([datetime.date], [datetime.datetime]) *)
(* ================================================================== *)

Module PyDate.
Import PyNum.

Record date : Type := mkdate { year : Z; month : Z; day : Z }.

Global Instance date_eq_dec : EqDecision date.
Proof. solve_decision. Defined.

Definition is_leap (y : Z) : bool :=
  (y mod 4 =? 0) && (negb (y mod 100 =? 0) || (y mod 400 =? 0)).

Definition days_in_month (y m : Z) : Z :=
  if m =? 2 then (if is_leap y then 29 else 28)
  else if (m =? 4) || (m =? 6) || (m =? 9) || (m =? 11) then 30
  else 31.

Definition valid_date (y m d : Z) : bool :=
  (1 <=? y) && (y <=? 9999) && (1 <=? m) && (m <=? 12)
  && (1 <=? d) && (d <=? days_in_month y m).

(** [date(y, m, d)] *)
Definition make_date (y m d : Z) : option date :=
  if valid_date y m d then Some (mkdate y m d) else None.

(** [d1 <= d2] *)
Definition date_leb (d1 d2 : date) : bool :=
  (year d1 <? year d2)
  || ((year d1 =? year d2)
      && ((month d1 <? month d2)
          || ((month d1 =? month d2) && (day d1 <=? day d2)))).

(** ** Ordinals, as in [datetime.py] *)

Definition days_before_year (y : Z) : Z :=
  let y1 := y - 1 in y1 * 365 + y1 / 4 - y1 / 100 + y1 / 400.

Fixpoint days_before_month_go (y : Z) (n : nat) : Z :=
  match n with
  | O => 0
  | S n' => days_before_month_go y n' + days_in_month y (Z.of_nat n)
  end.
Definition days_before_month (y m : Z) : Z :=
  days_before_month_go y (Z.to_nat (m - 1)).

(** [d.toordinal()] *)
Definition toordinal (d : date) : Z :=
  days_before_year (year d) + days_before_month (year d) (month d) + day d.

(** The month holding day number [n] (counted from 0) of year [y]. *)
Fixpoint month_of_day (fuel : nat) (y m n : Z) : Z * Z :=
  match fuel with
  | O => (m, n)
  | S f =>
      if n <? days_in_month y m then (m, n)
      else month_of_day f y (m + 1) (n - days_in_month y m)
  end.

(** [date.fromordinal(n)], following [_ord2ymd]. *)
Definition fromordinal (n : Z) : date :=
  let n0 := n - 1 in
  let n400 := n0 / 146097 in
  let r400 := n0 mod 146097 in
  let n100 := r400 / 36524 in
  let r100 := r400 mod 36524 in
  let n4 := r100 / 1461 in
  let r4 := r100 mod 1461 in
  let n1 := r4 / 365 in
  let r1 := r4 mod 365 in
  let y := n400 * 400 + 1 + n100 * 100 + n4 * 4 + n1 in
  if (n1 =? 4) || (n100 =? 4) then mkdate (y - 1) 12 31
  else let '(m, d0) := month_of_day 12 y 1 r1 in mkdate y m (d0 + 1).

Definition max_ordinal : Z := 3652059.

(** ** Instants *)

(** A [datetime]: wall-clock fields and, for an aware value, the UTC
    offset of its [tzinfo] in microseconds. *)
Record datetime : Type := mkdt {
  dt_date : date;
  hour : Z;
  minute : Z;
  second : Z;
  microsecond : Z;
  utcoffset : option Z
}.

Global Instance datetime_eq_dec : EqDecision datetime.
Proof. solve_decision. Defined.

(** Microseconds between 0001-01-01 00:00 and the wall clock of [t]. *)
Definition wall_us (t : datetime) : Z :=
  (((toordinal (dt_date t) * 24 + hour t) * 60 + minute t) * 60 + second t)
    * 1000000 + microsecond t.

(** [t + timedelta(hours=h)]: arithmetic on the wall clock, the
    [tzinfo] kept; a result outside years 1..9999 raises. *)
Definition add_hours (t : datetime) (h : Z) : result datetime :=
  let us := wall_us t + h * 3600000000 in
  let days := us / 86400000000 in
  let rest := us mod 86400000000 in
  if (0 <? days) && (days <=? max_ordinal) then
    Ok {| dt_date := fromordinal days;
          hour := rest / 3600000000;
          minute := rest / 60000000 mod 60;
          second := rest / 1000000 mod 60;
          microsecond := rest mod 1000000;
          utcoffset := utcoffset t |}
  else Raise OverflowError.

(** [(t2 - t1)] in microseconds: two naive values are compared on the
    wall clock, two aware ones as instants, and mixing them raises. *)
Definition sub_us (t2 t1 : datetime) : result Z :=
  match utcoffset t2, utcoffset t1 with
  | None, None => Ok (wall_us t2 - wall_us t1)
  | Some o2, Some o1 => Ok ((wall_us t2 - o2) - (wall_us t1 - o1))
  | _, _ => Raise TypeError
  end.

(** [(t2 - t1).total_seconds() / 60] *)
Definition minutes_between (t2 t1 : datetime) : result pyfloat :=
  let! us := sub_us t2 t1 in
  Ok (fdiv (float_of_decimal (us <? 0) (Z.abs us) (-6))
           (float_of_decimal false 60 0)).

(** ** Formatting *)

Definition pad4 (n : Z) : string :=
  String (digit_char (n / 1000 mod 10))
    (String (digit_char (n / 100 mod 10)) (pad2 n)).

(** [d.strftime('%Y-%m-%d')] *)
Definition strftime_ymd (d : date) : string :=
  pad4 (year d) +:+ "-" +:+ pad2 (month d) +:+ "-" +:+ pad2 (day d).

(** [t.strftime("%m/%d/%Y %H:%M")] *)
Definition strftime_mdy_hm (t : datetime) : string :=
  let d := dt_date t in
  pad2 (month d) +:+ "/" +:+ pad2 (day d) +:+ "/" +:+ pad4 (year d)
    +:+ " " +:+ pad2 (hour t) +:+ ":" +:+ pad2 (minute t).

(** ** [datetime.strptime] for the two formats the script uses

    [_strptime] turns the format into a regular expression, matches it
    at the start of the text and rejects text that is left over. The
    alternatives of a directive are tried in the order of its regular
    expression, so the matches are listed in that order and the first
    one is taken. *)

Definition digit_in (lo hi : Z) (c : ascii) : list Z :=
  match digit_val c with
  | Some d => if (lo <=? d) && (d <=? hi) then [d] else []
  | None => []
  end.

(** [\d\d] and [\d\d\d\d] *)
Definition two_digits (s : string) : list (Z * string) :=
  match s with
  | String a (String b r) =>
      x ← digit_in 0 9 a; y ← digit_in 0 9 b; [(10 * x + y, r)]
  | _ => []
  end.

Definition four_digits (s : string) : list (Z * string) :=
  '(hi, r) ← two_digits s; '(lo, r') ← two_digits r; [(100 * hi + lo, r')].

Definition expect (c : ascii) (s : string) : list string :=
  match s with
  | String d r => if Ascii.eqb c d then [r] else []
  | EmptyString => []
  end.

(** [%m]: [1[0-2]|0[1-9]|[1-9]] *)
Definition alts_m (s : string) : list (Z * string) :=
  match s with
  | String a r =>
      (match r with
       | String b r' =>
           (_ ← digit_in 1 1 a; y ← digit_in 0 2 b; [(10 + y, r')])
           ++ (_ ← digit_in 0 0 a; y ← digit_in 1 9 b; [(y, r')])
       | EmptyString => []
       end)
      ++ (x ← digit_in 1 9 a; [(x, r)])
  | EmptyString => []
  end.

(** [%d]: [3[01]|[12]\d|0[1-9]|[1-9]| [1-9]] *)
Definition alts_d (s : string) : list (Z * string) :=
  match s with
  | String a r =>
      (match r with
       | String b r' =>
           (_ ← digit_in 3 3 a; y ← digit_in 0 1 b; [(30 + y, r')])
           ++ (x ← digit_in 1 2 a; y ← digit_in 0 9 b; [(10 * x + y, r')])
           ++ (_ ← digit_in 0 0 a; y ← digit_in 1 9 b; [(y, r')])
       | EmptyString => []
       end)
      ++ (x ← digit_in 1 9 a; [(x, r)])
      ++ (match r with
          | String b r' =>
              if Ascii.eqb a " " then y ← digit_in 1 9 b; [(y, r')] else []
          | EmptyString => []
          end)
  | EmptyString => []
  end.

(** The first match decides; text left after it, or a day that the
    month does not have, is a [ValueError]. *)
Definition first_match (paths : list (Z * Z * Z * string)) : option date :=
  match paths with
  | (y, m, d, EmptyString) :: _ => make_date y m d
  | _ => None
  end.

(** [datetime.strptime(s, '%Y-%m-%d').date()] *)
Definition strptime_ymd (s : string) : option date :=
  first_match (
    '(y, s1) ← four_digits s; s2 ← expect "-" s1;
    '(m, s3) ← alts_m s2; s4 ← expect "-" s3;
    '(d, s5) ← alts_d s4; [(y, m, d, s5)]).

(** [datetime.strptime(s, '%m/%d/%y').date()]: a two-digit year up to 68
    is in the 2000s, from 69 on in the 1900s. *)
Definition strptime_mdy (s : string) : option date :=
  first_match (
    '(m, s1) ← alts_m s; s2 ← expect "/" s1;
    '(d, s3) ← alts_d s2; s4 ← expect "/" s3;
    '(y, s5) ← two_digits s4;
    [((if y <=? 68 then 2000 + y else 1900 + y), m, d, s5)]).

(** ** [datetime.fromisoformat]

    The grammar documented for [fromisoformat] before Python 3.11,
    [YYYY-MM-DD[*HH[:MM[:SS[.fff[fff]]]][+HH:MM[:SS[.ffffff]]]]] with [*]
    any one character; later versions accept these strings with the
    same result and more besides. *)

Definition digits_of_len (n : nat) (s : string) : option Z :=
  if bool_decide (String.length s = n) then digits_val 0 s else None.

(** [HH[:MM[:SS[.fff[fff]]]]], the whole of [s] *)
Definition hh_mm_ss_ff (s : string) : option (Z * Z * Z * Z) :=
  match two_digits s with
  | (h, EmptyString) :: _ => Some (h, 0, 0, 0)
  | (h, String ":" r1) :: _ =>
      match two_digits r1 with
      | (m, EmptyString) :: _ => Some (h, m, 0, 0)
      | (m, String ":" r2) :: _ =>
          match two_digits r2 with
          | (sec, EmptyString) :: _ => Some (h, m, sec, 0)
          | (sec, String "." r3) :: _ =>
              match digits_of_len 6 r3, digits_of_len 3 r3 with
              | Some us, _ => Some (h, m, sec, us)
              | None, Some ms => Some (h, m, sec, 1000 * ms)
              | None, None => None
              end
          | _ => None
          end
      | _ => None
      end
  | _ => None
  end.

Definition is_sign (c : ascii) : bool := Ascii.eqb c "+" || Ascii.eqb c "-".

(** The offset after the sign: [HH:MM], [HH:MM:SS] or [HH:MM:SS.ffffff],
    in microseconds. *)
Definition tz_offset (s : string) : option Z :=
  let n := String.length s in
  if bool_decide (n = 5%nat) || bool_decide (n = 8%nat) || bool_decide (n = 15%nat) then
    match hh_mm_ss_ff s with
    | Some (h, m, sec, us) => Some (((h * 60 + m) * 60 + sec) * 1000000 + us)
    | None => None
    end
  else None.

(** The time of day and the offset, [None] for a naive value. *)
Definition isoformat_time (s : string) : option (Z * Z * Z * Z * option Z) :=
  let '(t, z) := break is_sign s in
  match hh_mm_ss_ff t with
  | None => None
  | Some hmsu =>
      match z with
      | EmptyString => Some (hmsu, None)
      | String sg zs =>
          match tz_offset zs with
          | Some off => Some (hmsu, Some (if Ascii.eqb sg "-" then - off else off))
          | None => None
          end
      end
  end.

(** [datetime(y, mo, d, h, mi, s, us, tzinfo)] checks every field; a
    [timezone] offset lies strictly between -24 and 24 hours. *)
Definition make_datetime (y mo d h mi s us : Z) (tz : option Z) : option datetime :=
  match make_date y mo d with
  | Some dd =>
      if (h <? 24) && (mi <? 60) && (s <? 60)
         && match tz with
            | Some o => (-86400000000 <? o) && (o <? 86400000000)
            | None => true
            end
      then Some (mkdt dd h mi s us tz) else None
  | None => None
  end.

Definition fromisoformat (s : string) : option datetime :=
  match four_digits s with
  | (y, String "-" s1) :: _ =>
      match two_digits s1 with
      | (mo, String "-" s2) :: _ =>
          match two_digits s2 with
          | (d, EmptyString) :: _ => make_datetime y mo d 0 0 0 0 None
          | (d, String _ s3) :: _ =>
              match isoformat_time s3 with
              | Some (h, mi, sec, us, tz) => make_datetime y mo d h mi sec us tz
              | None => None
              end
          | _ => None
          end
      | _ => None
      end
  | _ => None
  end.

End PyDate.

(* ================================================================== *)
(** * Date parsing utilities *)
(* ================================================================== *)

Import PyNum PyDate.

(** [parse_date(dt_str)] for a text argument: [None] stands for Python's
    [None]. *)
Definition parse_date (dt_str : string) : option date :=
  let dt_str := PyStr.strip dt_str in
  if PyStr.contains "T" dt_str then
    dt_date <$> fromisoformat (PyStr.replace "Z" "+00:00" dt_str)
  else
    match strptime_ymd dt_str with
    | Some d => Some d
    | None =>
        match strptime_mdy dt_str with
        | Some d => Some d
        | None => dt_date <$> fromisoformat dt_str
        end
    end.

(** The text [parse_sleep_datetime] hands to the ISO parser, before the
    [Z] replacement: the rewriting done by its [if]/[elif]. *)
Definition sleep_iso_text (dt_str : string) : string :=
  if PyStr.contains "+" dt_str && negb (PyStr.contains "T" dt_str) then
    match PyStr.rsplit1 "+" dt_str with
    | Some (base, tz) =>
        let dt_str :=
          if PyStr.len tz =? 4
          then base +:+ "+" +:+ PyStr.take 2 tz +:+ ":" +:+ PyStr.drop 2 tz
          else dt_str in
        PyStr.replace_first " " "T" dt_str
    | None => dt_str
    end
  else if negb (PyStr.contains "T" dt_str) && negb (PyStr.contains "+" dt_str) then
    PyStr.replace_first " " "T" dt_str
  else dt_str.

(** [parse_sleep_datetime(dt_str)] *)
Definition parse_sleep_datetime (dt_str : string) : option datetime :=
  fromisoformat (PyStr.replace "Z" "+00:00" (sleep_iso_text (PyStr.strip dt_str))).

(* ================================================================== *)
(** * The export read by the converter *)
(* ================================================================== *)

(** A row as [csv.DictReader] yields it: column name to cell text. *)
Abbreviation row := (gmap string string).

(** [row.get(col, '')] *)
Definition get_text (r : row) (col : string) : string := default EmptyString (r !! col).

(** A field of a JSON object. *)
Inductive jval : Type :=
  | JNull
  | JBool (b : bool)
  | JInt (n : Z)
  | JFloat (x : pyfloat)
  | JStr (s : string).

Abbreviation entry := (gmap string jval).

(** What [json.load] makes of a weight file: an array of objects, or an
    error (not JSON, not readable). *)
Inductive json_file : Type :=
  | JsonError
  | JsonArray (entries : list entry).

(** The files of the Takeout folder the script looks at, each family as
    file name and content; [None] is a file that does not exist. *)
Record export : Type := mkexport {
  fitbit_dir_exists : bool;
  pa_dir_exists : bool;
  weight_json : list (string * json_file);
  weight_csv : option (list row);
  body_fat_csv : list (string * list row);
  steps_csv : list (string * list row);
  calories_csv : list (string * list row);
  distance_csv : list (string * list row);
  floors_csv : list (string * list row);
  active_minutes_csv : list (string * list row);
  activity_level_csv : list (string * list row);
  user_sleeps_csv : list (string * list row);
  user_sleep_stages_csv : list (string * list row);
  daily_resting_heart_rate_csv : option (list row);
  daily_heart_rate_variability_csv : option (list row);
  daily_respiratory_rate_csv : option (list row);
  daily_readiness_csv : option (list row);
  spo2_csv : list (string * list row);
  sleep_score_csv : option (list row)
}.

(* ================================================================== *)
(** * Loops, [try]/[except] and [sorted] *)
(* ================================================================== *)

(** A loop body over a mutable accumulator: the accumulator as the body
    leaves it and the exception it raised, if any. *)
Definition step (S R : Type) : Type := S → R → S * option exn.

(** [for r in rows: body], stopped by the first exception. *)
Fixpoint fold_rows {S R} (body : step S R) (s : S) (rows : list R) : S * option exn :=
  match rows with
  | [] => (s, None)
  | r :: rs =>
      match body s r with
      | (s', None) => fold_rows body s' rs
      | (s', Some e) => (s', Some e)
      end
  end.

(** A warning printed by an [except Exception] clause: the file and the
    exception. *)
Definition warning : Type := string * exn.

(** [for f in files: try: read f except Exception as e: print warning] *)
Fixpoint fold_files {S F} (read : step S F) (s : S) (files : list (string * F))
  : S * list warning :=
  match files with
  | [] => (s, [])
  | (name, f) :: fs =>
      let '(s', oe) := read s f in
      let '(s'', ws) := fold_files read s' fs in
      (s'', match oe with Some e => (name, e) :: ws | None => ws end)
  end.

(** [sorted(l, key=key)] on text keys: insertion from the right keeps
    equal keys in their order (the sort is stable). *)
Fixpoint insert_by {A} (key : A → string) (x : A) (l : list A) : list A :=
  match l with
  | [] => [x]
  | y :: l' =>
      if String.leb (key x) (key y) then x :: l else y :: insert_by key x l'
  end.

Definition sorted_by {A} (key : A → string) (l : list A) : list A :=
  foldr (insert_by key) [] l.

(** [sorted(glob.glob(pattern))]: the matching files by path. *)
Definition sorted_files {F} (files : list (string * F)) : list (string * F) :=
  sorted_by fst files.

(** [sorted(d.keys())] of a dictionary keyed by text. *)
Definition sorted_keys {V} (d : gmap string V) : list string :=
  sorted_by id (elements (dom d)).

(* ================================================================== *)
(** * Converter class *)
(* ================================================================== *)

(** An output file: its name and the lines written to it (without the
    line ends). *)
Definition file : Type := string * list string.

(** What one [generate_*] method leaves behind: the warnings it printed,
    the files it opened for writing with what it got to write, and the
    value it returned or the exception that left it. *)
Record stage (A : Type) : Type := mkstage {
  st_warnings : list warning;
  st_files : list file;
  st_returned : result A
}.
Arguments mkstage {A} _ _ _.
Arguments st_warnings {A} _.
Arguments st_files {A} _.
Arguments st_returned {A} _.

(** Quoted fields joined by commas, as the f-strings of the three main
    outputs write a row. *)
Definition dquote : string := String "034"%char EmptyString.
Definition quoted (s : string) : string := dquote +:+ s +:+ dquote.

Fixpoint join (sep : string) (l : list string) : string :=
  match l with
  | [] => EmptyString
  | [x] => x
  | x :: l' => x +:+ sep +:+ join sep l'
  end.

Definition quoted_row (fields : list string) : string := join "," (quoted <$> fields).

(** The outcome of an expression evaluated inside a loop body that has
    not changed the accumulator [s] yet. *)
Definition commit {S} (s : S) (r : result S) : S * option exn :=
  match r with
  | Ok s' => (s', None)
  | Raise e => (s, Some e)
  end.

Definition float_zero : pyfloat := S754_zero false.

(** [float(row.get(col, 0))] *)
Definition cell_float (c : option string) : result pyfloat :=
  match c with
  | Some s => float_of_string s
  | None => Ok float_zero
  end.

(** [int(float(row.get(col, 0)))] *)
Definition cell_int (c : option string) : result Z :=
  match c with
  | Some s => let! x := float_of_string s in int_of_float x
  | None => Ok 0
  end.

(** [str(v)] and [float(v)] of a JSON field *)
Definition str_of_jval (v : jval) : string :=
  match v with
  | JNull => "None"
  | JBool b => if b then "True" else "False"
  | JInt n => str_of_int n
  | JFloat x => repr_float x
  | JStr s => s
  end.

Definition float_of_jval (v : jval) : result pyfloat :=
  match v with
  | JNull => Raise TypeError
  | JBool b => Ok (float_of_decimal false (if b then 1 else 0) 0)
  | JInt n => float_of_int n
  | JFloat x => Ok x
  | JStr s => float_of_string s
  end.

(** [entry.get(k, dflt)] *)
Definition jget (e : entry) (k : string) (dflt : jval) : jval := default dflt (e !! k).

(** The literals [0.453592], [1000] and [60] as floats. *)
Definition kg_per_lb : pyfloat := float_of_decimal false 453592 (-6).
Definition float_1000 : pyfloat := float_of_decimal false 1000 0.

(** One line of the Body table. *)
Record body_entry : Type := mkbody { weight : pynum; bmi : pynum; fat : pynum }.

Section Converter.

(** [self.start_date] and [self.end_date] *)
Variables start_date end_date : date.

(** [self.start_date <= d <= self.end_date] *)
Definition in_window (d : date) : bool :=
  date_leb start_date d && date_leb d end_date.

(** The date of a record when [d and start_date <= d <= end_date]. *)
Definition window_date (text : string) : option date :=
  match parse_date text with
  | Some d => if in_window d then Some d else None
  | None => None
  end.

(* ---------------------------------------------------------------- *)
(** ** 1. Body data (weight, BMI, fat) *)
(* ---------------------------------------------------------------- *)

(** Source 1: an entry of a [weight-*.json] file, weight in pounds. *)
Definition body_json_entry : step (gmap string body_entry) entry :=
  fun body_data e =>
  match window_date (str_of_jval (jget e "date" (JStr EmptyString))) with
  | Some d =>
      commit body_data (
        let! weight_lbs := float_of_jval (jget e "weight" (JInt 0)) in
        let weight_kg := round_ndigits (fmul weight_lbs kg_per_lb) 1 in
        let! b := float_of_jval (jget e "bmi" (JInt 0)) in
        let! f := float_of_jval (jget e "fat" (JInt 0)) in
        Ok (<[strftime_ymd d :=
                mkbody (PFloat weight_kg) (PFloat (round_ndigits b 1))
                       (PFloat (round_ndigits f 1))]> body_data))
  | None => (body_data, None)
  end.

Definition body_json_file : step (gmap string body_entry) json_file :=
  fun body_data jf =>
  match jf with
  | JsonError => (body_data, Some ValueError)
  | JsonArray entries => fold_rows body_json_entry body_data entries
  end.

(** Fallback: a row of [weight.csv], weight in grams. *)
Definition weight_csv_row : step (gmap string body_entry) row :=
  fun body_data r =>
  match window_date (get_text r "timestamp") with
  | Some d =>
      commit body_data (
        let! weight_g := cell_float (r !! "weight grams") in
        let weight_kg := round_ndigits (fdiv weight_g float_1000) 1 in
        Ok (<[strftime_ymd d := mkbody (PFloat weight_kg) (PInt 0) (PInt 0)]> body_data))
  | None => (body_data, None)
  end.

(** Enrichment: a row of a [body_fat_*.csv] file. *)
Definition body_fat_row : step (gmap string body_entry) row :=
  fun body_data r =>
  match window_date (get_text r "timestamp") with
  | Some d =>
      let date_str := strftime_ymd d in
      commit body_data (
        let! f := cell_float (r !! "body fat percentage") in
        match body_data !! date_str with
        | Some b =>
            Ok (<[date_str := mkbody (weight b) (bmi b) (PFloat (round_ndigits f 1))]> body_data)
        | None =>
            Ok (<[date_str := mkbody (PInt 0) (PInt 0) (PFloat (round_ndigits f 1))]> body_data)
        end)
  | None => (body_data, None)
  end.

(** [body_data] after the loop over the JSON files (source 1). *)
Definition body_from_json (ex : export) : gmap string body_entry * list warning :=
  fold_files body_json_file ∅ (sorted_files (weight_json ex)).

(** [body_data] after the fallback block: [weight.csv] is opened only
    if [not body_data] and the file exists; nothing catches what its
    loop raises. *)
Definition body_with_fallback (ex : export) : gmap string body_entry * option exn :=
  let body_data := (body_from_json ex).1 in
  if bool_decide (size body_data = 0%nat) then
    match weight_csv ex with
    | Some rows => fold_rows weight_csv_row body_data rows
    | None => (body_data, None)
    end
  else (body_data, None).

Definition body_line (body_data : gmap string body_entry) (date_str : string) : string :=
  match body_data !! date_str with
  | Some d =>
      quoted_row [date_str; str_of_num (weight d); str_of_num (bmi d); str_of_num (fat d)]
  | None => EmptyString
  end.

Definition body_lines (body_data : gmap string body_entry) : list string :=
  "Body" :: "Date,Weight,BMI,Fat" :: (body_line body_data <$> sorted_keys body_data).

Definition generate_body_csv (ex : export) : stage (gmap string body_entry) :=
  match body_with_fallback ex with
  | (_, Some e) => mkstage (body_from_json ex).2 [] (Raise e)
  | (body_data, None) =>
      let '(body_data, ws) :=
        fold_files (fold_rows body_fat_row) body_data (sorted_files (body_fat_csv ex)) in
      mkstage ((body_from_json ex).2 ++ ws)
              [("garmin_body.csv", body_lines body_data)] (Ok body_data)
  end.

(* ---------------------------------------------------------------- *)
(** ** 2. Activities data (daily summaries) *)
(* ---------------------------------------------------------------- *)

(** The [cast] argument of [_aggregate_csv]: [float], or
    [lambda x: int(float(x))]. *)
Inductive cast : Type := cast_float | cast_int.

Definition apply_cast (c : cast) (cell : option string) : result pynum :=
  match c with
  | cast_float => let! x := cell_float cell in Ok (PFloat x)
  | cast_int => let! n := cell_int cell in Ok (PInt n)
  end.

(** [x + v] for a float [x] *)
Definition float_add_num (x : pyfloat) (v : pynum) : result pyfloat :=
  match v with
  | PFloat y => Ok (fadd x y)
  | PInt n => let! y := float_of_int n in Ok (fadd x y)
  end.

(** [daily[k] += cast(row.get(value_col, 0))] on a [defaultdict(float)]:
    the item is looked up first, which stores the default for a new
    key, then the cast is evaluated, then the sum is stored. *)
Definition aggregate_row (value_col : string) (c : cast)
  : step (gmap string pyfloat) row :=
  fun daily r =>
  match window_date (get_text r "timestamp") with
  | Some d =>
      let k := strftime_ymd d in
      let cur := default float_zero (daily !! k) in
      let daily := <[k := cur]> daily in
      commit daily (
        let! v := apply_cast c (r !! value_col) in
        let! x := float_add_num cur v in
        Ok (<[k := x]> daily))
  | None => (daily, None)
  end.

(** [self._aggregate_csv(pattern, value_col, cast)], the pattern given
    as the files it matches. *)
Definition _aggregate_csv (files : list (string * list row)) (value_col : string)
  (c : cast) : gmap string pyfloat * list warning :=
  fold_files (fold_rows (aggregate_row value_col c)) ∅ (sorted_files files).

(** [m[k] += int(float(row.get(col, 0)))] on a [defaultdict(int)] *)
Definition add_cell_int (m : gmap string Z) (k : string) (cell : option string)
  : gmap string Z * option exn :=
  let cur := default 0 (m !! k) in
  let m := <[k := cur]> m in
  commit m (let! v := cell_int cell in Ok (<[k := cur + v]> m)).

(** [daily_light], [daily_fairly], [daily_very] *)
Record active : Type := mkactive {
  daily_light : gmap string Z;
  daily_fairly : gmap string Z;
  daily_very : gmap string Z
}.

Definition active_minutes_row : step active row :=
  fun a r =>
  match window_date (get_text r "timestamp") with
  | Some d =>
      let ds := strftime_ymd d in
      match add_cell_int (daily_light a) ds (r !! "light") with
      | (l, Some e) => (mkactive l (daily_fairly a) (daily_very a), Some e)
      | (l, None) =>
          match add_cell_int (daily_fairly a) ds (r !! "moderate") with
          | (f, Some e) => (mkactive l f (daily_very a), Some e)
          | (f, None) =>
              match add_cell_int (daily_very a) ds (r !! "very") with
              | (v, oe) => (mkactive l f v, oe)
              end
          end
      end
  | None => (a, None)
  end.

Definition activity_level_row : step (gmap string Z) row :=
  fun daily_sedentary r =>
  match window_date (get_text r "timestamp") with
  | Some d =>
      if String.eqb (get_text r "level") "SEDENTARY" then
        let k := strftime_ymd d in
        (<[k := default 0 (daily_sedentary !! k) + 1]> daily_sedentary, None)
      else (daily_sedentary, None)
  | None => (daily_sedentary, None)
  end.

(** The accumulators of [generate_activities_csv]. *)
Record activity_data : Type := mkactivity {
  daily_steps : gmap string pyfloat;
  daily_calories : gmap string pyfloat;
  daily_distance : gmap string pyfloat;
  daily_floors : gmap string pyfloat;
  daily_active : active;
  daily_sedentary : gmap string Z
}.

Definition read_activities (ex : export) : activity_data * list warning :=
  let '(steps, w1) := _aggregate_csv (steps_csv ex) "steps" cast_int in
  let '(calories, w2) := _aggregate_csv (calories_csv ex) "calories" cast_float in
  let '(distance, w3) := _aggregate_csv (distance_csv ex) "distance" cast_float in
  let '(floors, w4) := _aggregate_csv (floors_csv ex) "floors" cast_int in
  let '(act, w5) :=
    fold_files (fold_rows active_minutes_row) (mkactive ∅ ∅ ∅)
      (sorted_files (active_minutes_csv ex)) in
  let '(sed, w6) :=
    fold_files (fold_rows activity_level_row) ∅ (sorted_files (activity_level_csv ex)) in
  (mkactivity steps calories distance floors act sed,
   w1 ++ w2 ++ w3 ++ w4 ++ w5 ++ w6).

(** [sorted(set(steps.keys() + calories.keys() + distance.keys()))] *)
Definition all_dates (a : activity_data) : list string :=
  sorted_by id (elements (dom (daily_steps a) ∪ dom (daily_calories a)
                          ∪ dom (daily_distance a))).

(** The values of one output row, in column order. *)
Record activity_row : Type := mkrow {
  ar_date : string;
  ar_cal : Z;
  ar_steps : Z;
  ar_dist_km : pyfloat;
  ar_floors : Z;
  ar_sedentary : Z;
  ar_light : Z;
  ar_fairly : Z;
  ar_very : Z;
  ar_act_cal : Z
}.

(** The body of the writing loop up to the [f.write]: [round] and
    [int] raise on an infinite or NaN total. *)
Definition activity_row_of (a : activity_data) (ds : string) : result activity_row :=
  let! cal := match daily_calories a !! ds with
              | Some x => round_int x
              | None => Ok 0
              end in
  let! steps := match daily_steps a !! ds with
                | Some x => int_of_float x
                | None => Ok 0
                end in
  let dist_km :=
    round_ndigits (match daily_distance a !! ds with
                   | Some x => fdiv x float_1000
                   | None => float_zero
                   end) 2 in
  let! floors := match daily_floors a !! ds with
                 | Some x => int_of_float x
                 | None => Ok 0
                 end in
  let sedentary := default 0 (daily_sedentary a !! ds) in
  let light := default 0 (daily_light (daily_active a) !! ds) in
  let fairly := default 0 (daily_fairly (daily_active a) !! ds) in
  let very := default 0 (daily_very (daily_active a) !! ds) in
  let act_cal := if 0 <? cal then Z.max 0 (cal - 1500) else 0 in
  Ok (mkrow ds cal steps dist_km floors sedentary light fairly very act_cal).

Definition activity_line (r : activity_row) : string :=
  quoted_row [ar_date r; str_of_int (ar_cal r); str_of_int (ar_steps r);
              repr_float (ar_dist_km r); str_of_int (ar_floors r);
              str_of_int (ar_sedentary r); str_of_int (ar_light r);
              str_of_int (ar_fairly r); str_of_int (ar_very r);
              str_of_int (ar_act_cal r)].

(** A writing loop: the rows written before the first exception. *)
Fixpoint emit {X Y} (f : X → result Y) (xs : list X) : list Y * option exn :=
  match xs with
  | [] => ([], None)
  | x :: xs' =>
      match f x with
      | Ok y => let '(ys, oe) := emit f xs' in (y :: ys, oe)
      | Raise e => ([], Some e)
      end
  end.

Definition activities_header : list string :=
  ["Activities";
   "Date,Calories Burned,Steps,Distance,Floors,Minutes Sedentary,"
     +:+ "Minutes Lightly Active,Minutes Fairly Active,Minutes Very Active,"
     +:+ "Activity Calories"].

(** The rows the writing loop gets to write. *)
Definition activity_rows (ex : export) : list activity_row * option exn :=
  let a := (read_activities ex).1 in emit (activity_row_of a) (all_dates a).

Definition generate_activities_csv (ex : export) : stage (list string) :=
  let '(a, ws) := read_activities ex in
  let '(rows, oe) := emit (activity_row_of a) (all_dates a) in
  mkstage ws
    [("garmin_activities.csv", activities_header ++ (activity_line <$> rows))]
    (match oe with Some e => Raise e | None => Ok (all_dates a) end).

(* ---------------------------------------------------------------- *)
(** ** 3. Sleep data *)
(* ---------------------------------------------------------------- *)

(** A value of the [sleeps] dictionary. *)
Record session : Type := mksession {
  s_start : string;
  s_end : string;
  s_start_dt : datetime;
  s_end_dt : option datetime;
  s_minutes_asleep : Z;
  s_minutes_awake : Z;
  s_minutes_in_period : Z;
  s_start_offset : string;
  s_end_offset : string
}.

(** [sleeps] keeps the order in which its keys were first stored: the
    stable sort of the writing loop leaves sessions with the same start
    text in that order. *)
Fixpoint dict_set {V} (k : string) (v : V) (d : list (string * V)) : list (string * V) :=
  match d with
  | [] => [(k, v)]
  | (k', v') :: d' =>
      if String.eqb k k' then (k, v) :: d' else (k', v') :: dict_set k v d'
  end.

Fixpoint dict_get {V} (k : string) (d : list (string * V)) : option V :=
  match d with
  | [] => None
  | (k', v') :: d' => if String.eqb k k' then Some v' else dict_get k d'
  end.

Definition user_sleeps_row : step (list (string * session)) row :=
  fun sleeps r =>
  match parse_sleep_datetime (get_text r "sleep_start") with
  | Some start_dt =>
      if in_window (dt_date start_dt) then
        let sleep_id := get_text r "sleep_id" in
        commit sleeps (
          let! asleep := cell_int (r !! "minutes_asleep") in
          let! awake := cell_int (r !! "minutes_awake") in
          let! in_period := cell_int (r !! "minutes_in_sleep_period") in
          Ok (dict_set sleep_id
                (mksession (get_text r "sleep_start") (get_text r "sleep_end")
                   start_dt (parse_sleep_datetime (get_text r "sleep_end"))
                   asleep awake in_period
                   (default "+01:00" (r !! "start_utc_offset"))
                   (default "+01:00" (r !! "end_utc_offset")))
                sleeps))
      else (sleeps, None)
  | None => (sleeps, None)
  end.

(** [sleeps] after the loop over the [UserSleeps_*.csv] files. *)
Definition read_sleeps (ex : export) : list (string * session) * list warning :=
  fold_files (fold_rows user_sleeps_row) [] (sorted_files (user_sleeps_csv ex)).

(** A value of [sleep_stages]: minutes per stage and the awake count. *)
Record stage_acc : Type := mkacc {
  rem : pynum;
  light : pynum;
  deep : pynum;
  awake_count : Z
}.

Definition stage_zero : stage_acc := mkacc (PInt 0) (PInt 0) (PInt 0) 0.

(** [v += duration] *)
Definition add_duration (v : pynum) (duration : pyfloat) : result pynum :=
  match v with
  | PInt n => let! x := float_of_int n in Ok (PFloat (fadd x duration))
  | PFloat x => Ok (PFloat (fadd x duration))
  end.

(** [sleep_stages[sleep_id][field] += duration]: the lookup stores the
    default for a new session id before the sum is taken. *)
Definition add_stage (stages : gmap string stage_acc) (sleep_id : string)
  (upd : stage_acc → result stage_acc) : gmap string stage_acc * option exn :=
  let cur := default stage_zero (stages !! sleep_id) in
  let stages := <[sleep_id := cur]> stages in
  commit stages (let! acc := upd cur in Ok (<[sleep_id := acc]> stages)).

Definition sleep_stages_row (sleeps : list (string * session))
  : step (gmap string stage_acc) row :=
  fun stages r =>
  let sleep_id := get_text r "sleep_id" in
  match dict_get sleep_id sleeps with
  | Some _ =>
      let stage_type := get_text r "sleep_stage_type" in
      match parse_sleep_datetime (get_text r "sleep_stage_start"),
            parse_sleep_datetime (get_text r "sleep_stage_end") with
      | Some s_dt, Some e_dt =>
          match minutes_between e_dt s_dt with
          | Raise e => (stages, Some e)
          | Ok duration =>
              if String.eqb stage_type "REM" then
                add_stage stages sleep_id (fun a =>
                  let! v := add_duration (rem a) duration in
                  Ok (mkacc v (light a) (deep a) (awake_count a)))
              else if String.eqb stage_type "LIGHT" then
                add_stage stages sleep_id (fun a =>
                  let! v := add_duration (light a) duration in
                  Ok (mkacc (rem a) v (deep a) (awake_count a)))
              else if String.eqb stage_type "DEEP" then
                add_stage stages sleep_id (fun a =>
                  let! v := add_duration (deep a) duration in
                  Ok (mkacc (rem a) (light a) v (awake_count a)))
              else if String.eqb stage_type "AWAKE" then
                add_stage stages sleep_id (fun a =>
                  Ok (mkacc (rem a) (light a) (deep a) (awake_count a + 1)))
              else (stages, None)
          end
      | _, _ => (stages, None)
      end
  | None => (stages, None)
  end.

Definition read_sleep_stages (ex : export) (sleeps : list (string * session))
  : gmap string stage_acc * list warning :=
  fold_files (fold_rows (sleep_stages_row sleeps)) ∅
    (sorted_files (user_sleep_stages_csv ex)).

(** [int(offset_str.replace(':', '')[:-2]) if offset_str else 0], and 0
    when [int] raises. *)
Definition offset_hours (offset_str : string) : Z :=
  match offset_str with
  | EmptyString => 0
  | _ =>
      match int_of_string (PyStr.drop_last 2 (PyStr.replace ":" EmptyString offset_str)) with
      | Ok h => h
      | Raise _ => 0
      end
  end.

(** [round(v)] *)
Definition round_num (v : pynum) : result Z :=
  match v with
  | PInt n => Ok n
  | PFloat x => round_int x
  end.

(** The values of one output row of the Sleep table. *)
Record sleep_row : Type := mksleeprow {
  sr_id : string;
  sr_start_local : datetime;
  sr_end_local : datetime;
  sr_minutes_asleep : Z;
  sr_minutes_awake : Z;
  sr_awakenings : Z;
  sr_time_in_bed : Z;
  sr_rem : Z;
  sr_light : Z;
  sr_deep : Z
}.

(** The body of the writing loop for one session: [None] when
    [start_dt and end_dt] fails, so that nothing is written. *)
Definition sleep_row_of (stages : gmap string stage_acc) (ks : string * session)
  : result (option sleep_row) :=
  let '(sleep_id, s) := ks in
  let st := default stage_zero (stages !! sleep_id) in
  match s_end_dt s with
  | Some end_dt =>
      let! start_local := add_hours (s_start_dt s) (offset_hours (s_start_offset s)) in
      let! end_local := add_hours end_dt (offset_hours (s_end_offset s)) in
      let! r := round_num (rem st) in
      let! l := round_num (light st) in
      let! d := round_num (deep st) in
      Ok (Some (mksleeprow sleep_id start_local end_local (s_minutes_asleep s)
                  (s_minutes_awake s) (awake_count st) (s_minutes_in_period s) r l d))
  | None => Ok None
  end.

Definition sleep_line (r : sleep_row) : string :=
  quoted_row [strftime_mdy_hm (sr_start_local r); strftime_mdy_hm (sr_end_local r);
              str_of_int (sr_minutes_asleep r); str_of_int (sr_minutes_awake r);
              str_of_int (sr_awakenings r); str_of_int (sr_time_in_bed r);
              str_of_int (sr_rem r); str_of_int (sr_light r); str_of_int (sr_deep r)].

Definition sleep_header : list string :=
  ["Sleep";
   "Start Time,End Time,Minutes Asleep,Minutes Awake,"
     +:+ "Number of Awakenings,Time in Bed,Minutes REM Sleep,"
     +:+ "Minutes Light Sleep,Minutes Deep Sleep"].

(** The rows the writing loop gets to write, the sessions taken in the
    order of their start text. *)
Definition emit_sleep (sleeps : list (string * session)) (stages : gmap string stage_acc)
  : list sleep_row * option exn :=
  let '(rows, oe) := emit (sleep_row_of stages) (sorted_by (fun ks => s_start ks.2) sleeps) in
  (omap id rows, oe).

Definition sleep_rows (ex : export) : list sleep_row * option exn :=
  let sleeps := (read_sleeps ex).1 in
  emit_sleep sleeps (read_sleep_stages ex sleeps).1.

Definition generate_sleep_csv (ex : export) : stage (list (string * session)) :=
  let '(sleeps, w1) := read_sleeps ex in
  let '(stages, w2) := read_sleep_stages ex sleeps in
  let '(rows, oe) := emit_sleep sleeps stages in
  mkstage (w1 ++ w2)
    [("garmin_sleep.csv", sleep_header ++ (sleep_line <$> rows))]
    (match oe with Some e => Raise e | None => Ok sleeps end).

(* ---------------------------------------------------------------- *)
(** ** 4. Supplementary data (not directly Garmin-importable) *)
(* ---------------------------------------------------------------- *)

(** A value in an entry of a supplementary table: the cell text as read,
    or a float once [round(float(...), 1)] has replaced it. *)
Inductive pyval : Type :=
  | VText (s : string)
  | VFloat (x : pyfloat).

Definition str_of_val (v : pyval) : string :=
  match v with
  | VText s => s
  | VFloat x => repr_float x
  end.

(** An entry: a dictionary from output column to value. *)
Abbreviation record := (list (string * pyval)).

(** A field as [csv.writer] writes it with minimal quoting. *)
Definition csv_field (s : string) : string :=
  if PyStr.contains "," s || PyStr.contains "034" s
     || PyStr.contains "010" s || PyStr.contains "013" s
  then quoted (PyStr.replace "034" (dquote +:+ dquote) s)
  else s.

(** [self._write_supplement(filename, fieldnames, data)] *)
Definition _write_supplement (filename : string) (fieldnames : list string)
  (data : list record) : file :=
  (filename,
   join "," (csv_field <$> fieldnames)
   :: ((fun e : record =>
          join "," ((fun f => csv_field (from_option str_of_val EmptyString (dict_get f e)))
                    <$> fieldnames)) <$> data)).

(** [self._read_daily_csv(filepath, value_cols)]: the cells are copied
    as text, nothing is converted. *)
Definition _read_daily_csv (content : option (list row))
  (value_cols : list (string * string)) : list record :=
  match content with
  | None => []
  | Some rows =>
      omap (fun r : row =>
              match window_date (get_text r "timestamp") with
              | Some d =>
                  Some (foldl (fun (e : record) '(out_key, csv_key) =>
                                 dict_set out_key (VText (get_text r csv_key)) e)
                              [("date", VText (strftime_ymd d))] value_cols)
              | None => None
              end) rows
  end.

(** [entry['resting_hr'] = round(float(entry['resting_hr']), 1)] inside
    [try ... except (ValueError, TypeError): pass]. *)
Definition round_resting_hr (e : record) : record :=
  match dict_get "resting_hr" e with
  | Some v =>
      match (match v with VText s => float_of_string s | VFloat x => Ok x end) with
      | Ok x => dict_set "resting_hr" (VFloat (round_ndigits x 1)) e
      | Raise _ => e
      end
  | None => e
  end.

Definition rhr_data (ex : export) : list record :=
  round_resting_hr <$>
    _read_daily_csv (daily_resting_heart_rate_csv ex) [("resting_hr", "beats per minute")].

Definition hrv_data (ex : export) : list record :=
  _read_daily_csv (daily_heart_rate_variability_csv ex)
    [("hrv_rmssd", "average heart rate variability milliseconds");
     ("nrem_hr", "non rem heart rate beats per minute");
     ("entropy", "entropy");
     ("deep_sleep_rmssd",
      "deep sleep root mean square of successive differences milliseconds")].

Definition rr_data (ex : export) : list record :=
  _read_daily_csv (daily_respiratory_rate_csv ex)
    [("respiratory_rate", "breaths per minute")].

Definition spo2_row : step (list record) row :=
  fun spo2_data r =>
  match window_date (get_text r "timestamp") with
  | Some d =>
      (spo2_data ++ [[("date", VText (strftime_ymd d));
                      ("avg_spo2", VText (get_text r "average_value"));
                      ("min_spo2", VText (get_text r "lower_bound"));
                      ("max_spo2", VText (get_text r "upper_bound"))]], None)
  | None => (spo2_data, None)
  end.

Definition spo2_data (ex : export) : list record * list warning :=
  fold_files (fold_rows spo2_row) [] (sorted_files (spo2_csv ex)).

Definition sleep_score_data (ex : export) : list record :=
  match sleep_score_csv ex with
  | None => []
  | Some rows =>
      omap (fun r : row =>
              match window_date (get_text r "timestamp") with
              | Some d =>
                  Some [("date", VText (strftime_ymd d));
                        ("overall_score", VText (get_text r "overall_score"));
                        ("composition_score", VText (get_text r "composition_score"));
                        ("revitalization_score", VText (get_text r "revitalization_score"));
                        ("duration_score", VText (get_text r "duration_score"));
                        ("deep_sleep_min", VText (get_text r "deep_sleep_in_minutes"));
                        ("resting_hr", VText (get_text r "resting_heart_rate"))]
              | None => None
              end) rows
  end.

Definition readiness_data (ex : export) : list record :=
  _read_daily_csv (daily_readiness_csv ex)
    [("score", "score"); ("level", "type");
     ("hrv_readiness", "heart rate variability readiness");
     ("rhr_readiness", "resting heart rate readiness");
     ("sleep_readiness", "sleep readiness")].

Definition generate_supplementary_csvs (ex : export) : stage unit :=
  mkstage (spo2_data ex).2
    [_write_supplement "garmin_supplement_resting_hr.csv" ["date"; "resting_hr"]
       (rhr_data ex);
     _write_supplement "garmin_supplement_hrv.csv"
       ["date"; "hrv_rmssd"; "nrem_hr"; "entropy"; "deep_sleep_rmssd"] (hrv_data ex);
     _write_supplement "garmin_supplement_respiratory_rate.csv"
       ["date"; "respiratory_rate"] (rr_data ex);
     _write_supplement "garmin_supplement_spo2.csv"
       ["date"; "avg_spo2"; "min_spo2"; "max_spo2"] (spo2_data ex).1;
     _write_supplement "garmin_supplement_sleep_scores.csv"
       ["date"; "overall_score"; "composition_score"; "revitalization_score";
        "duration_score"; "deep_sleep_min"; "resting_hr"] (sleep_score_data ex);
     _write_supplement "garmin_supplement_readiness.csv"
       ["date"; "score"; "level"; "hrv_readiness"; "rhr_readiness"; "sleep_readiness"]
       (readiness_data ex)]
    (Ok ()).

(* ---------------------------------------------------------------- *)
(** ** Run all *)
(* ---------------------------------------------------------------- *)

(** The counts of the closing summary: [len(body_data)],
    [len(all_dates)] and [len(sleep_data)]. *)
Record manifest : Type := mkmanifest {
  body_entries : nat;
  activity_days : nat;
  sleep_nights : nat
}.

(** A run of [convert]: every warning printed, every file written, and
    the summary, or the exception that ended the run. *)
Record run : Type := mkrun {
  run_warnings : list warning;
  run_files : list file;
  run_result : result manifest
}.

(** One more stage after what has run so far; an exception ends the run
    with the files written up to it. *)
Definition then_stage {A} (ws : list warning) (fs : list file) (st : stage A)
  (k : list warning → list file → A → run) : run :=
  match st_returned st with
  | Ok a => k (ws ++ st_warnings st) (fs ++ st_files st) a
  | Raise e => mkrun (ws ++ st_warnings st) (fs ++ st_files st) (Raise e)
  end.

Definition convert (ex : export) : run :=
  if negb (fitbit_dir_exists ex) then mkrun [] [] (Raise SystemExit)
  else if negb (pa_dir_exists ex) then mkrun [] [] (Raise SystemExit)
  else
    then_stage [] [] (generate_body_csv ex) (fun ws fs body_data =>
    then_stage ws fs (generate_activities_csv ex) (fun ws fs dates =>
    then_stage ws fs (generate_sleep_csv ex) (fun ws fs sleep_data =>
    then_stage ws fs (generate_supplementary_csvs ex) (fun ws fs _ =>
    mkrun ws fs (Ok (mkmanifest (size body_data) (length dates) (length sleep_data))))))).

End Converter.

(* ================================================================== *)
(** * Reference inputs *)
(* ================================================================== *)

(** The window [main] builds when no date is given. *)
Definition default_start : date := mkdate 2000 1 1.
Definition default_end : date := mkdate 2099 12 31.

(** A row from its cells. *)
Definition row_of (cells : list (string * string)) : row := list_to_map cells.

(** A Takeout folder with its directories and no file. *)
Definition empty_export : export :=
  mkexport true true [] None [] [] [] [] [] [] [] [] [] None None None None [] None.

(** The folder with one per-minute file of one row, dated 2025-01-15, in
    the family read under [col]. *)
Definition minute_row (col v : string) : list (string * list row) :=
  [(col +:+ "_2025-01-15.csv",
    [row_of [("timestamp", "2025-01-15T00:00:00Z"); (col, v)]])].

Definition calories_fixture (v : string) : export :=
  mkexport true true [] None [] [] (minute_row "calories" v) [] [] [] [] [] []
    None None None None [] None.


Definition floors_fixture (v : string) : export :=
  mkexport true true [] None [] [] [] [] (minute_row "floors" v) [] [] [] []
    None None None None [] None.

(** One session file with one record: the start parses and lies in the
    window, the end is not a timestamp. *)
Definition open_ended_sleep_fixture : export :=
  mkexport true true [] None [] [] [] [] [] [] []
    [("UserSleeps_2025-01-15.csv",
      [row_of [("sleep_id", "s1");
               ("sleep_start", "2025-01-15 22:10:00+0000");
               ("sleep_end", "unknown");
               ("minutes_asleep", "420"); ("minutes_awake", "60");
               ("minutes_in_sleep_period", "480");
               ("start_utc_offset", "+01:00"); ("end_utc_offset", "+01:00")]])]
    [] None None None None [] None.

(** The same folder with [weight.csv] replaced. *)
Definition with_weight_csv (w : option (list row)) (ex : export) : export :=
  mkexport (fitbit_dir_exists ex) (pa_dir_exists ex) (weight_json ex) w
    (body_fat_csv ex) (steps_csv ex) (calories_csv ex) (distance_csv ex)
    (floors_csv ex) (active_minutes_csv ex) (activity_level_csv ex)
    (user_sleeps_csv ex) (user_sleep_stages_csv ex)
    (daily_resting_heart_rate_csv ex) (daily_heart_rate_variability_csv ex)
    (daily_respiratory_rate_csv ex) (daily_readiness_csv ex) (spo2_csv ex)
    (sleep_score_csv ex).

(** A weight of 150 lb with BMI 22.5 and 18 % fat on 2025-01-15 in the
    JSON source, and [weight.csv] with 70 kg on that day and 71 kg on the
    next. *)
Definition weight_json_150lb : list (string * json_file) :=
  [("weight-2025-01-15.json",
    JsonArray [list_to_map [("date", JStr "01/15/25"); ("weight", JInt 150);
                            ("bmi", JStr "22.5"); ("fat", JInt 18)]])].

Definition both_sources_fixture : export :=
  mkexport true true weight_json_150lb
    (Some [row_of [("timestamp", "2025-01-15T07:00:00Z"); ("weight grams", "70000")];
           row_of [("timestamp", "2025-01-16T07:00:00Z"); ("weight grams", "71000")]])
    [] [] [] [] [] [] [] [] [] None None None None [] None.

(** [weight.csv] alone, 68000 g on 2025-01-15. *)
Definition fallback_only_fixture : export :=
  mkexport true true []
    (Some [row_of [("timestamp", "2025-01-15T07:00:00Z"); ("weight grams", "68000")]])
    [] [] [] [] [] [] [] [] [] None None None None [] None.

(** An entry written by the fallback: kilograms from the grams of some
    row of [rows] for that date, BMI and fat the integer 0. *)
Definition from_weight_csv (start_date end_date : date) (rows : list row)
  (k : string) (b : body_entry) : Prop :=
  bmi b = PInt 0 ∧ fat b = PInt 0
  ∧ ∃ r d g, r ∈ rows
      ∧ window_date start_date end_date (get_text r "timestamp") = Some d
      ∧ k = strftime_ymd d
      ∧ cell_float (r !! "weight grams") = Ok g
      ∧ weight b = PFloat (round_ndigits (fdiv g float_1000) 1).

(** A property of every integer from 0 below [n], checked one by one. *)
Fixpoint forall_below (n : nat) (p : Z → bool) : bool :=
  match n with
  | O => true
  | S n' => p (Z.of_nat n') && forall_below n' p
  end.

(** An offset as the export records it: a sign, two digits of hours, a
    colon and two digits of minutes. *)
Definition offset_text (neg : bool) (hh mm : Z) : string :=
  String (if neg then "-" else "+")%char (pad2 hh +:+ ":" +:+ pad2 mm).

(** A session from 22:10 to 06:10 UTC, recorded with the offsets +05:30
    at its start and -05:30 at its end. *)
Definition half_hour_offset_fixture : export :=
  mkexport true true [] None [] [] [] [] [] [] []
    [("UserSleeps_2025-01-15.csv",
      [row_of [("sleep_id", "s1");
               ("sleep_start", "2025-01-15 22:10:00+0000");
               ("sleep_end", "2025-01-16 06:10:00+0000");
               ("minutes_asleep", "420"); ("minutes_awake", "60");
               ("minutes_in_sleep_period", "480");
               ("start_utc_offset", "+05:30"); ("end_utc_offset", "-05:30")]])]
    [] None None None None [] None.

(* ================================================================== *)
(** * Records outside the window *)
(* ================================================================== *)

Section Outside.
Variables start_date end_date : date.

(** The date of a record parses and lies outside [start_date, end_date]. *)
Definition outside (text : string) : bool :=
  match parse_date text with
  | Some d => negb (in_window start_date end_date d)
  | None => false
  end.

(** The same for a row of a file keyed by [timestamp], an entry of a
    weight JSON file and a row of a [UserSleeps] file, whose date is the
    date of its start. *)
Definition row_outside (r : row) : bool := outside (get_text r "timestamp").

Definition entry_outside (e : entry) : bool :=
  outside (str_of_jval (jget e "date" (JStr EmptyString))).

Definition sleep_outside (r : row) : bool :=
  match parse_sleep_datetime (get_text r "sleep_start") with
  | Some t => negb (in_window start_date end_date (dt_date t))
  | None => false
  end.

(** A file without its records outside the window. *)
Definition keep_rows (rows : list row) : list row :=
  List.filter (λ r, negb (row_outside r)) rows.

Definition keep_sleeps (rows : list row) : list row :=
  List.filter (λ r, negb (sleep_outside r)) rows.

Definition keep_entries (jf : json_file) : json_file :=
  match jf with
  | JsonError => JsonError
  | JsonArray entries => JsonArray (List.filter (λ e, negb (entry_outside e)) entries)
  end.

(** The folder without any record outside the window. The sleep stage
    files are as they were: their rows carry no date that is compared
    with the window. *)
Definition prune (ex : export) : export :=
  mkexport (fitbit_dir_exists ex) (pa_dir_exists ex)
    (prod_map id keep_entries <$> weight_json ex)
    (keep_rows <$> weight_csv ex)
    (prod_map id keep_rows <$> body_fat_csv ex)
    (prod_map id keep_rows <$> steps_csv ex)
    (prod_map id keep_rows <$> calories_csv ex)
    (prod_map id keep_rows <$> distance_csv ex)
    (prod_map id keep_rows <$> floors_csv ex)
    (prod_map id keep_rows <$> active_minutes_csv ex)
    (prod_map id keep_rows <$> activity_level_csv ex)
    (prod_map id keep_sleeps <$> user_sleeps_csv ex)
    (user_sleep_stages_csv ex)
    (keep_rows <$> daily_resting_heart_rate_csv ex)
    (keep_rows <$> daily_heart_rate_variability_csv ex)
    (keep_rows <$> daily_respiratory_rate_csv ex)
    (keep_rows <$> daily_readiness_csv ex)
    (prod_map id keep_rows <$> spo2_csv ex)
    (keep_rows <$> sleep_score_csv ex).

End Outside.

(** Steps on 1999-12-31, before the default window, and on 2025-01-15. *)
Definition steps_outside_fixture : export :=
  mkexport true true [] None []
    [("steps_2025-01-15.csv",
      [row_of [("timestamp", "1999-12-31T23:59:00Z"); ("steps", "100")];
       row_of [("timestamp", "2025-01-15T00:00:00Z"); ("steps", "12")]])]
    [] [] [] [] [] [] [] None None None None [] None.

(* ================================================================== *)
(** * The three encodings of a calendar day *)
(* ================================================================== *)

(** ISO [YYYY-MM-DD]. *)
Definition iso_text (y m d : Z) : string := strftime_ymd (mkdate y m d).

(** US [MM/DD/YY]. *)
Definition us_text (y m d : Z) : string :=
  pad2 m +:+ "/" +:+ pad2 d +:+ "/" +:+ pad2 (y mod 100).

(** The time of day [HH:MM:SS], with a final [Z] or without. *)
Definition hms_text (h mi s : Z) : string :=
  pad2 h +:+ ":" +:+ pad2 mi +:+ ":" +:+ pad2 s.

Definition time_text (h mi s : Z) (z : bool) : string :=
  hms_text h mi s +:+ (if z then "Z" else EmptyString).

(** The year a two-digit year stands for. *)
Definition century (yy : Z) : Z := if yy <=? 68 then 2000 + yy else 1900 + yy.

(** Every day from 1969 to 2068 in ISO form, and every month, day and
    two-digit year in US form, checked one by one. *)
Definition iso_check (y m d : Z) : bool :=
  bool_decide (strptime_ymd (iso_text y m d) = make_date y m d).

Definition us_check (m d yy : Z) : bool :=
  bool_decide (strptime_mdy (pad2 m +:+ "/" +:+ pad2 d +:+ "/" +:+ pad2 yy)
               = make_date (century yy) m d)
  && bool_decide (strptime_ymd (pad2 m +:+ "/" +:+ pad2 d +:+ "/" +:+ pad2 yy) = None).

(** A timestamp [YYYY-MM-DDTHH:MM:SS], with a final [Z] or without. *)
Definition timestamp_text (y m d h mi s : Z) (z : bool) : string :=
  iso_text y m d +:+ String "T" (time_text h mi s z).

(** No character of [s] is in the class [p]. *)
Fixpoint free_of (p : ascii → bool) (s : string) : bool :=
  match s with
  | EmptyString => true
  | String c s' => negb (p c) && free_of p s'
  end.

(** The classes the parsers look for hold no digit. *)
Definition digit_free (p : ascii → bool) : Prop :=
  ∀ k, 0 ≤ k ≤ 9 → p (digit_char k) = false.

(* ================================================================== *)
(** * Malformed numeric fields *)
(* ================================================================== *)

(** [daily_resting_heart_rate.csv] with text that is no number in its
    first row and a number in its second. *)
Definition resting_hr_malformed_fixture : export :=
  mkexport true true [] None [] [] [] [] [] [] [] [] []
    (Some [row_of [("timestamp", "2025-01-15"); ("beats per minute", "abc")];
           row_of [("timestamp", "2025-01-16"); ("beats per minute", "61.26")]])
    None None None [] None.

(** No weight JSON, so that [weight.csv] is read, with text that is no
    number in its only row; and a steps file that is in order. *)
Definition weight_csv_malformed_fixture : export :=
  mkexport true true []
    (Some [row_of [("timestamp", "2025-01-15T07:00:00Z"); ("weight grams", "abc")]])
    []
    [("steps_2025-01-15.csv",
      [row_of [("timestamp", "2025-01-15T00:00:00Z"); ("steps", "12")]])]
    [] [] [] [] [] [] [] None None None None [] None.

(** Two steps files: the first has text that is no number in its second
    of three rows, the second is in order. *)
Definition steps_malformed_fixture : export :=
  mkexport true true [] None []
    [("steps_a.csv",
      [row_of [("timestamp", "2025-01-15T00:00:00Z"); ("steps", "10")];
       row_of [("timestamp", "2025-01-15T00:01:00Z"); ("steps", "abc")];
       row_of [("timestamp", "2025-01-15T00:02:00Z"); ("steps", "5")]]);
     ("steps_b.csv",
      [row_of [("timestamp", "2025-01-15T00:03:00Z"); ("steps", "7")]])]
    [] [] [] [] [] [] [] None None None None [] None.

(** Two weight JSON files: the first holds a weight that is no number,
    the second is in order; and a steps file that is in order. *)
Definition weight_json_malformed_fixture : export :=
  mkexport true true
    [("weight-a.json",
      JsonArray [list_to_map [("date", JStr "01/15/25"); ("weight", JStr "abc")]]);
     ("weight-b.json",
      JsonArray [list_to_map [("date", JStr "01/16/25"); ("weight", JInt 150)]])]
    None []
    [("steps_2025-01-15.csv",
      [row_of [("timestamp", "2025-01-15T00:00:00Z"); ("steps", "12")]])]
    [] [] [] [] [] [] [] None None None None [] None.

(** The nine files of a run that ends. *)
Definition output_names : list string :=
  ["garmin_body.csv"; "garmin_activities.csv"; "garmin_sleep.csv";
   "garmin_supplement_resting_hr.csv"; "garmin_supplement_hrv.csv";
   "garmin_supplement_respiratory_rate.csv"; "garmin_supplement_spo2.csv";
   "garmin_supplement_sleep_scores.csv"; "garmin_supplement_readiness.csv"].

(* ================================================================== *)
(** * Dates in the tables *)
(* ================================================================== *)

(** [k] is the text [YYYY-MM-DD] of a date of the calendar inside the
    window. *)
Definition window_text (start_date end_date : date) (k : string) : Prop :=
  ∃ d, valid_date (year d) (month d) (day d) = true
       ∧ in_window start_date end_date d = true ∧ k = strftime_ymd d.

(** [d1 < d2] *)
Definition date_ltb (d1 d2 : date) : bool := date_leb d1 d2 && negb (date_leb d2 d1).

(** Every key of a dictionary is the text of a date in the window. *)
Definition keys_in_window (start_date end_date : date) {V} (m : gmap string V) : Prop :=
  ∀ k, is_Some (m !! k) → window_text start_date end_date k.

(** The nine files with their header lines and no row. *)
Definition header_only_files : list file :=
  [("garmin_body.csv", ["Body"; "Date,Weight,BMI,Fat"]);
   ("garmin_activities.csv", activities_header);
   ("garmin_sleep.csv", sleep_header);
   ("garmin_supplement_resting_hr.csv", ["date,resting_hr"]);
   ("garmin_supplement_hrv.csv", ["date,hrv_rmssd,nrem_hr,entropy,deep_sleep_rmssd"]);
   ("garmin_supplement_respiratory_rate.csv", ["date,respiratory_rate"]);
   ("garmin_supplement_spo2.csv", ["date,avg_spo2,min_spo2,max_spo2"]);
   ("garmin_supplement_sleep_scores.csv",
    ["date,overall_score,composition_score,revitalization_score,"
       +:+ "duration_score,deep_sleep_min,resting_hr"]);
   ("garmin_supplement_readiness.csv",
    ["date,score,level,hrv_readiness,rhr_readiness,sleep_readiness"])].

(** The warnings for the weight files that [json.load] rejects, in the
    order of the file names. *)
Definition json_load_warnings (ex : export) : list warning :=
  omap (λ nf : string * json_file,
          match nf.2 with
          | JsonError => Some (nf.1, ValueError)
          | JsonArray _ => None
          end) (sorted_files (weight_json ex)).

(** The month and the day of [%Y-%m-%d], read after the year. *)
Definition month_day_paths (s1 : string) : list (Z * Z * string) :=
  s2 ← expect "-" s1; '(m, s3) ← alts_m s2; s4 ← expect "-" s3;
  '(d, s5) ← alts_d s4; [(m, d, s5)].

(** Every month and day in two digits is read back, checked one by one. *)
Definition month_day_check (m d : Z) : bool :=
  (m =? 0) || (d =? 0)
  || bool_decide (head (month_day_paths ("-" +:+ pad2 m +:+ "-" +:+ pad2 d))
                  = Some (m, d, EmptyString)).

(* ================================================================== *)
(** * CLI entry point *)
(* ================================================================== *)

(** [--start] and [--end]: an option that is absent or empty gives the
    default; otherwise [strptime] reads it as [%Y-%m-%d], and [main]
    prints an error and exits when it cannot. *)
Definition arg_date (arg : option string) (dflt : date) : result date :=
  match arg with
  | None => Ok dflt
  | Some EmptyString => Ok dflt
  | Some s =>
      match strptime_ymd s with
      | Some d => Ok d
      | None => Raise SystemExit
      end
  end.

(** [main()], from the parsed arguments on; the folder named by
    [fitbit_dir] is [ex]. *)
Definition main (start end_ : option string) (ex : export) : run :=
  match arg_date start default_start with
  | Raise e => mkrun [] [] (Raise e)
  | Ok start_date =>
      match arg_date end_ default_end with
      | Raise e => mkrun [] [] (Raise e)
      | Ok end_date => convert start_date end_date ex
      end
  end.

(** Every character of [s] is white space. *)
Definition all_space (s : string) : bool := free_of (λ c, negb (PyStr.is_space c)) s.

(* ================================================================== *)
(** * Counting rows *)
(* ================================================================== *)

(** A row of an activity level file that counts as a sedentary minute
    of the day [k]. *)
Definition sedentary_on (start_date end_date : date) (k : string) (r : row) : bool :=
  match window_date start_date end_date (get_text r "timestamp") with
  | Some d => String.eqb (strftime_ymd d) k && String.eqb (get_text r "level") "SEDENTARY"
  | None => false
  end.

(** The rows of a family of files in the order they are read. *)
Definition rows_in_order (files : list (string * list row)) : list row :=
  concat (sorted_files files).*2.

(** A row whose [timestamp] is a date inside the window. *)
Definition row_in_window (start_date end_date : date) (r : row) : bool :=
  match window_date start_date end_date (get_text r "timestamp") with
  | Some _ => true
  | None => false
  end.

(** The entry [_read_daily_csv] makes of the row [r]: its date as text
    and, under every output column, the cell of the source column. *)
Definition copied_from (start_date end_date : date) (value_cols : list (string * string))
  (r : row) (e : list (string * pyval)) : Prop :=
  ∃ d, window_date start_date end_date (get_text r "timestamp") = Some d
    ∧ dict_get "date" e = Some (VText (strftime_ymd d))
    ∧ ∀ out_key csv_key, (out_key, csv_key) ∈ value_cols →
        dict_get out_key e = Some (VText (get_text r csv_key)).

(* ================================================================== *)
(** * Sleep timestamps as the export writes them *)
(* ================================================================== *)

(** [YYYY-MM-DD HH:MM:SS], and an offset [+HHMM] after it. *)
Definition sleep_text (d : date) (h mi s : Z) : string :=
  strftime_ymd d +:+ String " " (hms_text h mi s).

Definition plus_offset_text (oh om : Z) : string := String "+" (pad2 oh +:+ pad2 om).

(* ================================================================== *)
(** * Conversions that round *)
(* ================================================================== *)





(* ================================================================== *)
(** * Properties *)
(* ================================================================== *)

(** ** Loops *)

Section Loops.
Context {S R : Type} (body : step S R).

Lemma fold_rows_app (s : S) (l1 l2 : list R) :
  fold_rows body s (l1 ++ l2) =
  match fold_rows body s l1 with
  | (s', None) => fold_rows body s' l2
  | (s', Some e) => (s', Some e)
  end.
Proof.
  revert s. induction l1 as [|r l1 IH]; intros s; simpl; [done|].
  destruct (body s r) as [s' [e|]]; [done|]. apply IH.
Qed.

(** Rows the body passes over can be left out. *)
Lemma fold_rows_filter (keep : R → bool) (s : S) (l : list R) :
  (∀ s r, keep r = false → body s r = (s, None)) →
  fold_rows body s (List.filter keep l) = fold_rows body s l.
Proof.
  intros Hskip. revert s. induction l as [|r l IH]; intros s; simpl; [done|].
  destruct (keep r) eqn:Hk; simpl.
  - destruct (body s r) as [s' [e|]]; [done|]. apply IH.
  - rewrite (Hskip s r Hk). apply IH.
Qed.

(** An invariant of the body holds of the accumulator the loop leaves,
    whether it ends or raises. *)
Lemma fold_rows_inv (P : S → Prop) (s : S) (l : list R) :
  P s →
  (∀ s r, P s → r ∈ l → P (body s r).1) →
  P (fold_rows body s l).1.
Proof.
  revert s. induction l as [|r l IH]; intros s Hs Hstep; simpl; [done|].
  pose proof (Hstep s r Hs (list_elem_of_here _ _)) as Hr.
  destruct (body s r) as [s' [e|]]; simpl in *; [done|].
  apply IH; [done|]. intros s0 r0 Hs0 Hin. apply Hstep; [done|]. by right.
Qed.

End Loops.

Lemma fold_files_app {S F} (read : step S F) (s : S) (fs1 fs2 : list (string * F)) :
  fold_files read s (fs1 ++ fs2) =
  let '(s1, w1) := fold_files read s fs1 in
  let '(s2, w2) := fold_files read s1 fs2 in
  (s2, w1 ++ w2).
Proof.
  revert s. induction fs1 as [|[name f] fs1 IH]; intros s; simpl.
  - by destruct (fold_files read s fs2).
  - destruct (read s f) as [s' oe]. rewrite IH.
    destruct (fold_files read s' fs1) as [s1 w1].
    destruct (fold_files read s1 fs2) as [s2 w2]. by destruct oe.
Qed.

Lemma fold_files_inv {S F} (read : step S F) (P : S → Prop) (s : S)
  (fs : list (string * F)) :
  P s →
  (∀ s f, P s → f ∈ fs.*2 → P (read s f).1) →
  P (fold_files read s fs).1.
Proof.
  revert s. induction fs as [|[name f] fs IH]; intros s Hs Hstep; simpl; [done|].
  pose proof (Hstep s f Hs (list_elem_of_here _ _)) as Hf.
  destruct (read s f) as [s' oe]; simpl in Hf.
  specialize (IH s' Hf).
  destruct (fold_files read s' fs) as [s'' ws]; simpl in *.
  apply IH. intros s0 f0 Hs0 Hin. apply Hstep; [done|]. by right.
Qed.

(** Two readers that agree on every file agree on the folder. *)
Lemma fold_files_ext {S F G} (read : step S F) (read' : step S G) (g : F → G)
  (s : S) (fs : list (string * F)) :
  (∀ s f, read' s (g f) = read s f) →
  fold_files read' s (prod_map id g <$> fs) = fold_files read s fs.
Proof.
  intros Hg. revert s. induction fs as [|[name f] fs IH]; intros s; simpl; [done|].
  rewrite Hg. destruct (read s f) as [s' oe]. by rewrite IH.
Qed.

(** ** [sorted] *)

Lemma elem_of_insert_by {A} (key : A → string) (x y : A) (l : list A) :
  y ∈ insert_by key x l ↔ y = x ∨ y ∈ l.
Proof.
  induction l as [|z l IH]; simpl.
  - rewrite list_elem_of_singleton, elem_of_nil. tauto.
  - destruct (String.leb (key x) (key z)).
    + by rewrite elem_of_cons.
    + rewrite !elem_of_cons, IH. tauto.
Qed.

Lemma elem_of_sorted_by {A} (key : A → string) (y : A) (l : list A) :
  y ∈ sorted_by key l ↔ y ∈ l.
Proof.
  induction l as [|x l IH]; simpl; [done|].
  rewrite elem_of_insert_by, IH, elem_of_cons. tauto.
Qed.

Lemma insert_by_Permutation {A} (key : A → string) (x : A) (l : list A) :
  insert_by key x l ≡ₚ x :: l.
Proof.
  induction l as [|z l IH]; simpl; [done|].
  destruct (String.leb (key x) (key z)); [done|].
  rewrite IH. apply Permutation_swap.
Qed.

Lemma sorted_by_Permutation {A} (key : A → string) (l : list A) :
  sorted_by key l ≡ₚ l.
Proof.
  induction l as [|x l IH]; simpl; [done|].
  by rewrite insert_by_Permutation, IH.
Qed.

Lemma insert_by_fmap {A B} (key : B → string) (g : A → B) (x : A) (l : list A) :
  insert_by key (g x) (g <$> l) = g <$> insert_by (key ∘ g) x l.
Proof.
  induction l as [|z l IH]; simpl; [done|].
  destruct (String.leb (key (g x)) (key (g z))); simpl; [done|]. f_equal. apply IH.
Qed.

Lemma sorted_by_fmap {A B} (key : B → string) (g : A → B) (l : list A) :
  sorted_by key (g <$> l) = g <$> sorted_by (key ∘ g) l.
Proof.
  induction l as [|x l IH]; [done|].
  change (insert_by key (g x) (sorted_by key (g <$> l))
          = g <$> insert_by (key ∘ g) x (sorted_by (key ∘ g) l)).
  by rewrite IH, insert_by_fmap.
Qed.

(** ** Writing loops *)

Lemma emit_elem_of {X Y} (f : X → result Y) (xs : list X) (y : Y) :
  y ∈ (emit f xs).1 → ∃ x, x ∈ xs ∧ f x = Ok y.
Proof.
  induction xs as [|x xs IH]; simpl; [by intros ?%elem_of_nil|].
  destruct (f x) as [y0|e] eqn:Hx; simpl; [|by intros ?%elem_of_nil].
  destruct (emit f xs) as [ys oe]; simpl in *.
  intros [->|Hin]%elem_of_cons.
  - exists x. split; [by left|done].
  - destruct (IH Hin) as (x' & ? & ?). exists x'. split; [by right|done].
Qed.

Lemma emit_all {X Y} (f : X → result Y) (xs : list X) (ys : list Y) :
  emit f xs = (ys, None) → Forall2 (λ x y, f x = Ok y) xs ys.
Proof.
  revert ys. induction xs as [|x xs IH]; intros ys; simpl.
  - intros [= <-]. constructor.
  - destruct (f x) as [y0|e] eqn:Hx; [|done].
    destruct (emit f xs) as [ys' oe]. intros [= <- ->].
    constructor; [done|]. by apply IH.
Qed.

Lemma emit_total {X Y} (f : X → result Y) (xs : list X) :
  (∀ x, x ∈ xs → is_ok (f x) = true) → ∃ ys, emit f xs = (ys, None).
Proof.
  induction xs as [|x xs IH]; intros Hok; simpl; [by eexists|].
  pose proof (Hok x (list_elem_of_here _ _)) as Hx.
  destruct (f x) as [y|e]; [|done].
  destruct IH as [ys Hys]; [intros; apply Hok; by right|].
  rewrite Hys. by eexists.
Qed.

(** ** Activities *)

Lemma activity_row_of_act_cal (a : activity_data) (ds : string) (r : activity_row) :
  activity_row_of a ds = Ok r →
  ar_date r = ds
  ∧ ar_act_cal r = (if 0 <? ar_cal r then Z.max 0 (ar_cal r - 1500) else 0).
Proof.
  unfold activity_row_of, rbind. intros H.
  repeat match type of H with
         | match ?x with _ => _ end = _ => destruct x; try discriminate
         end; injection H as <-; done.
Qed.

(** C4: in every row written to the Activities table the activity
    calories are [max(0, calories - 1500)] when the calories are positive
    and 0 otherwise; 2200 gives 700, 1200 gives 0 and 0 gives 0. *)
Theorem activity_calories_derived (start_date end_date : date) (ex : export) :
  Forall (λ r, ar_act_cal r = if 0 <? ar_cal r then Z.max 0 (ar_cal r - 1500) else 0)
    (activity_rows start_date end_date ex).1
  ∧ (λ r, (ar_cal r, ar_act_cal r))
      <$> (activity_rows default_start default_end (calories_fixture "2200")).1
    = [(2200, 700)]
  ∧ (λ r, (ar_cal r, ar_act_cal r))
      <$> (activity_rows default_start default_end (calories_fixture "1200")).1
    = [(1200, 0)]
  ∧ (λ r, (ar_cal r, ar_act_cal r))
      <$> (activity_rows default_start default_end (calories_fixture "0")).1
    = [(0, 0)].
Proof.
  split; [|by vm_compute].
  apply Forall_forall. intros r Hr.
  apply emit_elem_of in Hr as (ds & _ & Hrow).
  by apply activity_row_of_act_cal in Hrow as [_ ?].
Qed.

Lemma round_int_finite (x : pyfloat) : is_finite x = true → is_ok (round_int x) = true.
Proof. by destruct x. Qed.

Lemma int_of_float_finite (x : pyfloat) : is_finite x = true → is_ok (int_of_float x) = true.
Proof. by destruct x. Qed.

Lemma activity_row_of_finite (a : activity_data) (ds : string) :
  (∀ x, daily_calories a !! ds = Some x ∨ daily_steps a !! ds = Some x
        ∨ daily_floors a !! ds = Some x → is_finite x = true) →
  is_ok (activity_row_of a ds) = true.
Proof.
  intros Hfin. unfold activity_row_of, rbind.
  destruct (daily_calories a !! ds) as [c|] eqn:Hc.
  - pose proof (round_int_finite c (Hfin c (or_introl eq_refl))) as Hok.
    destruct (round_int c); [|done].
    destruct (daily_steps a !! ds) as [s|] eqn:Hs.
    + pose proof (int_of_float_finite s (Hfin s (or_intror (or_introl eq_refl)))) as Hok'.
      destruct (int_of_float s); [|done].
      destruct (daily_floors a !! ds) as [f|] eqn:Hf; [|done].
      pose proof (int_of_float_finite f (Hfin f (or_intror (or_intror eq_refl)))) as Hok''.
      by destruct (int_of_float f).
    + destruct (daily_floors a !! ds) as [f|] eqn:Hf; [|done].
      pose proof (int_of_float_finite f (Hfin f (or_intror (or_intror eq_refl)))) as Hok''.
      by destruct (int_of_float f).
  - destruct (daily_steps a !! ds) as [s|] eqn:Hs.
    + pose proof (int_of_float_finite s (Hfin s (or_intror (or_introl eq_refl)))) as Hok'.
      destruct (int_of_float s); [|done].
      destruct (daily_floors a !! ds) as [f|] eqn:Hf; [|done].
      pose proof (int_of_float_finite f (Hfin f (or_intror (or_intror eq_refl)))) as Hok''.
      by destruct (int_of_float f).
    + destruct (daily_floors a !! ds) as [f|] eqn:Hf; [|done].
      pose proof (int_of_float_finite f (Hfin f (or_intror (or_intror eq_refl)))) as Hok''.
      by destruct (int_of_float f).
Qed.

Lemma elem_of_all_dates (a : activity_data) (ds : string) :
  ds ∈ all_dates a ↔
  ds ∈ dom (daily_steps a) ∨ ds ∈ dom (daily_calories a) ∨ ds ∈ dom (daily_distance a).
Proof.
  unfold all_dates. rewrite elem_of_sorted_by, elem_of_elements, !elem_of_union. tauto.
Qed.

Lemma emit_dates (a : activity_data) (dates : list string) (rows : list activity_row) :
  Forall2 (λ ds r, activity_row_of a ds = Ok r) dates rows → ar_date <$> rows = dates.
Proof.
  induction 1 as [|ds r dates rows Hr _ IH]; [done|].
  apply activity_row_of_act_cal in Hr as [<- _]. rewrite fmap_cons. by f_equal.
Qed.

(** C9: the Activities table has a row for a date exactly when the date
    is a key of the steps, calories or distance totals; a date with floors,
    active minutes or sedentary minutes only gets no row. *)
Theorem activity_rows_follow_steps_calories_distance
  (start_date end_date : date) (ex : export) :
  let a := (read_activities start_date end_date ex).1 in
  let rows := (activity_rows start_date end_date ex).1 in
  (∀ ds, ds ∈ all_dates a ↔
         ds ∈ dom (daily_steps a) ∨ ds ∈ dom (daily_calories a)
         ∨ ds ∈ dom (daily_distance a))
  ∧ (∀ r, r ∈ rows → ar_date r ∈ all_dates a)
  ∧ ((activity_rows start_date end_date ex).2 = None → ar_date <$> rows = all_dates a)
  ∧ ((∀ ds x, daily_calories a !! ds = Some x ∨ daily_steps a !! ds = Some x
              ∨ daily_floors a !! ds = Some x → is_finite x = true) →
     (activity_rows start_date end_date ex).2 = None)
  ∧ st_files (generate_activities_csv start_date end_date ex)
    = [("garmin_activities.csv", activities_header ++ (activity_line <$> rows))]
  ∧ daily_floors (read_activities default_start default_end (floors_fixture "3")).1
      !! "2025-01-15" = Some (float_of_decimal false 3 0)
  ∧ activity_rows default_start default_end (floors_fixture "3") = ([], None).
Proof.
  intros a rows. split_and!.
  - apply elem_of_all_dates.
  - intros r Hr. apply emit_elem_of in Hr as (ds & Hds & Hrow).
    by apply activity_row_of_act_cal in Hrow as [-> _].
  - intros Hnone. subst rows a. unfold activity_rows in *.
    destruct (emit _ _) as [rows oe] eqn:Hemit. simpl in *. subst oe.
    by apply emit_dates with (a := (read_activities start_date end_date ex).1), emit_all.
  - intros Hfin. unfold activity_rows.
    destruct (emit_total (activity_row_of a) (all_dates a)) as [ys Hys].
    + intros ds _. apply activity_row_of_finite. intros x. apply Hfin.
    + subst a. by rewrite Hys.
  - subst rows a. unfold generate_activities_csv, activity_rows.
    destruct (read_activities start_date end_date ex) as [a ws]. simpl.
    by destruct (emit _ _) as [rows oe].
  - by vm_compute.
  - by vm_compute.
Qed.

(** ** Sleep sessions *)

Lemma dict_set_keys {V} (k : string) (v : V) (d : list (string * V)) :
  (dict_set k v d).*1 = if bool_decide (k ∈ d.*1) then d.*1 else d.*1 ++ [k].
Proof.
  induction d as [|[k' v'] d IH]; [done|].
  cbn [dict_set]. destruct (String.eqb_spec k k') as [->|Hne]; rewrite !fmap_cons; cbn [fst].
  - rewrite bool_decide_eq_true_2; [done|by left].
  - rewrite IH. destruct (bool_decide (k ∈ d.*1)) eqn:Hk.
    + apply bool_decide_eq_true in Hk. rewrite bool_decide_eq_true_2; [done|by right].
    + apply bool_decide_eq_false in Hk. rewrite bool_decide_eq_false_2; [done|].
      intros [?|?]%elem_of_cons; done.
Qed.

Lemma dict_set_NoDup {V} (k : string) (v : V) (d : list (string * V)) :
  NoDup d.*1 → NoDup (dict_set k v d).*1.
Proof.
  intros Hd. rewrite dict_set_keys. case_bool_decide as Hk; [done|].
  apply NoDup_app. split_and!; [done| |apply NoDup_singleton].
  intros x Hx ->%list_elem_of_singleton. done.
Qed.

Lemma user_sleeps_row_NoDup (start_date end_date : date)
  (sleeps : list (string * session)) (r : row) :
  NoDup sleeps.*1 → NoDup (user_sleeps_row start_date end_date sleeps r).1.*1.
Proof.
  intros Hd. unfold user_sleeps_row.
  destruct (parse_sleep_datetime _) as [t|]; [|done].
  destruct (in_window _ _ _); [|done].
  unfold commit, rbind.
  repeat (match goal with |- context [cell_int ?c] => destruct (cell_int c) end;
          simpl; [|done]).
  by apply dict_set_NoDup.
Qed.

Lemma read_sleeps_NoDup (start_date end_date : date) (ex : export) :
  NoDup (read_sleeps start_date end_date ex).1.*1.
Proof.
  unfold read_sleeps. apply (fold_files_inv _ (λ d, NoDup d.*1)); [constructor|].
  intros s f Hs _. apply (fold_rows_inv _ (λ d, NoDup d.*1)); [done|].
  intros s' r Hs' _. by apply user_sleeps_row_NoDup.
Qed.

Lemma sleep_row_of_Some (stages : gmap string stage_acc) (ks : string * session)
  (r : sleep_row) :
  sleep_row_of stages ks = Ok (Some r) →
  sr_id r = ks.1 ∧ ∃ end_dt,
    s_end_dt ks.2 = Some end_dt
    ∧ add_hours (s_start_dt ks.2) (offset_hours (s_start_offset ks.2))
      = Ok (sr_start_local r)
    ∧ add_hours end_dt (offset_hours (s_end_offset ks.2)) = Ok (sr_end_local r).
Proof.
  destruct ks as [id s]. unfold sleep_row_of, rbind. cbn [fst snd].
  destruct (s_end_dt s) as [e|]; [|done].
  destruct (add_hours (s_start_dt s) _) as [sl|]; [|done].
  destruct (add_hours e _) as [el|] eqn:Hel; [|done].
  repeat (match goal with |- context [round_num ?c] => destruct (round_num c) end;
          [|done]).
  intros [= <-]. simpl. split; [done|]. by exists e.
Qed.

Lemma sleep_row_of_None (stages : gmap string stage_acc) (ks : string * session) :
  sleep_row_of stages ks = Ok None → s_end_dt ks.2 = None.
Proof.
  destruct ks as [id s]. unfold sleep_row_of, rbind. cbn [fst snd].
  destruct (s_end_dt s) as [e|]; [|done].
  destruct (add_hours (s_start_dt s) _) as [sl|]; [|done].
  destruct (add_hours e _) as [el|]; [|done].
  repeat (match goal with |- context [round_num ?c] => destruct (round_num c) end;
          [|done]).
  done.
Qed.

Lemma elem_of_emit_sleep (sleeps : list (string * session))
  (stages : gmap string stage_acc) (r : sleep_row) :
  r ∈ (emit_sleep sleeps stages).1 →
  ∃ ks, ks ∈ sleeps ∧ sleep_row_of stages ks = Ok (Some r).
Proof.
  unfold emit_sleep. destruct (emit _ _) as [rows oe] eqn:Hemit. simpl.
  intros (o & Hin & Ho)%list_elem_of_omap. simpl in Ho. subst o.
  assert (Some r ∈ (emit (sleep_row_of stages)
                      (sorted_by (λ ks, s_start ks.2) sleeps)).1) as Hr
    by (by rewrite Hemit).
  apply emit_elem_of in Hr as (ks & Hks & Hrow).
  exists ks. by rewrite elem_of_sorted_by in Hks.
Qed.

Lemma emit_sleep_length (stages : gmap string stage_acc) (xs : list (string * session)) :
  (length (omap id (emit (sleep_row_of stages) xs).1)
   ≤ length (filter (λ ks, is_Some (s_end_dt ks.2)) xs))%nat.
Proof.
  induction xs as [|ks xs IH]; simpl; [done|].
  destruct (sleep_row_of stages ks) as [[r|]|e] eqn:Hrow; simpl; [| |lia].
  - apply sleep_row_of_Some in Hrow as (_ & e & He & _).
    destruct (emit _ xs) as [ys oe]. simpl in *.
    rewrite filter_cons_True by (simpl; rewrite He; by eexists).
    change (list_omap _ _ id ys) with (omap id ys). simpl. lia.
  - apply sleep_row_of_None in Hrow.
    destruct (emit _ xs) as [ys oe]. simpl in *.
    rewrite filter_cons_False; [done|]. simpl. rewrite Hrow. by intros [? ?].
Qed.

Lemma dict_keys_unique {V} (d : list (string * V)) (k : string) (v1 v2 : V) :
  NoDup d.*1 → (k, v1) ∈ d → (k, v2) ∈ d → v1 = v2.
Proof.
  induction d as [|[k' v'] d IH]; [by intros _ ?%elem_of_nil|].
  rewrite fmap_cons. cbn [fst]. intros [Hk Hd]%NoDup_cons.
  intros [[= -> ->]|H1]%elem_of_cons [[= ->]|H2]%elem_of_cons; [done| | |by apply IH].
  - destruct Hk. apply list_elem_of_fmap. by exists (k', v2).
  - destruct Hk. apply list_elem_of_fmap. by exists (k', v1).
Qed.

(** C10: a session record whose start parses and lies in the window and
    whose end does not parse is stored in [sleeps] and counted, and no row
    is written for it: the rows can be fewer than the sessions reported. *)
Theorem sleep_session_without_end_counted_not_written
  (start_date end_date : date) (ex : export) :
  let sleeps := (read_sleeps start_date end_date ex).1 in
  let rows := (sleep_rows start_date end_date ex).1 in
  (∀ (sleeps0 : list (string * session)) (r : row) (start_dt : datetime),
     parse_sleep_datetime (get_text r "sleep_start") = Some start_dt →
     in_window start_date end_date (dt_date start_dt) = true →
     parse_sleep_datetime (get_text r "sleep_end") = None →
     is_ok (cell_int (r !! "minutes_asleep")) = true →
     is_ok (cell_int (r !! "minutes_awake")) = true →
     is_ok (cell_int (r !! "minutes_in_sleep_period")) = true →
     ∃ s, user_sleeps_row start_date end_date sleeps0 r
          = (dict_set (get_text r "sleep_id") s sleeps0, None)
          ∧ s_start_dt s = start_dt ∧ s_end_dt s = None)
  ∧ (∀ l, st_returned (generate_sleep_csv start_date end_date ex) = Ok l → l = sleeps)
  ∧ st_files (generate_sleep_csv start_date end_date ex)
    = [("garmin_sleep.csv", sleep_header ++ (sleep_line <$> rows))]
  ∧ (∀ r, r ∈ rows → ∃ s e, (sr_id r, s) ∈ sleeps ∧ s_end_dt s = Some e)
  ∧ (∀ id s, (id, s) ∈ sleeps → s_end_dt s = None →
       (∀ r, r ∈ rows → sr_id r ≠ id) ∧ (length rows < length sleeps)%nat)
  ∧ length (read_sleeps default_start default_end open_ended_sleep_fixture).1 = 1%nat
  ∧ sleep_rows default_start default_end open_ended_sleep_fixture = ([], None).
Proof.
  intros sleeps rows. split_and!.
  - intros sleeps0 r start_dt Hstart Hwin Hend Ha Hw Hp.
    unfold user_sleeps_row. rewrite Hstart, Hwin, Hend. unfold commit, rbind.
    destruct (cell_int (r !! "minutes_asleep")); [|done].
    destruct (cell_int (r !! "minutes_awake")); [|done].
    destruct (cell_int (r !! "minutes_in_sleep_period")); [|done].
    eexists. split_and!; [reflexivity|done..].
  - intros l. subst sleeps. unfold generate_sleep_csv.
    destruct (read_sleeps start_date end_date ex) as [sl w1]. simpl.
    destruct (read_sleep_stages _ sl) as [st w2].
    destruct (emit_sleep sl st) as [rs [e|]]; simpl; congruence.
  - subst rows sleeps. unfold generate_sleep_csv, sleep_rows.
    destruct (read_sleeps start_date end_date ex) as [sl w1]. simpl.
    destruct (read_sleep_stages _ sl) as [st w2]. simpl.
    by destruct (emit_sleep sl st) as [rs oe].
  - intros r Hr. apply elem_of_emit_sleep in Hr as ([id s] & Hin & Hrow).
    apply sleep_row_of_Some in Hrow as (Hid & e & He & _). simpl in *.
    exists s, e. by rewrite Hid.
  - intros id s Hin Hend. split.
    + intros r Hr Hid. apply elem_of_emit_sleep in Hr as ([id' s'] & Hin' & Hrow).
      apply sleep_row_of_Some in Hrow as (Hid' & e & He & _). simpl in *.
      assert (s' = s) as ->; [|congruence].
      eapply (dict_keys_unique sleeps id); [apply read_sleeps_NoDup| |done].
      by rewrite <- Hid, Hid'.
    + subst rows. unfold sleep_rows, emit_sleep.
      pose proof (emit_sleep_length
                    (read_sleep_stages ex sleeps).1
                    (sorted_by (λ ks, s_start ks.2) sleeps)) as Hlen.
      fold sleeps. destruct (emit _ _) as [ys oe]. simpl in *.
      eapply Nat.le_lt_trans; [exact Hlen|].
      rewrite <- (Permutation_length (sorted_by_Permutation (λ ks, s_start ks.2) sleeps)).
      apply (length_filter_lt _ _ (id, s)); [by apply elem_of_sorted_by|].
      simpl. rewrite Hend. by intros [? ?].
  - by vm_compute.
  - by vm_compute.
Qed.

(** ** Body metrics *)

Lemma weight_csv_rows_entries (start_date end_date : date) (rows : list row) :
  ∀ k b, (fold_rows (weight_csv_row start_date end_date) ∅ rows).1 !! k = Some b →
         from_weight_csv start_date end_date rows k b.
Proof.
  apply (fold_rows_inv _ (λ m, ∀ k b, m !! k = Some b →
                                from_weight_csv start_date end_date rows k b)).
  { intros k b. by rewrite lookup_empty. }
  intros m r Hm Hr k b. unfold weight_csv_row.
  destruct (window_date _ _ _) as [d|] eqn:Hd; [|by apply Hm].
  unfold commit, rbind.
  destruct (cell_float _) as [g|e] eqn:Hg; simpl; [|by apply Hm].
  destruct (decide (strftime_ymd d = k)) as [<-|Hne].
  - rewrite lookup_insert_eq. intros [= <-]. split_and!; [done..|].
    by exists r, d, g.
  - rewrite lookup_insert_ne by done. by apply Hm.
Qed.

Lemma weight_csv_rows_complete (start_date end_date : date) (rows : list row)
  (m m' : gmap string body_entry) :
  fold_rows (weight_csv_row start_date end_date) m rows = (m', None) →
  (∀ k, is_Some (m !! k) → is_Some (m' !! k))
  ∧ ∀ r d, r ∈ rows →
      window_date start_date end_date (get_text r "timestamp") = Some d →
      is_Some (m' !! strftime_ymd d).
Proof.
  revert m. induction rows as [|r rows IH]; intros m; simpl.
  - intros [= <-]. split; [done|]. by intros r d ?%elem_of_nil.
  - destruct (weight_csv_row start_date end_date m r) as [m1 [e|]] eqn:Hrow; [done|].
    intros Hfold. destruct (IH _ Hfold) as [Hmono Hall].
    assert (∀ k, is_Some (m !! k) → is_Some (m1 !! k)) as Hm1.
    { intros k Hk. revert Hrow. unfold weight_csv_row.
      destruct (window_date _ _ _) as [d|]; [|by intros [= <-]].
      unfold commit, rbind. destruct (cell_float _); simpl; [|done].
      intros [= <-]. rewrite lookup_insert. case_decide; [by eexists|done]. }
    split; [by auto|].
    intros r' d [->|Hin]%elem_of_cons Hd; [|by eapply Hall].
    apply Hmono. revert Hrow. unfold weight_csv_row. rewrite Hd.
    unfold commit, rbind. destruct (cell_float _); simpl; [|done].
    intros [= <-]. rewrite lookup_insert_eq. by eexists.
Qed.

Lemma body_from_json_with_weight_csv (start_date end_date : date)
  (w : option (list row)) (ex : export) :
  body_from_json start_date end_date (with_weight_csv w ex)
  = body_from_json start_date end_date ex.
Proof. done. Qed.

(** The enrichment from the body-fat files leaves weight and BMI of an
    entry as they are. *)
Lemma body_fat_keeps_weight (start_date end_date : date)
  (files : list (string * list row)) (m : gmap string body_entry) :
  ∀ k b, m !! k = Some b →
    ∃ b', (fold_files (fold_rows (body_fat_row start_date end_date)) m files).1 !! k
          = Some b'
          ∧ weight b' = weight b ∧ bmi b' = bmi b.
Proof.
  intros k b Hk.
  apply (fold_files_inv _ (λ m', ∃ b', m' !! k = Some b'
                                  ∧ weight b' = weight b ∧ bmi b' = bmi b)).
  { by exists b. }
  intros m1 rows Hm1 _.
  apply (fold_rows_inv _ (λ m', ∃ b', m' !! k = Some b'
                                 ∧ weight b' = weight b ∧ bmi b' = bmi b));
    [done|].
  intros m2 r (b2 & Hb2 & Hw & Hb) _. unfold body_fat_row.
  destruct (window_date _ _ _) as [d|]; [|by exists b2].
  unfold commit, rbind. destruct (cell_float _) as [f|]; simpl; [|by exists b2].
  destruct (decide (strftime_ymd d = k)) as [->|Hne].
  - rewrite Hb2. simpl. rewrite lookup_insert_eq. by eexists.
  - destruct (m2 !! strftime_ymd d); simpl; rewrite lookup_insert_ne by done;
      by exists b2.
Qed.

(** C1: when the JSON source left at least one record in [body_data],
    [weight.csv] has no part in the Body output; it is read only when the
    JSON source left none, and then every entry is a weight of the file in
    kilograms with BMI and fat 0. *)
Theorem body_source_precedence (start_date end_date : date) (ex : export) :
  let json := (body_from_json start_date end_date ex).1 in
  let primary := body_with_fallback start_date end_date ex in
  (size json ≠ 0%nat →
     primary = (json, None)
     ∧ ∀ w, generate_body_csv start_date end_date (with_weight_csv w ex)
            = generate_body_csv start_date end_date ex)
  ∧ (size json = 0%nat → ∀ rows, weight_csv ex = Some rows →
       primary = fold_rows (weight_csv_row start_date end_date) ∅ rows
       ∧ (∀ k b, primary.1 !! k = Some b →
                 from_weight_csv start_date end_date rows k b)
       ∧ (primary.2 = None →
          ∀ r d, r ∈ rows →
            window_date start_date end_date (get_text r "timestamp") = Some d →
            is_Some (primary.1 !! strftime_ymd d))
       ∧ (primary.2 = None → body_fat_csv ex = [] →
          generate_body_csv start_date end_date ex
          = mkstage (body_from_json start_date end_date ex).2
              [("garmin_body.csv", body_lines primary.1)] (Ok primary.1))
       ∧ (primary.2 = None →
          ∃ final, st_returned (generate_body_csv start_date end_date ex) = Ok final
            ∧ ∀ k b, primary.1 !! k = Some b →
                ∃ b', final !! k = Some b' ∧ weight b' = weight b ∧ bmi b' = bmi b))
  ∧ (generate_body_csv default_start default_end both_sources_fixture).(st_files)
    = [("garmin_body.csv",
        ["Body"; "Date,Weight,BMI,Fat";
         quoted_row ["2025-01-15"; "68.0"; "22.5"; "18.0"]])]
  ∧ (generate_body_csv default_start default_end fallback_only_fixture).(st_files)
    = [("garmin_body.csv",
        ["Body"; "Date,Weight,BMI,Fat";
         quoted_row ["2025-01-15"; "68.0"; "0"; "0"]])].
Proof.
  intros json primary. split_and!.
  - intros Hne. assert (primary = (json, None)) as Hp.
    { subst primary json. unfold body_with_fallback.
      by rewrite bool_decide_eq_false_2. }
    split; [done|]. intros w. unfold generate_body_csv.
    fold primary. rewrite Hp.
    unfold body_with_fallback. rewrite body_from_json_with_weight_csv.
    fold json. by rewrite bool_decide_eq_false_2.
  - intros Hz rows Hrows.
    assert (json = ∅) as Hempty by (by apply map_size_empty_iff).
    assert (primary = fold_rows (weight_csv_row start_date end_date) ∅ rows) as Hp.
    { subst primary. unfold body_with_fallback. fold json.
      rewrite bool_decide_eq_true_2 by done. by rewrite Hrows, Hempty. }
    split_and!; [done| | | |].
    + rewrite Hp. apply weight_csv_rows_entries.
    + rewrite Hp. intros Hnone r d Hr Hd.
      destruct (fold_rows _ ∅ rows) as [m' oe] eqn:Hfold. simpl in *. subst oe.
      by eapply weight_csv_rows_complete.
    + intros Hnone Hbf. unfold generate_body_csv. fold primary.
      destruct primary as [m oe]. simpl in *. subst oe. rewrite Hbf. simpl.
      by rewrite app_nil_r.
    + intros Hnone. unfold generate_body_csv. fold primary.
      destruct primary as [m oe]. simpl in *. subst oe.
      pose proof (body_fat_keeps_weight start_date end_date
                    (sorted_files (body_fat_csv ex)) m) as Hkeep.
      destruct (fold_files _ m _) as [final ws]. simpl in *.
      by exists final.
  - by vm_compute.
  - by vm_compute.
Qed.

(** ** Unit conversions *)




(** ** Sleep timestamps *)

Lemma contains_app (c : ascii) (a b : string) :
  PyStr.contains c (a +:+ b) = PyStr.contains c a || PyStr.contains c b.
Proof.
  induction a as [|d a IH]; simpl; [done|].
  by destruct (Ascii.eqb c d).
Qed.

Lemma rsplit1_None (c : ascii) (s : string) :
  PyStr.contains c s = false → PyStr.rsplit1 c s = None.
Proof.
  induction s as [|d s IH]; simpl; [done|].
  destruct (Ascii.eqb c d); [done|]. intros H. by rewrite IH.
Qed.

Lemma rsplit1_last (c : ascii) (a b : string) :
  PyStr.contains c b = false →
  PyStr.rsplit1 c (a +:+ String c b) = Some (a, b).
Proof.
  intros Hb. induction a as [|d a IH]; simpl.
  - by rewrite rsplit1_None, Ascii.eqb_refl.
  - by rewrite IH.
Qed.

(** C5, at the input where it fails: a colon is put into a four-digit
    offset after [+] only. With [-] the text falls into the branch for
    text without offset: the space becomes [T] and the offset reaches the
    ISO parser as [-0500]. A final [Z] is read as offset zero. *)
Theorem sleep_offset_colon_only_after_plus :
  (∀ base tz : string,
     PyStr.contains "+" tz = false →
     PyStr.contains "T" base = false → PyStr.contains "T" tz = false →
     String.length tz = 4%nat →
     sleep_iso_text (base +:+ String "+" tz)
     = PyStr.replace_first " " "T"
         (base +:+ "+" +:+ PyStr.take 2 tz +:+ ":" +:+ PyStr.drop 2 tz))
  ∧ (∀ s : string,
       PyStr.contains "+" s = false → PyStr.contains "T" s = false →
       sleep_iso_text s = PyStr.replace_first " " "T" s)
  ∧ sleep_iso_text "2025-12-03 21:12:30+0500" = "2025-12-03T21:12:30+05:00"
  ∧ sleep_iso_text "2025-12-03 21:12:30-0500" = "2025-12-03T21:12:30-0500"
  ∧ utcoffset <$> parse_sleep_datetime "2025-12-03 21:12:30Z" = Some (Some 0)
  ∧ utcoffset <$> parse_sleep_datetime "2025-12-03T21:12:30Z" = Some (Some 0)
  ∧ parse_sleep_datetime "2025-12-03 21:12:30+0000"
    = Some (mkdt (mkdate 2025 12 3) 21 12 30 0 (Some 0))
  ∧ parse_sleep_datetime "not a timestamp" = None.
Proof.
  split_and!.
  - intros base tz Hplus HTb HTt Hlen. unfold sleep_iso_text.
    rewrite !contains_app. simpl. rewrite HTb, HTt, orb_true_r. simpl.
    rewrite rsplit1_last by done.
    unfold PyStr.len. by rewrite Hlen.
  - intros s Hplus HT. unfold sleep_iso_text. by rewrite Hplus, HT.
  - by vm_compute.
  - by vm_compute.
  - by vm_compute.
  - by vm_compute.
  - by vm_compute.
  - by vm_compute.
Qed.

(** ** Local time of a sleep session *)

Lemma forall_below_spec (n : nat) (p : Z → bool) :
  forall_below n p = true → ∀ i, 0 ≤ i < Z.of_nat n → p i = true.
Proof.
  induction n as [|n IH]; simpl; [lia|].
  intros [Hn Hrest]%andb_true_iff i Hi.
  destruct (decide (i = Z.of_nat n)) as [->|Hne]; [done|].
  apply IH; [done|lia].
Qed.

Lemma offset_hours_text (neg : bool) (hh mm : Z) :
  0 ≤ hh < 100 → 0 ≤ mm < 100 →
  offset_hours (offset_text neg hh mm) = if neg then - hh else hh.
Proof.
  intros Hh Hm.
  set (p := λ h m, (offset_hours (offset_text true h m) =? - h)
                   && (offset_hours (offset_text false h m) =? h)).
  assert (forall_below 100 (λ h, forall_below 100 (p h)) = true) as Hall
    by (vm_compute; reflexivity).
  pose proof (forall_below_spec 100 _ Hall hh Hh) as Hhh. cbv beta in Hhh.
  pose proof (forall_below_spec 100 _ Hhh mm Hm) as Hmm. unfold p in Hmm.
  apply andb_true_iff in Hmm as [?%Z.eqb_eq ?%Z.eqb_eq]. by destruct neg.
Qed.

Lemma add_hours_wall_clock (t t' : datetime) (h : Z) :
  add_hours t h = Ok t' →
  utcoffset t' = utcoffset t
  ∧ dt_date t' = fromordinal ((wall_us t + h * 3600000000) / 86400000000)
  ∧ ((hour t' * 60 + minute t') * 60 + second t') * 1000000 + microsecond t'
    = (wall_us t + h * 3600000000) mod 86400000000.
Proof.
  unfold add_hours. destruct (_ && _); [|done]. intros [= <-]. simpl.
  split_and!; [done..|].
  set (rest := (wall_us t + h * 3600000000) mod 86400000000).
  pose proof (Z.div_mod rest 1000000 ltac:(lia)) as H1.
  pose proof (Z.div_mod (rest / 1000000) 60 ltac:(lia)) as H2.
  pose proof (Z.div_mod (rest / 60000000) 60 ltac:(lia)) as H3.
  assert (rest / 60000000 = rest / 1000000 / 60) as E1
    by (rewrite Z.div_div by lia; done).
  assert (rest / 3600000000 = rest / 60000000 / 60) as E2
    by (rewrite Z.div_div by lia; done).
  lia.
Qed.

(** C7: the two times of a row are the session's start and end instants
    plus the whole hours of its offsets; the minutes of an offset play no
    part. *)
Theorem sleep_local_time_adds_whole_hours (start_date end_date : date) (ex : export) :
  let sleeps := (read_sleeps start_date end_date ex).1 in
  let rows := (sleep_rows start_date end_date ex).1 in
  (∀ (neg : bool) (hh mm : Z), 0 ≤ hh < 100 → 0 ≤ mm < 100 →
     offset_hours (offset_text neg hh mm) = if neg then - hh else hh)
  ∧ (∀ r, r ∈ rows →
       ∃ s e, (sr_id r, s) ∈ sleeps ∧ s_end_dt s = Some e
         ∧ add_hours (s_start_dt s) (offset_hours (s_start_offset s))
           = Ok (sr_start_local r)
         ∧ add_hours e (offset_hours (s_end_offset s)) = Ok (sr_end_local r))
  ∧ (∀ (t t' : datetime) (h : Z), add_hours t h = Ok t' →
       utcoffset t' = utcoffset t
       ∧ dt_date t' = fromordinal ((wall_us t + h * 3600000000) / 86400000000)
       ∧ ((hour t' * 60 + minute t') * 60 + second t') * 1000000 + microsecond t'
         = (wall_us t + h * 3600000000) mod 86400000000)
  ∧ (∀ r, ∃ rest, sleep_line r
       = quoted_row (strftime_mdy_hm (sr_start_local r)
                     :: strftime_mdy_hm (sr_end_local r) :: rest))
  ∧ (λ r, (strftime_mdy_hm (sr_start_local r), strftime_mdy_hm (sr_end_local r)))
      <$> (sleep_rows default_start default_end half_hour_offset_fixture).1
    = [("01/16/2025 03:10", "01/16/2025 01:10")].
Proof.
  intros sleeps rows. split_and!.
  - apply offset_hours_text.
  - intros r Hr. apply elem_of_emit_sleep in Hr as ([id s] & Hin & Hrow).
    apply sleep_row_of_Some in Hrow as (Hid & e & He & Hs & Hend). simpl in *.
    exists s, e. by rewrite Hid.
  - apply add_hours_wall_clock.
  - intros r. by eexists.
  - by vm_compute.
Qed.

(** ** Records outside the window *)

Section OutsideFacts.
Variables start_date end_date : date.

Lemma window_date_outside (text : string) :
  outside start_date end_date text = true →
  window_date start_date end_date text = None.
Proof.
  unfold outside, window_date. destruct (parse_date text); [|done].
  by destruct (in_window _ _ _).
Qed.

Lemma sorted_by_ext {A} (key key' : A → string) (l : list A) :
  (∀ x, key x = key' x) → sorted_by key l = sorted_by key' l.
Proof.
  intros Hk. induction l as [|x l IH]; [done|].
  change (insert_by key x (sorted_by key l) = insert_by key' x (sorted_by key' l)).
  rewrite IH. generalize (sorted_by key' l). intros l'.
  induction l' as [|y l' IH']; simpl; [done|].
  rewrite !Hk. destruct (String.leb _ _); [done|]. by rewrite IH'.
Qed.

Lemma sorted_files_fmap {F G} (g : F → G) (files : list (string * F)) :
  sorted_files (prod_map id g <$> files) = prod_map id g <$> sorted_files files.
Proof.
  unfold sorted_files. by rewrite sorted_by_fmap.
Qed.

(** A folder read by a loop that passes over the rows left out. *)
Lemma fold_files_keep {S} (body : step S row) (keep : row → bool) (s : S)
  (files : list (string * list row)) :
  (∀ s r, keep r = false → body s r = (s, None)) →
  fold_files (fold_rows body) s (sorted_files (prod_map id (List.filter keep) <$> files))
  = fold_files (fold_rows body) s (sorted_files files).
Proof.
  intros Hskip. rewrite sorted_files_fmap.
  apply fold_files_ext. intros s' rows. by apply fold_rows_filter.
Qed.

Lemma negb_false (b : bool) : negb b = false → b = true.
Proof. by destruct b. Qed.

Lemma aggregate_csv_prune (files : list (string * list row)) (col : string) (c : cast) :
  _aggregate_csv start_date end_date
    (prod_map id (keep_rows start_date end_date) <$> files) col c
  = _aggregate_csv start_date end_date files col c.
Proof.
  unfold _aggregate_csv, keep_rows. apply fold_files_keep.
  intros s r Hr%negb_false. unfold aggregate_row.
  rewrite window_date_outside; done.
Qed.

Lemma omap_keep {B} (f : row → option B) (keep : row → bool) (rows : list row) :
  (∀ r, keep r = false → f r = None) →
  omap f (List.filter keep rows) = omap f rows.
Proof.
  intros Hskip. induction rows as [|r rows IH]; [done|].
  cbn [List.filter]. destruct (keep r) eqn:Hk.
  - simpl. destruct (f r); [f_equal|]; apply IH.
  - simpl. rewrite (Hskip r Hk). apply IH.
Qed.

Lemma read_daily_csv_prune (content : option (list row))
  (value_cols : list (string * string)) :
  _read_daily_csv start_date end_date (keep_rows start_date end_date <$> content) value_cols
  = _read_daily_csv start_date end_date content value_cols.
Proof.
  destruct content as [rows|]; simpl; [|done].
  unfold keep_rows. apply omap_keep. intros r Hr%negb_false.
  rewrite window_date_outside; done.
Qed.

Lemma body_from_json_prune (ex : export) :
  body_from_json start_date end_date (prune start_date end_date ex)
  = body_from_json start_date end_date ex.
Proof.
  unfold body_from_json. simpl. rewrite sorted_files_fmap.
  apply fold_files_ext. intros s [|entries]; simpl; [done|].
  apply fold_rows_filter. intros s' e He%negb_false.
  unfold body_json_entry. rewrite window_date_outside; done.
Qed.

Lemma generate_body_csv_prune (ex : export) :
  generate_body_csv start_date end_date (prune start_date end_date ex)
  = generate_body_csv start_date end_date ex.
Proof.
  unfold generate_body_csv, body_with_fallback.
  rewrite body_from_json_prune. simpl.
  assert (∀ s, match keep_rows start_date end_date <$> weight_csv ex with
               | Some rows => fold_rows (weight_csv_row start_date end_date) s rows
               | None => (s, None)
               end
               = match weight_csv ex with
                 | Some rows => fold_rows (weight_csv_row start_date end_date) s rows
                 | None => (s, None)
                 end) as ->.
  { intros s. destruct (weight_csv ex) as [rows|]; simpl; [|done].
    apply fold_rows_filter. intros s' r Hr%negb_false.
    unfold weight_csv_row. rewrite window_date_outside; done. }
  destruct (if bool_decide _ then _ else _) as [body_data [e|]]; [done|].
  unfold keep_rows. rewrite fold_files_keep; [done|].
  intros s r Hr%negb_false. unfold body_fat_row.
  rewrite window_date_outside; done.
Qed.

Lemma read_activities_prune (ex : export) :
  read_activities start_date end_date (prune start_date end_date ex)
  = read_activities start_date end_date ex.
Proof.
  unfold read_activities. simpl. rewrite !aggregate_csv_prune.
  unfold keep_rows. rewrite !fold_files_keep; [done| |].
  - intros s r Hr%negb_false. unfold activity_level_row.
    rewrite window_date_outside; done.
  - intros s r Hr%negb_false. unfold active_minutes_row.
    rewrite window_date_outside; done.
Qed.

Lemma read_sleeps_prune (ex : export) :
  read_sleeps start_date end_date (prune start_date end_date ex)
  = read_sleeps start_date end_date ex.
Proof.
  unfold read_sleeps. simpl. unfold keep_sleeps. apply fold_files_keep.
  intros s r Hr%negb_false. unfold user_sleeps_row. unfold sleep_outside in Hr.
  destruct (parse_sleep_datetime _); [|done].
  apply negb_true_iff in Hr. by rewrite Hr.
Qed.

Lemma generate_supplementary_csvs_prune (ex : export) :
  generate_supplementary_csvs start_date end_date (prune start_date end_date ex)
  = generate_supplementary_csvs start_date end_date ex.
Proof.
  unfold generate_supplementary_csvs, rhr_data, hrv_data, rr_data, readiness_data,
    spo2_data, sleep_score_data. simpl.
  rewrite !read_daily_csv_prune.
  assert (fold_files (fold_rows (spo2_row start_date end_date)) []
            (sorted_files (prod_map id (keep_rows start_date end_date) <$> spo2_csv ex))
          = fold_files (fold_rows (spo2_row start_date end_date)) []
              (sorted_files (spo2_csv ex))) as ->.
  { unfold keep_rows. apply fold_files_keep. intros s r Hr%negb_false.
    unfold spo2_row. rewrite window_date_outside; done. }
  destruct (sleep_score_csv ex) as [rows|]; simpl; [|done].
  unfold keep_rows. rewrite omap_keep; [done|].
  intros r Hr%negb_false. rewrite window_date_outside; done.
Qed.

End OutsideFacts.

(** C6: a record whose date parses and lies outside the window has no
    effect: the run on the folder without such records is the run on the
    folder, accumulator by accumulator and file by file, so a folder with
    one such record more or less gives the same run. *)
Theorem out_of_window_records_have_no_effect (start_date end_date : date) (ex : export) :
  (∀ (l1 l2 : list row) (r : row), row_outside start_date end_date r = true →
     keep_rows start_date end_date (l1 ++ r :: l2)
     = keep_rows start_date end_date (l1 ++ l2))
  ∧ (∀ (l1 l2 : list row) (r : row), sleep_outside start_date end_date r = true →
       keep_sleeps start_date end_date (l1 ++ r :: l2)
       = keep_sleeps start_date end_date (l1 ++ l2))
  ∧ (∀ (l1 l2 : list entry) (e : entry), entry_outside start_date end_date e = true →
       keep_entries start_date end_date (JsonArray (l1 ++ e :: l2))
       = keep_entries start_date end_date (JsonArray (l1 ++ l2)))
  ∧ generate_body_csv start_date end_date (prune start_date end_date ex)
    = generate_body_csv start_date end_date ex
  ∧ read_activities start_date end_date (prune start_date end_date ex)
    = read_activities start_date end_date ex
  ∧ read_sleeps start_date end_date (prune start_date end_date ex)
    = read_sleeps start_date end_date ex
  ∧ (∀ sleeps, read_sleep_stages (prune start_date end_date ex) sleeps
               = read_sleep_stages ex sleeps)
  ∧ generate_supplementary_csvs start_date end_date (prune start_date end_date ex)
    = generate_supplementary_csvs start_date end_date ex
  ∧ convert start_date end_date (prune start_date end_date ex)
    = convert start_date end_date ex
  ∧ (∀ ex', prune start_date end_date ex' = prune start_date end_date ex →
            convert start_date end_date ex' = convert start_date end_date ex)
  ∧ ar_date <$> (activity_rows default_start default_end steps_outside_fixture).1
    = ["2025-01-15"].
Proof.
  assert (∀ ex0, convert start_date end_date (prune start_date end_date ex0)
                 = convert start_date end_date ex0) as Hconvert.
  { intros ex0. unfold convert. simpl.
    rewrite generate_body_csv_prune, generate_supplementary_csvs_prune.
    unfold generate_activities_csv, generate_sleep_csv.
    by rewrite read_activities_prune, read_sleeps_prune. }
  split_and!.
  - intros l1 l2 r Hr. unfold keep_rows. rewrite !List.filter_app. simpl.
    by rewrite Hr.
  - intros l1 l2 r Hr. unfold keep_sleeps. rewrite !List.filter_app. simpl.
    by rewrite Hr.
  - intros l1 l2 e He. simpl. rewrite !List.filter_app. simpl. by rewrite He.
  - apply generate_body_csv_prune.
  - apply read_activities_prune.
  - apply read_sleeps_prune.
  - done.
  - apply generate_supplementary_csvs_prune.
  - apply Hconvert.
  - intros ex' Hex'. by rewrite <- (Hconvert ex'), Hex', Hconvert.
  - by vm_compute.
Qed.

(** ** The three encodings of a calendar day *)

(** Quotients and remainders by literals are arithmetic for [lia]. *)
Ltac Zify.zify_post_hook ::= Z.to_euclidean_division_equations.

Lemma digit_char_facts (k : Z) :
  0 ≤ k ≤ 9 →
  digit_val (digit_char k) = Some k
  ∧ PyStr.is_space (digit_char k) = false
  ∧ Ascii.eqb "T" (digit_char k) = false
  ∧ Ascii.eqb "Z" (digit_char k) = false.
Proof.
  intros Hk.
  assert (k = 0 ∨ k = 1 ∨ k = 2 ∨ k = 3 ∨ k = 4 ∨ k = 5 ∨ k = 6 ∨ k = 7
          ∨ k = 8 ∨ k = 9) as Hcases by lia.
  by repeat destruct Hcases as [->|Hcases]; [..|subst k].
Qed.

Lemma app_String (a : ascii) (s r : string) : String a s +:+ r = String a (s +:+ r).
Proof. done. Qed.

Lemma app_empty (r : string) : EmptyString +:+ r = r.
Proof. done. Qed.

Lemma two_digits_String (a b : Z) (r : string) :
  0 ≤ a ≤ 9 → 0 ≤ b ≤ 9 →
  two_digits (String (digit_char a) (String (digit_char b) r)) = [(10 * a + b, r)].
Proof.
  intros Ha Hb. unfold two_digits, digit_in.
  destruct (digit_char_facts a Ha) as [-> _].
  destruct (digit_char_facts b Hb) as [-> _].
  by rewrite !(proj2 (andb_true_iff _ _)) by (split; lia).
Qed.

Lemma two_digits_pad2 (n : Z) (r : string) :
  0 ≤ n < 100 → two_digits (pad2 n +:+ r) = [(n, r)].
Proof.
  intros Hn. unfold pad2. rewrite !app_String, app_empty.
  pose proof (Z.mod_pos_bound (n / 10) 10 ltac:(lia)).
  pose proof (Z.mod_pos_bound n 10 ltac:(lia)).
  rewrite two_digits_String by lia. do 2 f_equal. lia.
Qed.

Lemma four_digits_pad4 (n : Z) (r : string) :
  0 ≤ n < 10000 → four_digits (pad4 n +:+ r) = [(n, r)].
Proof.
  intros Hn. unfold four_digits, pad4, pad2. rewrite !app_String, app_empty.
  pose proof (Z.mod_pos_bound (n / 1000) 10 ltac:(lia)).
  pose proof (Z.mod_pos_bound (n / 100) 10 ltac:(lia)).
  pose proof (Z.mod_pos_bound (n / 10) 10 ltac:(lia)).
  pose proof (Z.mod_pos_bound n 10 ltac:(lia)).
  rewrite two_digits_String by lia. cbn [mbind list_bind].
  rewrite two_digits_String by lia. simpl. do 2 f_equal. lia.
Qed.

Lemma app_assoc_string (a b c : string) : (a +:+ b) +:+ c = a +:+ (b +:+ c).
Proof. induction a as [|x a IH]; [done|]. by rewrite !app_String, IH. Qed.

Lemma replace_app (c : ascii) (new a b : string) :
  PyStr.replace c new (a +:+ b) = PyStr.replace c new a +:+ PyStr.replace c new b.
Proof.
  induction a as [|x a IH]; [done|]. rewrite app_String. simpl.
  destruct (Ascii.eqb c x); rewrite IH; [by rewrite app_assoc_string|done].
Qed.

Lemma rstrip_app (a b : string) (c : ascii) (b' : string) :
  PyStr.rstrip b = String c b' → PyStr.rstrip (a +:+ b) = a +:+ PyStr.rstrip b.
Proof.
  intros Hb. induction a as [|x a IH]; [done|].
  rewrite app_String. simpl. rewrite IH.
  destruct a; [by rewrite app_empty, Hb|done].
Qed.

Lemma app_nil_r_string (s : string) : s +:+ EmptyString = s.
Proof. induction s as [|c s IH]; [done|]. by rewrite app_String, IH. Qed.

Section FreeOf.
Variable p : ascii → bool.

Lemma free_of_app (a b : string) : free_of p (a +:+ b) = free_of p a && free_of p b.
Proof.
  induction a as [|c a IH]; [done|]. rewrite app_String. simpl.
  by rewrite IH, andb_assoc.
Qed.

Lemma free_of_break (s r : string) :
  free_of p s = true →
  break p (s +:+ r) = (s +:+ (break p r).1, (break p r).2).
Proof.
  induction s as [|c s IH]; simpl.
  - intros _. rewrite !app_empty. by destruct (break p r).
  - intros [Hc Hs]%andb_true_iff. rewrite !app_String. simpl.
    apply negb_true_iff in Hc. rewrite Hc, (IH Hs). done.
Qed.

End FreeOf.

Lemma free_of_replace (c : ascii) (new s : string) :
  free_of (Ascii.eqb c) s = true → PyStr.replace c new s = s.
Proof.
  induction s as [|d s IH]; simpl; [done|].
  intros [Hd Hs]%andb_true_iff. apply negb_true_iff in Hd.
  by rewrite Hd, IH.
Qed.

Lemma free_of_contains (c : ascii) (s : string) :
  free_of (Ascii.eqb c) s = true → PyStr.contains c s = false.
Proof.
  induction s as [|d s IH]; simpl; [done|].
  intros [Hd Hs]%andb_true_iff. apply negb_true_iff in Hd.
  by rewrite Hd, IH.
Qed.

Lemma free_of_strip (s : string) :
  free_of PyStr.is_space s = true → PyStr.strip s = s.
Proof.
  intros Hs. unfold PyStr.strip.
  assert (PyStr.lstrip s = s) as ->.
  { destruct s as [|c s]; [done|]. simpl in *.
    apply andb_true_iff in Hs as [Hc _]. apply negb_true_iff in Hc. by rewrite Hc. }
  induction s as [|c s IH]; simpl in *; [done|].
  apply andb_true_iff in Hs as [Hc Hs]. apply negb_true_iff in Hc.
  rewrite (IH Hs), Hc. by destruct s.
Qed.

Lemma digit_free_cases (p : ascii → bool) :
  p "0"%char = false → p "1"%char = false → p "2"%char = false →
  p "3"%char = false → p "4"%char = false → p "5"%char = false →
  p "6"%char = false → p "7"%char = false → p "8"%char = false →
  p "9"%char = false →
  digit_free p.
Proof.
  intros H0 H1 H2 H3 H4 H5 H6 H7 H8 H9 k Hk.
  assert (k = 0 ∨ k = 1 ∨ k = 2 ∨ k = 3 ∨ k = 4 ∨ k = 5 ∨ k = 6 ∨ k = 7
          ∨ k = 8 ∨ k = 9) as Hcases by lia.
  by repeat destruct Hcases as [->|Hcases]; [..|subst k].
Qed.

Lemma free_of_pad2 (p : ascii → bool) (n : Z) : digit_free p → free_of p (pad2 n) = true.
Proof.
  intros Hp. unfold pad2. simpl. rewrite !Hp; [done|lia..].
Qed.

Lemma free_of_pad4 (p : ascii → bool) (n : Z) : digit_free p → free_of p (pad4 n) = true.
Proof.
  intros Hp. unfold pad4, pad2. simpl. by rewrite !Hp by lia.
Qed.

Lemma all_iso_checked :
  forall_below 100 (λ k, forall_below 13 (λ m, forall_below 32 (λ d,
    iso_check (1969 + k) m d))) = true.
Proof. vm_cast_no_check (eq_refl true). Qed.

Lemma all_us_checked :
  forall_below 13 (λ m, forall_below 32 (λ d, forall_below 100 (λ yy,
    us_check m d yy))) = true.
Proof. vm_cast_no_check (eq_refl true). Qed.

Lemma strptime_ymd_iso (y m d : Z) :
  1969 ≤ y ≤ 2068 → 0 ≤ m ≤ 12 → 0 ≤ d ≤ 31 →
  strptime_ymd (iso_text y m d) = make_date y m d.
Proof.
  intros Hy Hm Hd.
  pose proof (forall_below_spec 100 _ all_iso_checked (y - 1969) ltac:(lia)) as H1.
  cbv beta in H1.
  pose proof (forall_below_spec 13 _ H1 m ltac:(lia)) as H2. cbv beta in H2.
  pose proof (forall_below_spec 32 _ H2 d ltac:(lia)) as H3. cbv beta in H3.
  replace (1969 + (y - 1969)) with y in H3 by lia.
  by apply bool_decide_eq_true in H3.
Qed.

Lemma strptime_us (y m d : Z) :
  1969 ≤ y ≤ 2068 → 0 ≤ m ≤ 12 → 0 ≤ d ≤ 31 →
  strptime_mdy (us_text y m d) = make_date y m d
  ∧ strptime_ymd (us_text y m d) = None.
Proof.
  intros Hy Hm Hd.
  pose proof (forall_below_spec 13 _ all_us_checked m ltac:(lia)) as H1.
  cbv beta in H1.
  pose proof (forall_below_spec 32 _ H1 d ltac:(lia)) as H2. cbv beta in H2.
  pose proof (forall_below_spec 100 _ H2 (y mod 100) ltac:(lia)) as H3.
  cbv beta in H3. unfold us_check in H3.
  apply andb_true_iff in H3 as [H3 H4].
  apply bool_decide_eq_true in H3. apply bool_decide_eq_true in H4.
  unfold us_text. split; [|done]. rewrite H3. f_equal.
  unfold century. destruct (Z.leb_spec (y mod 100) 68); lia.
Qed.

Lemma two_digits_pad2_end (n : Z) : 0 ≤ n < 100 → two_digits (pad2 n) = [(n, EmptyString)].
Proof. intros Hn. rewrite <- (app_nil_r_string (pad2 n)). by apply two_digits_pad2. Qed.

Lemma hh_mm_ss_ff_hms (h mi s : Z) :
  0 ≤ h < 100 → 0 ≤ mi < 100 → 0 ≤ s < 100 →
  hh_mm_ss_ff (hms_text h mi s) = Some (h, mi, s, 0).
Proof.
  intros Hh Hmi Hs. unfold hh_mm_ss_ff, hms_text.
  rewrite !app_String, !app_empty.
  rewrite two_digits_pad2 by done. cbn iota.
  rewrite two_digits_pad2 by done. cbn iota.
  by rewrite two_digits_pad2_end by done.
Qed.

Lemma digit_free_space : digit_free PyStr.is_space.
Proof. by apply digit_free_cases. Qed.

Lemma digit_free_eqb (c : ascii) : digit_val c = None → digit_free (Ascii.eqb c).
Proof.
  intros Hc k Hk. apply Ascii.eqb_neq. intros ->.
  destruct (digit_char_facts k Hk) as [Hd _]. congruence.
Qed.

Lemma digit_free_sign : digit_free is_sign.
Proof. by apply digit_free_cases. Qed.

Lemma free_of_iso_text (p : ascii → bool) (y m d : Z) :
  digit_free p → p "-"%char = false → free_of p (iso_text y m d) = true.
Proof.
  intros Hp Hsep. unfold iso_text, strftime_ymd. cbn [year month day].
  rewrite !free_of_app, free_of_pad4, !free_of_pad2 by done. simpl. by rewrite Hsep.
Qed.

Lemma free_of_us_text (p : ascii → bool) (y m d : Z) :
  digit_free p → p "/"%char = false → free_of p (us_text y m d) = true.
Proof.
  intros Hp Hsep. unfold us_text.
  rewrite !free_of_app, !free_of_pad2 by done. simpl. by rewrite Hsep.
Qed.

Lemma free_of_hms_text (p : ascii → bool) (h mi s : Z) :
  digit_free p → p ":"%char = false → free_of p (hms_text h mi s) = true.
Proof.
  intros Hp Hsep. unfold hms_text.
  rewrite !free_of_app, !free_of_pad2 by done. simpl. by rewrite Hsep.
Qed.

Lemma make_date_valid (y m d : Z) :
  valid_date y m d = true → make_date y m d = Some (mkdate y m d).
Proof. unfold make_date. by intros ->. Qed.

Lemma valid_date_bounds (y m d : Z) :
  valid_date y m d = true → 1 ≤ y ≤ 9999 ∧ 1 ≤ m ≤ 12 ∧ 1 ≤ d ≤ 31.
Proof.
  unfold valid_date, days_in_month. rewrite !andb_true_iff, !Z.leb_le.
  intros [[[[[? ?] ?] ?] ?] Hd].
  repeat match type of Hd with context [if ?b then _ else _] => destruct b end; lia.
Qed.

Lemma parse_date_iso (y m d : Z) :
  valid_date y m d = true → 1969 ≤ y ≤ 2068 →
  parse_date (iso_text y m d) = Some (mkdate y m d).
Proof.
  intros Hv Hy. pose proof (valid_date_bounds _ _ _ Hv) as (_ & Hm & Hd).
  unfold parse_date.
  rewrite free_of_strip by (by apply free_of_iso_text; [apply digit_free_space|]).
  rewrite free_of_contains by (by apply free_of_iso_text; [apply digit_free_eqb|]).
  rewrite strptime_ymd_iso by lia. by rewrite make_date_valid.
Qed.

Lemma parse_date_us (y m d : Z) :
  valid_date y m d = true → 1969 ≤ y ≤ 2068 →
  parse_date (us_text y m d) = Some (mkdate y m d).
Proof.
  intros Hv Hy. pose proof (valid_date_bounds _ _ _ Hv) as (_ & Hm & Hd).
  unfold parse_date.
  rewrite free_of_strip by (by apply free_of_us_text; [apply digit_free_space|]).
  rewrite free_of_contains by (by apply free_of_us_text; [apply digit_free_eqb|]).
  destruct (strptime_us y m d) as [-> ->]; [lia..|]. by rewrite make_date_valid.
Qed.

Lemma fromisoformat_iso_prefix (y m d : Z) (sep : ascii) (rest : string) :
  0 ≤ y < 10000 → 0 ≤ m < 100 → 0 ≤ d < 100 →
  fromisoformat (iso_text y m d +:+ String sep rest)
  = match isoformat_time rest with
    | Some (h, mi, sec, us, tz) => make_datetime y m d h mi sec us tz
    | None => None
    end.
Proof.
  intros Hy Hm Hd. unfold fromisoformat, iso_text, strftime_ymd.
  cbn [year month day].
  rewrite !app_assoc_string, !app_String, !app_empty.
  rewrite four_digits_pad4 by done. cbn iota.
  rewrite two_digits_pad2 by done. cbn iota.
  rewrite two_digits_pad2 by done. cbn iota. done.
Qed.

Lemma isoformat_time_text (h mi s : Z) (z : bool) :
  0 ≤ h < 100 → 0 ≤ mi < 100 → 0 ≤ s < 100 →
  isoformat_time (hms_text h mi s +:+ (if z then "+00:00" else EmptyString))
  = Some (h, mi, s, 0, if z then Some 0 else None).
Proof.
  intros Hh Hmi Hs. unfold isoformat_time.
  rewrite free_of_break by (by apply free_of_hms_text; [apply digit_free_sign|]).
  destruct z.
  - change (break is_sign "+00:00") with (EmptyString, "+00:00"). cbn [fst snd].
    rewrite app_nil_r_string, hh_mm_ss_ff_hms by done. done.
  - change (break is_sign EmptyString) with (EmptyString, EmptyString). cbn [fst snd].
    rewrite app_nil_r_string, hh_mm_ss_ff_hms by done. done.
Qed.

Lemma parse_date_timestamp (y m d h mi s : Z) (z : bool) :
  valid_date y m d = true → 0 ≤ h < 24 → 0 ≤ mi < 60 → 0 ≤ s < 60 →
  parse_date (timestamp_text y m d h mi s z) = Some (mkdate y m d).
Proof.
  intros Hv Hh Hmi Hs. pose proof (valid_date_bounds _ _ _ Hv) as (Hy & Hm & Hd).
  assert (∀ p : ascii → bool, digit_free p → p "-"%char = false → p "T"%char = false →
            p ":"%char = false → p "Z"%char = false →
            free_of p (timestamp_text y m d h mi s z) = true) as Hfree.
  { intros p Hp H1 H2 H3 H4. unfold timestamp_text, time_text.
    rewrite free_of_app, free_of_iso_text by done. cbn [free_of andb].
    rewrite H2. cbn [negb andb].
    rewrite free_of_app, free_of_hms_text by done.
    destruct z; cbn [free_of andb]; [|done]. by rewrite H4. }
  unfold parse_date.
  rewrite free_of_strip by (by apply Hfree; [apply digit_free_space|..]).
  assert (PyStr.contains "T" (timestamp_text y m d h mi s z) = true) as ->.
  { unfold timestamp_text. rewrite contains_app. simpl. apply orb_true_r. }
  assert (PyStr.replace "Z" "+00:00" (timestamp_text y m d h mi s z)
          = iso_text y m d
            +:+ String "T" (hms_text h mi s
                            +:+ (if z then "+00:00" else EmptyString))) as ->.
  { unfold timestamp_text, time_text. rewrite replace_app.
    rewrite free_of_replace by (by apply free_of_iso_text; [apply digit_free_eqb|]).
    f_equal. cbn [PyStr.replace]. change (Ascii.eqb "Z" "T") with false. cbn iota.
    f_equal. rewrite replace_app.
    rewrite free_of_replace by (by apply free_of_hms_text; [apply digit_free_eqb|]).
    by destruct z. }
  rewrite fromisoformat_iso_prefix by lia.
  rewrite isoformat_time_text by lia.
  unfold make_datetime. rewrite make_date_valid by done.
  rewrite !(proj2 (Z.ltb_lt _ _)) by lia. by destruct z.
Qed.

(** C8: a calendar day that can be written in the three encodings, that
    is a valid day from 1969 to 2068, is read as the same date from its
    timestamp (any time of day, with or without a final [Z]), from its ISO
    form and from its US form. *)
Theorem parse_date_same_in_three_encodings (y m d h mi s : Z) (z : bool) :
  valid_date y m d = true → 1969 ≤ y ≤ 2068 →
  0 ≤ h < 24 → 0 ≤ mi < 60 → 0 ≤ s < 60 →
  parse_date (timestamp_text y m d h mi s z) = Some (mkdate y m d)
  ∧ parse_date (iso_text y m d) = Some (mkdate y m d)
  ∧ parse_date (us_text y m d) = Some (mkdate y m d).
Proof.
  intros Hv Hy Hh Hmi Hs. split_and!.
  - by apply parse_date_timestamp.
  - by apply parse_date_iso.
  - by apply parse_date_us.
Qed.

(** The day 2025-01-15, at 10:30:00 UTC in the timestamp. *)
Lemma parse_date_same_in_three_encodings_witness :
  valid_date 2025 1 15 = true
  ∧ timestamp_text 2025 1 15 10 30 0 true = "2025-01-15T10:30:00Z"
  ∧ iso_text 2025 1 15 = "2025-01-15"
  ∧ us_text 2025 1 15 = "01/15/25"
  ∧ parse_date "2025-01-15T10:30:00Z" = Some (mkdate 2025 1 15)
  ∧ parse_date "2025-01-15" = Some (mkdate 2025 1 15)
  ∧ parse_date "01/15/25" = Some (mkdate 2025 1 15).
Proof.
  split; [reflexivity|]. split; [reflexivity|]. split; [reflexivity|].
  split; [reflexivity|].
  exact (parse_date_same_in_three_encodings 2025 1 15 10 30 0 true
           eq_refl ltac:(lia) ltac:(lia) ltac:(lia) ltac:(lia)).
Defined.

(** ** Malformed numeric fields *)

Lemma fold_rows_raise {S R} (body : step S R) (s s1 s' : S) (l1 l2 : list R)
  (r : R) (e : exn) :
  fold_rows body s l1 = (s1, None) → body s1 r = (s', Some e) →
  fold_rows body s (l1 ++ r :: l2) = (s', Some e).
Proof. intros H1 Hr. rewrite fold_rows_app, H1. simpl. by rewrite Hr. Qed.

Lemma fold_files_raise {S F} (read : step S F) (s s1 s' : S)
  (fs1 fs2 : list (string * F)) (name : string) (f : F) (w1 : list warning) (e : exn) :
  fold_files read s fs1 = (s1, w1) → read s1 f = (s', Some e) →
  fold_files read s (fs1 ++ (name, f) :: fs2)
  = ((fold_files read s' fs2).1, w1 ++ (name, e) :: (fold_files read s' fs2).2).
Proof.
  intros H1 Hf. rewrite fold_files_app, H1. simpl. rewrite Hf.
  by destruct (fold_files read s' fs2).
Qed.

(** The daily supplementary files are copied as text: a file whose
    first row holds text that is no number is read to its end, the text
    and the row after it are written, and the run returns without a
    warning. *)
Lemma malformed_resting_hr_is_passed_on :
  float_of_string "abc" = Raise ValueError
  ∧ st_warnings (generate_supplementary_csvs default_start default_end
                   resting_hr_malformed_fixture) = []
  ∧ head (st_files (generate_supplementary_csvs default_start default_end
                      resting_hr_malformed_fixture))
    = Some ("garmin_supplement_resting_hr.csv",
            ["date,resting_hr"; "2025-01-15,abc"; "2025-01-16,61.3"])
  ∧ run_warnings (convert default_start default_end resting_hr_malformed_fixture) = []
  ∧ is_ok (run_result (convert default_start default_end resting_hr_malformed_fixture))
    = true.
Proof. split_and!; vm_compute; reflexivity. Qed.

(** The fallback loop over [weight.csv] is under no [try]: when the JSON
    files left no record and a row of [weight.csv] in the window holds a
    weight that is no number, the exception ends [convert] before any
    file is written. *)
Theorem weight_csv_malformed_weight_ends_run (start_date end_date : date) (ex : export)
  (l1 l2 : list row) (r : row) (text : string) (d : date)
  (s1 : gmap string body_entry) :
  fitbit_dir_exists ex = true → pa_dir_exists ex = true →
  size (body_from_json start_date end_date ex).1 = 0%nat →
  weight_csv ex = Some (l1 ++ r :: l2) →
  fold_rows (weight_csv_row start_date end_date)
    (body_from_json start_date end_date ex).1 l1 = (s1, None) →
  window_date start_date end_date (get_text r "timestamp") = Some d →
  r !! "weight grams" = Some text →
  float_of_string text = Raise ValueError →
  convert start_date end_date ex
  = mkrun (body_from_json start_date end_date ex).2 [] (Raise ValueError).
Proof.
  intros Hdir Hpa Hempty Hcsv Hl1 Hd Hcell Htext.
  assert (body_with_fallback start_date end_date ex = (s1, Some ValueError)) as Hb.
  { unfold body_with_fallback. rewrite bool_decide_eq_true_2 by done.
    rewrite Hcsv. apply fold_rows_raise with (s1 := s1); [done|].
    unfold weight_csv_row. rewrite Hd, Hcell. unfold cell_float. by rewrite Htext. }
  unfold convert. rewrite Hdir, Hpa. simpl. unfold then_stage, generate_body_csv.
  by rewrite Hb.
Qed.

Lemma weight_csv_malformed_weight_ends_run_witness :
  convert default_start default_end weight_csv_malformed_fixture
  = mkrun [] [] (Raise ValueError).
Proof.
  apply (weight_csv_malformed_weight_ends_run default_start default_end
           weight_csv_malformed_fixture []
           [] (row_of [("timestamp", "2025-01-15T07:00:00Z"); ("weight grams", "abc")])
           "abc" (mkdate 2025 1 15) ∅); vm_compute; reflexivity.
Defined.

Lemma cell_int_malformed (text : string) :
  float_of_string text = Raise ValueError → cell_int (Some text) = Raise ValueError.
Proof. unfold cell_int, rbind. by intros ->. Qed.

Lemma add_cell_int_malformed (m : gmap string Z) (k text : string) :
  float_of_string text = Raise ValueError →
  (add_cell_int m k (Some text)).2 = Some ValueError.
Proof. intros H. unfold add_cell_int. by rewrite (cell_int_malformed _ H). Qed.

(** C3: in every loop under [try] (per-minute aggregation, the weight
    JSON entries, body fat, active minutes, sleep sessions) each numeric
    field of a row in the window raises when it is text that is no
    number; the rest of the file is not read, the exception becomes one
    warning and the later files are read from the state the file left.
    The fallback loop over [weight.csv] is under no [try]: the same text
    in its [weight grams] ends the run with [ValueError] and no file is
    written, where the same text in a weight JSON file or in a steps
    file leaves one warning and all nine files. *)
Theorem malformed_field_warns_but_weight_csv_ends_run (start_date end_date : date) :
  (∀ (col text : string) (c : cast) (daily : gmap string pyfloat) (r : row) (d : date),
     window_date start_date end_date (get_text r "timestamp") = Some d →
     r !! col = Some text → float_of_string text = Raise ValueError →
     (aggregate_row start_date end_date col c daily r).2 = Some ValueError)
  ∧ (∀ (k text : string) (body : gmap string body_entry) (e : entry) (d : date),
       k ∈ ["weight"; "bmi"; "fat"] →
       window_date start_date end_date (str_of_jval (jget e "date" (JStr EmptyString)))
       = Some d →
       e !! k = Some (JStr text) → float_of_string text = Raise ValueError →
       ∃ x, body_json_entry start_date end_date body e = (body, Some x))
  ∧ (∀ (text : string) (body : gmap string body_entry) (r : row) (d : date),
       window_date start_date end_date (get_text r "timestamp") = Some d →
       r !! "body fat percentage" = Some text →
       float_of_string text = Raise ValueError →
       body_fat_row start_date end_date body r = (body, Some ValueError))
  ∧ (∀ (k text : string) (a : active) (r : row) (d : date),
       k ∈ ["light"; "moderate"; "very"] →
       window_date start_date end_date (get_text r "timestamp") = Some d →
       r !! k = Some text → float_of_string text = Raise ValueError →
       ∃ x, (active_minutes_row start_date end_date a r).2 = Some x)
  ∧ (∀ (k text : string) (sleeps : list (string * session)) (r : row) (t : datetime),
       k ∈ ["minutes_asleep"; "minutes_awake"; "minutes_in_sleep_period"] →
       parse_sleep_datetime (get_text r "sleep_start") = Some t →
       in_window start_date end_date (dt_date t) = true →
       r !! k = Some text → float_of_string text = Raise ValueError →
       ∃ x, user_sleeps_row start_date end_date sleeps r = (sleeps, Some x))
  ∧ (∀ (S R : Type) (body : step S R) (s s1 s' : S) (l1 l2 : list R) (r : R) (e : exn),
       fold_rows body s l1 = (s1, None) → body s1 r = (s', Some e) →
       fold_rows body s (l1 ++ r :: l2) = (s', Some e))
  ∧ (∀ (S F : Type) (read : step S F) (s s1 s' : S) (fs1 fs2 : list (string * F))
       (name : string) (f : F) (w1 : list warning) (e : exn),
       fold_files read s fs1 = (s1, w1) → read s1 f = (s', Some e) →
       fold_files read s (fs1 ++ (name, f) :: fs2)
       = ((fold_files read s' fs2).1, w1 ++ (name, e) :: (fold_files read s' fs2).2))
  ∧ (∀ (ex : export) (l1 l2 : list row) (r : row) (text : string) (d : date)
       (s1 : gmap string body_entry),
       fitbit_dir_exists ex = true → pa_dir_exists ex = true →
       size (body_from_json start_date end_date ex).1 = 0%nat →
       weight_csv ex = Some (l1 ++ r :: l2) →
       fold_rows (weight_csv_row start_date end_date)
         (body_from_json start_date end_date ex).1 l1 = (s1, None) →
       window_date start_date end_date (get_text r "timestamp") = Some d →
       r !! "weight grams" = Some text →
       float_of_string text = Raise ValueError →
       run_result (convert start_date end_date ex) = Raise ValueError
       ∧ run_files (convert start_date end_date ex) = []
       ∧ run_warnings (convert start_date end_date ex)
         = (body_from_json start_date end_date ex).2)
  ∧ convert default_start default_end weight_csv_malformed_fixture
    = mkrun [] [] (Raise ValueError)
  ∧ run_warnings (convert default_start default_end weight_json_malformed_fixture)
    = [("weight-a.json", ValueError)]
  ∧ is_ok (run_result (convert default_start default_end weight_json_malformed_fixture))
    = true
  ∧ (run_files (convert default_start default_end weight_json_malformed_fixture)).*1
    = output_names
  ∧ head (run_files (convert default_start default_end weight_json_malformed_fixture))
    = Some ("garmin_body.csv",
            ["Body"; "Date,Weight,BMI,Fat"; quoted_row ["2025-01-16"; "68.0"; "0.0"; "0.0"]])
  ∧ run_warnings (convert default_start default_end steps_malformed_fixture)
    = [("steps_a.csv", ValueError)]
  ∧ (run_files (convert default_start default_end steps_malformed_fixture)).*1
    = output_names
  ∧ ar_steps <$> (activity_rows default_start default_end steps_malformed_fixture).1
    = [17].
Proof.
  split_and!.
  - intros col text c daily r d Hd Hcell Htext. unfold aggregate_row.
    rewrite Hd, Hcell. unfold apply_cast.
    destruct c; [unfold cell_float|rewrite (cell_int_malformed _ Htext)];
      rewrite ?Htext; done.
  - intros k text body e d Hk Hd Hcell Htext. unfold body_json_entry.
    rewrite Hd. unfold jget, commit, rbind.
    repeat (apply elem_of_cons in Hk as [->|Hk]); [| | |by apply elem_of_nil in Hk].
    + rewrite Hcell. simpl. rewrite Htext. by eexists.
    + destruct (float_of_jval (default (JInt 0) (e !! "weight"))); [|by eexists].
      rewrite Hcell. simpl. rewrite Htext. by eexists.
    + destruct (float_of_jval (default (JInt 0) (e !! "weight"))); [|by eexists].
      destruct (float_of_jval (default (JInt 0) (e !! "bmi"))); [|by eexists].
      rewrite Hcell. simpl. rewrite Htext. by eexists.
  - intros text body r d Hd Hcell Htext. unfold body_fat_row.
    rewrite Hd, Hcell. unfold cell_float. by rewrite Htext.
  - intros k text a r d Hk Hd Hcell Htext. unfold active_minutes_row. rewrite Hd.
    pose proof add_cell_int_malformed as Hraise.
    repeat (apply elem_of_cons in Hk as [->|Hk]); [| | |by apply elem_of_nil in Hk].
    + rewrite Hcell.
      pose proof (Hraise (daily_light a) (strftime_ymd d) text Htext) as H1.
      destruct (add_cell_int (daily_light a) _ _) as [l [x|]]; [by eexists|done].
    + destruct (add_cell_int (daily_light a) _ _) as [l [x|]]; [by eexists|].
      rewrite Hcell.
      pose proof (Hraise (daily_fairly a) (strftime_ymd d) text Htext) as H1.
      destruct (add_cell_int (daily_fairly a) _ _) as [f [x|]]; [by eexists|done].
    + destruct (add_cell_int (daily_light a) _ _) as [l [x|]]; [by eexists|].
      destruct (add_cell_int (daily_fairly a) _ _) as [f [x|]]; [by eexists|].
      rewrite Hcell.
      pose proof (Hraise (daily_very a) (strftime_ymd d) text Htext) as H1.
      destruct (add_cell_int (daily_very a) _ _) as [v [x|]]; [by eexists|done].
  - intros k text sleeps r t Hk Ht Hwin Hcell Htext. unfold user_sleeps_row.
    rewrite Ht, Hwin. unfold commit, rbind.
    repeat (apply elem_of_cons in Hk as [->|Hk]); [| | |by apply elem_of_nil in Hk].
    + rewrite Hcell, (cell_int_malformed _ Htext). by eexists.
    + destruct (cell_int (r !! "minutes_asleep")); [|by eexists].
      rewrite Hcell, (cell_int_malformed _ Htext). by eexists.
    + destruct (cell_int (r !! "minutes_asleep")); [|by eexists].
      destruct (cell_int (r !! "minutes_awake")); [|by eexists].
      rewrite Hcell, (cell_int_malformed _ Htext). by eexists.
  - intros S R body s s1 s' l1 l2 r e. apply fold_rows_raise.
  - intros S F read s s1 s' fs1 fs2 name f w1 e. apply fold_files_raise.
  - intros ex l1 l2 r text d s1 Hdir Hpa Hempty Hcsv Hl1 Hd Hcell Htext.
    assert (body_with_fallback start_date end_date ex = (s1, Some ValueError)) as Hb.
    { unfold body_with_fallback. rewrite bool_decide_eq_true_2 by done.
      rewrite Hcsv. apply fold_rows_raise with (s1 := s1); [done|].
      unfold weight_csv_row. rewrite Hd, Hcell. unfold cell_float. by rewrite Htext. }
    unfold convert. rewrite Hdir, Hpa. simpl. unfold then_stage, generate_body_csv.
    by rewrite Hb.
  - by vm_compute.
  - by vm_compute.
  - by vm_compute.
  - by vm_compute.
  - by vm_compute.
  - by vm_compute.
  - by vm_compute.
  - by vm_compute.
Qed.

(** ** The run as a whole *)

Lemma generate_body_csv_cases (start_date end_date : date) (ex : export) :
  (∃ ws e, generate_body_csv start_date end_date ex = mkstage ws [] (Raise e))
  ∨ (∃ ws b, generate_body_csv start_date end_date ex
             = mkstage ws [("garmin_body.csv", body_lines b)] (Ok b)).
Proof.
  unfold generate_body_csv.
  destruct (body_with_fallback start_date end_date ex) as [b0 [e|]].
  - left. by eexists _, _.
  - right. destruct (fold_files _ b0 _) as [b ws]. by eexists _, _.
Qed.

Lemma generate_activities_csv_cases (start_date end_date : date) (ex : export) :
  ∃ ws rows r, generate_activities_csv start_date end_date ex
               = mkstage ws [("garmin_activities.csv", activities_header ++ rows)] r
    ∧ (is_ok r = true →
       r = Ok (all_dates (read_activities start_date end_date ex).1)
       ∧ length rows = length (all_dates (read_activities start_date end_date ex).1)).
Proof.
  unfold generate_activities_csv.
  destruct (read_activities start_date end_date ex) as [a ws]. simpl.
  destruct (emit (activity_row_of a) (all_dates a)) as [rows oe] eqn:Hemit.
  eexists _, _, _. split; [done|]. destruct oe as [e|]; [done|]. intros _.
  split; [done|]. rewrite length_fmap.
  apply emit_all in Hemit. symmetry. by eapply Forall2_length.
Qed.

Lemma generate_sleep_csv_cases (start_date end_date : date) (ex : export) :
  ∃ ws rows r, generate_sleep_csv start_date end_date ex
               = mkstage ws [("garmin_sleep.csv", sleep_header ++ rows)] r
    ∧ (is_ok r = true → r = Ok (read_sleeps start_date end_date ex).1)
    ∧ (length rows ≤ length (read_sleeps start_date end_date ex).1)%nat.
Proof.
  unfold generate_sleep_csv.
  destruct (read_sleeps start_date end_date ex) as [sl w1]. simpl.
  destruct (read_sleep_stages ex sl) as [st w2].
  pose proof (emit_sleep_length st (sorted_by (λ ks, s_start ks.2) sl)) as Hlen.
  unfold emit_sleep.
  destruct (emit (sleep_row_of st) _) as [rows oe]. simpl in Hlen.
  eexists _, _, _. split; [done|]. split; [by destruct oe|].
  rewrite length_fmap. etrans; [exact Hlen|].
  etrans; [apply length_filter|]. by rewrite (sorted_by_Permutation _ sl).
Qed.

(** The output files are opened in one fixed order: the files of a run
    are always the first ones of that order, and a run that returns has
    written all nine. A run that the body stage ends has written none, one
    that the activities stage ends the first two, one that the sleep stage
    ends the first three. Without the Fitbit folder or its physical
    activity folder the run exits before it reads or writes anything. *)
Theorem files_are_written_in_order (start_date end_date : date) (ex : export) :
  let r := convert start_date end_date ex in
  let body := st_returned (generate_body_csv start_date end_date ex) in
  let activities := st_returned (generate_activities_csv start_date end_date ex) in
  let sleep := st_returned (generate_sleep_csv start_date end_date ex) in
  (run_files r).*1 `prefix_of` output_names
  ∧ (is_ok (run_result r) = true → (run_files r).*1 = output_names)
  ∧ (fitbit_dir_exists ex = true → pa_dir_exists ex = true →
     (is_ok body = false → run_files r = [])
     ∧ (is_ok body = true → is_ok activities = false →
        (run_files r).*1 = take 2 output_names)
     ∧ (is_ok body = true → is_ok activities = true → is_ok sleep = false →
        (run_files r).*1 = take 3 output_names))
  ∧ (fitbit_dir_exists ex = false ∨ pa_dir_exists ex = false →
     r = mkrun [] [] (Raise SystemExit)).
Proof.
  cbv zeta. unfold convert.
  destruct (fitbit_dir_exists ex);
    [|by split_and!; [apply prefix_nil|..]; [..|by intros _]].
  destruct (pa_dir_exists ex);
    [|by split_and!; [apply prefix_nil|..]; [..|by intros _]].
  simpl. unfold then_stage.
  destruct (generate_body_csv_cases start_date end_date ex)
    as [(ws & e & ->)|(ws & b & ->)]; simpl.
  { split_and!; [apply prefix_nil|done| |by intros [?|?]].
    intros _ _. by split_and!. }
  destruct (generate_activities_csv_cases start_date end_date ex)
    as (ws2 & rows & r2 & -> & _); simpl.
  destruct r2 as [ds|e]; simpl.
  2:{ split_and!; [by exists (drop 2 output_names)|done| |by intros [?|?]].
      intros _ _. by split_and!. }
  destruct (generate_sleep_csv_cases start_date end_date ex)
    as (ws3 & rows3 & r3 & -> & _); simpl.
  destruct r3 as [sl|e]; simpl.
  2:{ split_and!; [by exists (drop 3 output_names)|done| |by intros [?|?]].
      intros _ _. by split_and!. }
  split_and!; [done|done| |by intros [?|?]].
  intros _ _. by split_and!.
Qed.

Lemma sorted_keys_length {V} (d : gmap string V) : length (sorted_keys d) = size d.
Proof.
  unfold sorted_keys. rewrite (sorted_by_Permutation id (elements (dom d))).
  change (length (elements (dom d))) with (size (dom d)). apply size_dom.
Qed.

Lemma body_lines_length (b : gmap string body_entry) :
  length (body_lines b) = (2 + size b)%nat.
Proof. unfold body_lines. simpl. by rewrite length_fmap, sorted_keys_length. Qed.

(** The counts of the closing summary are the numbers of rows under the
    two header lines of the Body and Activities tables; the Sleep table
    has at most as many rows as sessions counted. *)
Theorem summary_counts_match_tables (start_date end_date : date) (ex : export)
  (m : manifest) :
  run_result (convert start_date end_date ex) = Ok m →
  ∃ body act sleep rest,
    run_files (convert start_date end_date ex)
    = ("garmin_body.csv", body) :: ("garmin_activities.csv", act)
      :: ("garmin_sleep.csv", sleep) :: rest
    ∧ length body = (2 + body_entries m)%nat
    ∧ length act = (2 + activity_days m)%nat
    ∧ (length sleep ≤ 2 + sleep_nights m)%nat.
Proof.
  unfold convert.
  destruct (fitbit_dir_exists ex); [|done]. destruct (pa_dir_exists ex); [|done].
  simpl. unfold then_stage.
  destruct (generate_body_csv_cases start_date end_date ex)
    as [(ws & e & ->)|(ws & b & ->)]; simpl; [done|].
  destruct (generate_activities_csv_cases start_date end_date ex)
    as (ws2 & rows & r2 & -> & Hact); simpl.
  destruct r2 as [ds|e]; simpl; [|done].
  destruct (Hact eq_refl) as [[= ->] Hlen].
  destruct (generate_sleep_csv_cases start_date end_date ex)
    as (ws3 & rows3 & r3 & -> & Hsl & Hlen3); simpl.
  destruct r3 as [sl|e]; simpl; [|done].
  pose proof (Hsl eq_refl) as [= ->].
  intros [= <-]. simpl. eexists _, _, _, _. split; [done|].
  split_and!.
  - apply body_lines_length.
  - simpl. by rewrite Hlen.
  - simpl. lia.
Qed.

Lemma summary_counts_match_tables_witness :
  ∃ body act sleep rest,
    run_files (convert default_start default_end both_sources_fixture)
    = ("garmin_body.csv", body) :: ("garmin_activities.csv", act)
      :: ("garmin_sleep.csv", sleep) :: rest
    ∧ length body = (2 + 1)%nat
    ∧ length act = (2 + 0)%nat
    ∧ (length sleep ≤ 2 + 0)%nat.
Proof.
  apply (summary_counts_match_tables default_start default_end both_sources_fixture
           (mkmanifest 1 0 0)).
  vm_compute. reflexivity.
Defined.

(** ** The order of the rows *)

Lemma ascii_compare_trans (a b c : ascii) :
  Ascii.compare a b ≠ Gt → Ascii.compare b c ≠ Gt →
  Ascii.compare a c ≠ Gt
  ∧ (Ascii.compare a c = Eq → Ascii.compare a b = Eq ∧ Ascii.compare b c = Eq).
Proof.
  unfold Ascii.compare.
  destruct (N.compare_spec (N_of_ascii a) (N_of_ascii b));
    destruct (N.compare_spec (N_of_ascii b) (N_of_ascii c));
    destruct (N.compare_spec (N_of_ascii a) (N_of_ascii c)); try done; lia.
Qed.

Lemma string_leb_trans (s1 s2 s3 : string) :
  String.leb s1 s2 = true → String.leb s2 s3 = true → String.leb s1 s3 = true.
Proof.
  unfold String.leb. revert s2 s3.
  induction s1 as [|a s1 IH]; intros [|b s2] [|c s3]; simpl; try done.
  intros H12 H23.
  destruct (ascii_compare_trans a b c) as [Hle Heq].
  { by destruct (Ascii.compare a b). }
  { by destruct (Ascii.compare b c). }
  destruct (Ascii.compare a c) eqn:Hac; [|done..].
  destruct (Heq eq_refl) as [Hab Hbc]. rewrite Hab in H12. rewrite Hbc in H23.
  by apply IH with s2.
Qed.

Lemma string_leb_false (s1 s2 : string) :
  String.leb s1 s2 = false → String.leb s2 s1 = true.
Proof. intros H. by destruct (String.leb_total s1 s2) as [H'|H']; [congruence|]. Qed.

(** [sorted] leaves its keys ascending. *)
Lemma insert_by_sorted {A} (key : A → string) (x : A) (l : list A) :
  StronglySorted (λ a b, String.leb (key a) (key b) = true) l →
  StronglySorted (λ a b, String.leb (key a) (key b) = true) (insert_by key x l).
Proof.
  induction 1 as [|y l Hl IH Hy]; simpl; [by repeat constructor|].
  destruct (String.leb (key x) (key y)) eqn:Hxy.
  - constructor; [by constructor|]. constructor; [done|].
    eapply Forall_impl; [exact Hy|]. intros z Hz. simpl in Hz.
    by apply string_leb_trans with (key y).
  - constructor; [done|]. apply Forall_forall. intros z Hz.
    apply elem_of_insert_by in Hz as [->|Hz].
    + by apply string_leb_false.
    + by eapply Forall_forall in Hy.
Qed.

Lemma sorted_by_sorted {A} (key : A → string) (l : list A) :
  StronglySorted (λ a b, String.leb (key a) (key b) = true) (sorted_by key l).
Proof.
  induction l as [|x l IH]; simpl; [constructor|]. by apply insert_by_sorted.
Qed.

(** Keys that are all different are strictly ascending. *)
Lemma sorted_by_id_strict (l : list string) :
  NoDup l → StronglySorted (λ a b, String.ltb a b = true) (sorted_by id l).
Proof.
  intros Hnd.
  assert (NoDup (sorted_by id l)) as Hnd' by by rewrite sorted_by_Permutation.
  pose proof (sorted_by_sorted id l) as Hs.
  induction Hs as [|y l' Hl IH Hy]; [constructor|].
  apply NoDup_cons in Hnd' as [Hy' Hnd']. constructor; [by apply IH|].
  apply Forall_forall. intros z Hz. eapply Forall_forall in Hy; [|done].
  simpl in Hy. unfold String.leb in Hy. unfold String.ltb.
  destruct (String.compare y z) eqn:Hc; [|done..].
  apply String.compare_eq_iff in Hc. by subst.
Qed.

Lemma digit_compare_checked :
  forall_below 10 (λ a, forall_below 10 (λ b,
    bool_decide (Ascii.compare (digit_char a) (digit_char b) = Z.compare a b))) = true.
Proof. vm_compute. reflexivity. Qed.

Lemma digit_char_compare (a b : Z) :
  0 ≤ a ≤ 9 → 0 ≤ b ≤ 9 → Ascii.compare (digit_char a) (digit_char b) = Z.compare a b.
Proof.
  intros Ha Hb.
  pose proof (forall_below_spec _ _ digit_compare_checked a ltac:(simpl; lia)) as H.
  cbv beta in H.
  pose proof (forall_below_spec _ _ H b ltac:(simpl; lia)) as H'.
  cbv beta in H'. by apply bool_decide_eq_true in H'.
Qed.

(** The number [YYYYMMDD] of a date. *)
Lemma strftime_ymd_leb_number (d1 d2 : date) :
  0 ≤ year d1 < 10000 → 0 ≤ month d1 < 100 → 0 ≤ day d1 < 100 →
  0 ≤ year d2 < 10000 → 0 ≤ month d2 < 100 → 0 ≤ day d2 < 100 →
  String.leb (strftime_ymd d1) (strftime_ymd d2)
  = ((year d1 * 100 + month d1) * 100 + day d1
     <=? (year d2 * 100 + month d2) * 100 + day d2).
Proof.
  destruct d1 as [y1 m1 n1], d2 as [y2 m2 n2]. simpl. intros.
  unfold String.leb, strftime_ymd, pad4, pad2. simpl.
  rewrite !digit_char_compare by lia.
  destruct (Z.leb_spec ((y1 * 100 + m1) * 100 + n1) ((y2 * 100 + m2) * 100 + n2));
    repeat (match goal with
            | |- context [Z.compare ?x ?y] => destruct (Z.compare_spec x y)
            end); try done; lia.
Qed.

(** ** The dates that are written *)

Lemma make_date_Some (y m d : Z) (dd : date) :
  make_date y m d = Some dd → valid_date (year dd) (month dd) (day dd) = true.
Proof. unfold make_date. destruct (valid_date y m d) eqn:Hv; [|done]. by intros [= <-]. Qed.

Lemma first_match_valid (paths : list (Z * Z * Z * string)) (dd : date) :
  first_match paths = Some dd → valid_date (year dd) (month dd) (day dd) = true.
Proof.
  destruct paths as [|[[[y m] d] [|c r]] paths]; simpl; try done. apply make_date_Some.
Qed.

Lemma make_datetime_valid (y mo d h mi s us : Z) (tz : option Z) (t : datetime) :
  make_datetime y mo d h mi s us tz = Some t →
  valid_date (year (dt_date t)) (month (dt_date t)) (day (dt_date t)) = true.
Proof.
  unfold make_datetime. destruct (make_date y mo d) as [dd|] eqn:Hd; [|done].
  destruct (_ && _); [|done]. intros [= <-]. simpl. by eapply make_date_Some.
Qed.

Lemma fromisoformat_valid (s : string) (t : datetime) :
  fromisoformat s = Some t →
  valid_date (year (dt_date t)) (month (dt_date t)) (day (dt_date t)) = true.
Proof.
  unfold fromisoformat.
  repeat match goal with
         | |- match ?x with _ => _ end = _ → _ => destruct x; try done
         end; apply make_datetime_valid.
Qed.

(** A date that [parse_date] returns is a date of the calendar. *)
Lemma parse_date_valid (s : string) (d : date) :
  parse_date s = Some d → valid_date (year d) (month d) (day d) = true.
Proof.
  unfold parse_date. destruct (PyStr.contains _ _).
  - destruct (fromisoformat _) as [t|] eqn:Ht; [|done]. intros [= <-].
    by eapply fromisoformat_valid.
  - destruct (strptime_ymd _) as [d1|] eqn:H1.
    { intros [= <-]. by eapply first_match_valid. }
    destruct (strptime_mdy _) as [d2|] eqn:H2.
    { intros [= <-]. by eapply first_match_valid. }
    destruct (fromisoformat _) as [t|] eqn:Ht; [|done]. intros [= <-].
    by eapply fromisoformat_valid.
Qed.

Lemma date_leb_number (d1 d2 : date) :
  0 ≤ month d1 < 100 → 0 ≤ day d1 < 100 → 0 ≤ month d2 < 100 → 0 ≤ day d2 < 100 →
  date_leb d1 d2
  = ((year d1 * 100 + month d1) * 100 + day d1
     <=? (year d2 * 100 + month d2) * 100 + day d2).
Proof.
  destruct d1 as [y1 m1 n1], d2 as [y2 m2 n2]. unfold date_leb. simpl. intros.
  destruct (Z.ltb_spec y1 y2), (Z.eqb_spec y1 y2), (Z.ltb_spec m1 m2),
    (Z.eqb_spec m1 m2), (Z.leb_spec n1 n2); simpl;
    match goal with |- _ = (?a <=? ?b) => destruct (Z.leb_spec a b) end;
    try done; lia.
Qed.

(** For dates of the calendar the order of the texts [YYYY-MM-DD] is the
    order of the dates. *)
Lemma strftime_ymd_leb (d1 d2 : date) :
  valid_date (year d1) (month d1) (day d1) = true →
  valid_date (year d2) (month d2) (day d2) = true →
  String.leb (strftime_ymd d1) (strftime_ymd d2) = date_leb d1 d2.
Proof.
  intros H1%valid_date_bounds H2%valid_date_bounds.
  rewrite strftime_ymd_leb_number, date_leb_number by lia. done.
Qed.

Lemma strftime_ymd_inj (d1 d2 : date) :
  valid_date (year d1) (month d1) (day d1) = true →
  valid_date (year d2) (month d2) (day d2) = true →
  strftime_ymd d1 = strftime_ymd d2 → d1 = d2.
Proof.
  intros H1 H2 Heq.
  pose proof (strftime_ymd_leb d1 d2 H1 H2) as H12.
  pose proof (strftime_ymd_leb d2 d1 H2 H1) as H21.
  rewrite Heq in H12. rewrite Heq in H21.
  assert (String.leb (strftime_ymd d2) (strftime_ymd d2) = true) as Hr.
  { by destruct (String.leb_total (strftime_ymd d2) (strftime_ymd d2)). }
  rewrite Hr in H12, H21.
  apply valid_date_bounds in H1, H2.
  rewrite date_leb_number in H12, H21 by lia.
  destruct d1 as [y1 m1 n1], d2 as [y2 m2 n2]. simpl in *.
  assert (y1 = y2 ∧ m1 = m2 ∧ n1 = n2) as (-> & -> & ->) by lia. done.
Qed.

Lemma window_date_Some (start_date end_date : date) (text : string) (d : date) :
  window_date start_date end_date text = Some d →
  window_text start_date end_date (strftime_ymd d).
Proof.
  unfold window_date. destruct (parse_date text) as [d'|] eqn:Hp; [|done].
  destruct (in_window start_date end_date d') eqn:Hw; [|done]. intros [= <-].
  exists d'. split_and!; [|done..]. by eapply parse_date_valid.
Qed.

Section Keys.
Variables start_date end_date : date.

Lemma keys_in_window_empty {V} : (keys_in_window start_date end_date) (∅ : gmap string V).
Proof. intros k. rewrite lookup_empty. by intros [? ?]. Qed.

Lemma keys_in_window_insert {V} (m : gmap string V) (text : string) (d : date) (v : V) :
  window_date start_date end_date text = Some d →
  (keys_in_window start_date end_date) m → (keys_in_window start_date end_date) (<[strftime_ymd d := v]> m).
Proof.
  intros Hd Hm k. destruct (decide (k = strftime_ymd d)) as [->|Hne].
  - intros _. by eapply window_date_Some.
  - rewrite lookup_insert_ne by done. apply Hm.
Qed.

Lemma body_json_entry_keys (b : gmap string body_entry) (e : entry) :
  (keys_in_window start_date end_date) b → (keys_in_window start_date end_date) (body_json_entry start_date end_date b e).1.
Proof.
  intros Hb. unfold body_json_entry.
  destruct (window_date _ _ _) as [d|] eqn:Hd; [|done].
  destruct (float_of_jval (jget e "weight" _)); [|done]. simpl.
  destruct (float_of_jval (jget e "bmi" _)); [|done]. simpl.
  destruct (float_of_jval (jget e "fat" _)); [|done]. simpl.
  by eapply keys_in_window_insert.
Qed.

Lemma weight_csv_row_keys (b : gmap string body_entry) (r : row) :
  (keys_in_window start_date end_date) b → (keys_in_window start_date end_date) (weight_csv_row start_date end_date b r).1.
Proof.
  intros Hb. unfold weight_csv_row.
  destruct (window_date _ _ _) as [d|] eqn:Hd; [|done].
  destruct (cell_float _); [|done]. simpl. by eapply keys_in_window_insert.
Qed.

Lemma body_fat_row_keys (b : gmap string body_entry) (r : row) :
  (keys_in_window start_date end_date) b → (keys_in_window start_date end_date) (body_fat_row start_date end_date b r).1.
Proof.
  intros Hb. unfold body_fat_row.
  destruct (window_date _ _ _) as [d|] eqn:Hd; [|done].
  destruct (cell_float _); [|done]. simpl.
  destruct (b !! strftime_ymd d); simpl; by eapply keys_in_window_insert.
Qed.

Lemma aggregate_row_keys (col : string) (c : cast) (m : gmap string pyfloat) (r : row) :
  (keys_in_window start_date end_date) m → (keys_in_window start_date end_date) (aggregate_row start_date end_date col c m r).1.
Proof.
  intros Hm. unfold aggregate_row.
  destruct (window_date _ _ _) as [d|] eqn:Hd; [|done].
  destruct (apply_cast c _) as [v|]; simpl; [|by eapply keys_in_window_insert].
  destruct (float_add_num _ v); simpl; repeat eapply keys_in_window_insert; done.
Qed.

Lemma generate_body_csv_keys (ex : export) (b : gmap string body_entry) :
  st_returned (generate_body_csv start_date end_date ex) = Ok b → (keys_in_window start_date end_date) b.
Proof.
  assert ((keys_in_window start_date end_date) (body_from_json start_date end_date ex).1) as Hjson.
  { unfold body_from_json. apply (fold_files_inv _ (keys_in_window start_date end_date)).
    - apply keys_in_window_empty.
    - intros s [|entries] Hs _; [done|]. simpl.
      apply (fold_rows_inv _ (keys_in_window start_date end_date)); [done|].
      intros s' e Hs' _. by apply body_json_entry_keys. }
  assert ((keys_in_window start_date end_date) (body_with_fallback start_date end_date ex).1) as Hfb.
  { unfold body_with_fallback. destruct (bool_decide _); [|done].
    destruct (weight_csv ex) as [rows|]; [|done].
    apply (fold_rows_inv _ (keys_in_window start_date end_date)); [done|].
    intros s' r Hs' _. by apply weight_csv_row_keys. }
  unfold generate_body_csv.
  destruct (body_with_fallback start_date end_date ex) as [b0 [e|]]; [done|].
  pose proof (fold_files_inv (fold_rows (body_fat_row start_date end_date))
                (keys_in_window start_date end_date) b0 (sorted_files (body_fat_csv ex)) Hfb) as Hfat.
  destruct (fold_files _ b0 _) as [b' ws]. simpl. intros [= <-]. apply Hfat.
  intros s f Hs _. apply (fold_rows_inv _ (keys_in_window start_date end_date)); [done|].
  intros s' r Hs' _. by apply body_fat_row_keys.
Qed.

Lemma aggregate_csv_keys (files : list (string * list row)) (col : string) (c : cast) :
  (keys_in_window start_date end_date) (_aggregate_csv start_date end_date files col c).1.
Proof.
  unfold _aggregate_csv. apply (fold_files_inv _ (keys_in_window start_date end_date)).
  - apply keys_in_window_empty.
  - intros s f Hs _. apply (fold_rows_inv _ (keys_in_window start_date end_date)); [done|].
    intros s' r Hs' _. by apply aggregate_row_keys.
Qed.

Lemma all_dates_in_window (ex : export) :
  Forall (window_text start_date end_date)
    (all_dates (read_activities start_date end_date ex).1).
Proof.
  apply Forall_forall. intros k Hk. apply elem_of_all_dates in Hk.
  unfold read_activities in Hk.
  pose proof (aggregate_csv_keys (steps_csv ex) "steps" cast_int) as H1.
  pose proof (aggregate_csv_keys (calories_csv ex) "calories" cast_float) as H2.
  pose proof (aggregate_csv_keys (distance_csv ex) "distance" cast_float) as H3.
  destruct (_aggregate_csv _ _ (steps_csv ex) _ _) as [steps w1].
  destruct (_aggregate_csv _ _ (calories_csv ex) _ _) as [cal w2].
  destruct (_aggregate_csv _ _ (distance_csv ex) _ _) as [dist w3].
  destruct (_aggregate_csv _ _ (floors_csv ex) _ _) as [fl w4].
  destruct (fold_files (fold_rows (active_minutes_row _ _)) _ _) as [act w5].
  destruct (fold_files (fold_rows (activity_level_row _ _)) _ _) as [sed w6].
  simpl in *. rewrite !elem_of_dom in Hk. destruct Hk as [Hk|[Hk|Hk]]; auto.
Qed.

End Keys.

Lemma ltb_date_ltb (d1 d2 : date) :
  valid_date (year d1) (month d1) (day d1) = true →
  valid_date (year d2) (month d2) (day d2) = true →
  String.ltb (strftime_ymd d1) (strftime_ymd d2) = true → date_ltb d1 d2 = true.
Proof.
  intros H1 H2. unfold String.ltb, date_ltb.
  rewrite <- !strftime_ymd_leb by done. unfold String.leb.
  rewrite (String.compare_antisym (strftime_ymd d2) (strftime_ymd d1)).
  by destruct (String.compare (strftime_ymd d1) (strftime_ymd d2)).
Qed.

(** Texts of dates in the window that ascend strictly are the texts of
    dates that ascend strictly. *)
Lemma texts_to_dates (start_date end_date : date) (ks : list string) :
  Forall (window_text start_date end_date) ks →
  StronglySorted (λ a b, String.ltb a b = true) ks →
  ∃ ds, ks = strftime_ymd <$> ds
    ∧ Forall (λ d, valid_date (year d) (month d) (day d) = true
                   ∧ in_window start_date end_date d = true) ds
    ∧ StronglySorted (λ a b, date_ltb a b = true) ds.
Proof.
  induction 1 as [|k ks (d & Hv & Hw & ->) Hks IH]; intros Hs.
  { exists []. split_and!; constructor. }
  apply StronglySorted_inv in Hs as [Hs Hk].
  destruct (IH Hs) as (ds & -> & Hds & Hsorted).
  exists (d :: ds). split_and!; [done|by constructor|].
  constructor; [done|]. apply Forall_forall. intros d' Hd'.
  eapply Forall_forall in Hds as [Hv' _]; [|done].
  apply ltb_date_ltb; [done..|].
  eapply Forall_forall in Hk; [done|]. by apply list_elem_of_fmap_2.
Qed.

Lemma emit_prefix {X Y} (f : X → result Y) (xs : list X) :
  Forall2 (λ x y, f x = Ok y) (take (length (emit f xs).1) xs) (emit f xs).1.
Proof.
  induction xs as [|x xs IH]; simpl; [constructor|].
  destruct (f x) as [y|e] eqn:Hx; [|constructor].
  destruct (emit f xs) as [ys oe]. simpl in *. by constructor.
Qed.

Lemma sorted_keys_strict {V} (m : gmap string V) :
  StronglySorted (λ a b, String.ltb a b = true) (sorted_keys m).
Proof. apply sorted_by_id_strict, NoDup_elements. Qed.

Lemma elem_of_sorted_keys {V} (m : gmap string V) (k : string) :
  k ∈ sorted_keys m ↔ is_Some (m !! k).
Proof. unfold sorted_keys. by rewrite elem_of_sorted_by, elem_of_elements, elem_of_dom. Qed.

Lemma all_dates_strict (a : activity_data) :
  StronglySorted (λ a b, String.ltb a b = true) (all_dates a).
Proof. apply sorted_by_id_strict, NoDup_elements. Qed.

(** The Body table has one row for each date of [body_data], every one
    a date of the calendar inside the window, and the rows are in the
    order of the calendar. *)
Theorem body_rows_in_calendar_order (start_date end_date : date) (ex : export)
  (b : gmap string body_entry) :
  1000 ≤ year start_date →
  st_returned (generate_body_csv start_date end_date ex) = Ok b →
  ∃ ds : list date,
    st_files (generate_body_csv start_date end_date ex)
    = [("garmin_body.csv",
        "Body" :: "Date,Weight,BMI,Fat" :: ((body_line b ∘ strftime_ymd) <$> ds))]
    ∧ (∀ k, is_Some (b !! k) ↔ k ∈ strftime_ymd <$> ds)
    ∧ Forall (λ d, valid_date (year d) (month d) (day d) = true
                   ∧ in_window start_date end_date d = true) ds
    ∧ StronglySorted (λ d1 d2, date_ltb d1 d2 = true) ds.
Proof.
  intros _ Hb.
  pose proof (generate_body_csv_keys _ _ _ _ Hb) as Hkeys.
  destruct (texts_to_dates start_date end_date (sorted_keys b))
    as (ds & Hds & Hwin & Hsorted).
  { apply Forall_forall. intros k Hk. by apply Hkeys, elem_of_sorted_keys. }
  { apply sorted_keys_strict. }
  exists ds. split_and!; [|by intros k; rewrite <- Hds, elem_of_sorted_keys|done..].
  destruct (generate_body_csv_cases start_date end_date ex)
    as [(ws & e & Heq)|(ws & b' & Heq)]; rewrite Heq in Hb |- *; [done|].
  simpl in Hb. injection Hb as ->. simpl. unfold body_lines.
  by rewrite Hds, <- list_fmap_compose.
Qed.

Lemma body_rows_in_calendar_order_witness :
  ∃ ds : list date,
    st_files (generate_body_csv default_start default_end both_sources_fixture)
    = [("garmin_body.csv",
        "Body" :: "Date,Weight,BMI,Fat"
        :: ((body_line (body_from_json default_start default_end both_sources_fixture).1
             ∘ strftime_ymd) <$> ds))]
    ∧ (∀ k, is_Some ((body_from_json default_start default_end both_sources_fixture).1 !! k)
            ↔ k ∈ strftime_ymd <$> ds)
    ∧ Forall (λ d, valid_date (year d) (month d) (day d) = true
                   ∧ in_window default_start default_end d = true) ds
    ∧ StronglySorted (λ d1 d2, date_ltb d1 d2 = true) ds.
Proof.
  apply (body_rows_in_calendar_order default_start default_end both_sources_fixture
           (body_from_json default_start default_end both_sources_fixture).1).
  - simpl. lia.
  - vm_compute. reflexivity.
Defined.

(** The Activities table has its rows in the order of the calendar, one
    for each date of [all_dates] up to the first that cannot be written;
    every date is a date of the calendar inside the window. *)
Theorem activity_rows_in_calendar_order (start_date end_date : date) (ex : export) :
  1000 ≤ year start_date →
  ∃ ds : list date,
    all_dates (read_activities start_date end_date ex).1 = strftime_ymd <$> ds
    ∧ Forall (λ d, valid_date (year d) (month d) (day d) = true
                   ∧ in_window start_date end_date d = true) ds
    ∧ StronglySorted (λ d1 d2, date_ltb d1 d2 = true) ds
    ∧ ar_date <$> (activity_rows start_date end_date ex).1
      = strftime_ymd <$> take (length (activity_rows start_date end_date ex).1) ds
    ∧ ((activity_rows start_date end_date ex).2 = None →
       ar_date <$> (activity_rows start_date end_date ex).1 = strftime_ymd <$> ds).
Proof.
  intros _.
  destruct (texts_to_dates start_date end_date
              (all_dates (read_activities start_date end_date ex).1))
    as (ds & Hds & Hwin & Hsorted).
  { apply all_dates_in_window. }
  { apply all_dates_strict. }
  exists ds. split_and!; [done..| |].
  - rewrite fmap_take, <- Hds. unfold activity_rows. cbv zeta.
    apply emit_dates with (a := (read_activities start_date end_date ex).1).
    apply emit_prefix.
  - unfold activity_rows. cbv zeta. rewrite <- Hds.
    destruct (emit _ _) as [rows oe] eqn:Hemit. simpl. intros ->.
    by apply emit_dates with (a := (read_activities start_date end_date ex).1), emit_all.
Qed.

Lemma activity_rows_in_calendar_order_witness :
  ∃ ds : list date,
    all_dates (read_activities default_start default_end steps_malformed_fixture).1
    = strftime_ymd <$> ds
    ∧ Forall (λ d, valid_date (year d) (month d) (day d) = true
                   ∧ in_window default_start default_end d = true) ds
    ∧ StronglySorted (λ d1 d2, date_ltb d1 d2 = true) ds
    ∧ ar_date <$> (activity_rows default_start default_end steps_malformed_fixture).1
      = strftime_ymd
          <$> take (length (activity_rows default_start default_end
                              steps_malformed_fixture).1) ds
    ∧ ((activity_rows default_start default_end steps_malformed_fixture).2 = None →
       ar_date <$> (activity_rows default_start default_end steps_malformed_fixture).1
       = strftime_ymd <$> ds).
Proof.
  apply (activity_rows_in_calendar_order default_start default_end
           steps_malformed_fixture).
  simpl. lia.
Defined.

(** ** A window that holds no date *)

Lemma date_leb_trans (d1 d2 d3 : date) :
  date_leb d1 d2 = true → date_leb d2 d3 = true → date_leb d1 d3 = true.
Proof.
  destruct d1 as [y1 m1 n1], d2 as [y2 m2 n2], d3 as [y3 m3 n3].
  unfold date_leb. simpl.
  rewrite !orb_true_iff, !andb_true_iff, !orb_true_iff, !andb_true_iff,
    !Z.ltb_lt, !Z.eqb_eq, !Z.leb_le. lia.
Qed.

Lemma fold_rows_skip {S R} (body : step S R) (s : S) (l : list R) :
  (∀ r, body s r = (s, None)) → fold_rows body s l = (s, None).
Proof. intros Hskip. induction l as [|r l IH]; simpl; [done|]. by rewrite Hskip. Qed.

Lemma fold_files_skip {S F} (read : step S F) (s : S) (fs : list (string * F)) :
  (∀ f, read s f = (s, None)) → fold_files read s fs = (s, []).
Proof.
  intros Hskip. induction fs as [|[name f] fs IH]; simpl; [done|].
  by rewrite Hskip, IH.
Qed.

Lemma omap_skip {A B} (f : A → option B) (l : list A) :
  (∀ x, f x = None) → omap f l = [].
Proof. intros Hskip. induction l as [|x l IH]; simpl; [done|]. by rewrite Hskip. Qed.

Section EmptyWindow.
Variables start_date end_date : date.
Hypothesis inverted : date_leb start_date end_date = false.

Lemma in_window_inverted (d : date) : in_window start_date end_date d = false.
Proof.
  unfold in_window. destruct (date_leb start_date d) eqn:H1; [|done].
  destruct (date_leb d end_date) eqn:H2; [|done].
  by rewrite (date_leb_trans _ _ _ H1 H2) in inverted.
Qed.

Lemma window_date_inverted (text : string) :
  window_date start_date end_date text = None.
Proof.
  unfold window_date. destruct (parse_date text); [|done].
  by rewrite in_window_inverted.
Qed.

Lemma body_from_json_inverted (ex : export) :
  body_from_json start_date end_date ex = (∅, json_load_warnings ex).
Proof.
  unfold body_from_json, json_load_warnings.
  induction (sorted_files (weight_json ex)) as [|[name f] fs IH]; simpl; [done|].
  destruct f as [|entries]; simpl.
  - by rewrite IH.
  - rewrite fold_rows_skip; [by rewrite IH|].
    intros e. unfold body_json_entry. by rewrite window_date_inverted.
Qed.

Lemma generate_body_csv_inverted (ex : export) :
  generate_body_csv start_date end_date ex
  = mkstage (json_load_warnings ex) [("garmin_body.csv", ["Body"; "Date,Weight,BMI,Fat"])]
      (Ok ∅).
Proof.
  unfold generate_body_csv, body_with_fallback. rewrite body_from_json_inverted.
  cbn [fst snd]. rewrite bool_decide_eq_true_2 by apply map_size_empty.
  assert (fold_files (fold_rows (body_fat_row start_date end_date)) ∅
            (sorted_files (body_fat_csv ex)) = (∅, [])) as Hfat.
  { apply fold_files_skip. intros f. apply fold_rows_skip. intros r.
    unfold body_fat_row. by rewrite window_date_inverted. }
  destruct (weight_csv ex) as [rows|].
  - rewrite fold_rows_skip.
    + rewrite Hfat. by rewrite app_nil_r.
    + intros r. unfold weight_csv_row. by rewrite window_date_inverted.
  - rewrite Hfat. by rewrite app_nil_r.
Qed.

Lemma aggregate_csv_inverted (files : list (string * list row)) (col : string) (c : cast) :
  _aggregate_csv start_date end_date files col c = (∅, []).
Proof.
  apply fold_files_skip. intros f. apply fold_rows_skip. intros r.
  unfold aggregate_row. by rewrite window_date_inverted.
Qed.

Lemma generate_activities_csv_inverted (ex : export) :
  generate_activities_csv start_date end_date ex
  = mkstage [] [("garmin_activities.csv", activities_header)] (Ok []).
Proof.
  unfold generate_activities_csv, read_activities.
  rewrite !aggregate_csv_inverted.
  rewrite (fold_files_skip (fold_rows (active_minutes_row start_date end_date))).
  2:{ intros f. apply fold_rows_skip. intros r.
      unfold active_minutes_row. by rewrite window_date_inverted. }
  rewrite (fold_files_skip (fold_rows (activity_level_row start_date end_date))).
  2:{ intros f. apply fold_rows_skip. intros r.
      unfold activity_level_row. by rewrite window_date_inverted. }
  done.
Qed.

Lemma generate_sleep_csv_inverted (ex : export) :
  generate_sleep_csv start_date end_date ex
  = mkstage [] [("garmin_sleep.csv", sleep_header)] (Ok []).
Proof.
  unfold generate_sleep_csv, read_sleeps, read_sleep_stages.
  rewrite (fold_files_skip (fold_rows (user_sleeps_row start_date end_date))).
  2:{ intros f. apply fold_rows_skip. intros r. unfold user_sleeps_row.
      destruct (parse_sleep_datetime _); [|done]. by rewrite in_window_inverted. }
  rewrite (fold_files_skip (fold_rows (sleep_stages_row []))).
  2:{ intros f. by apply fold_rows_skip. }
  done.
Qed.

Lemma read_daily_csv_inverted (content : option (list row))
  (value_cols : list (string * string)) :
  _read_daily_csv start_date end_date content value_cols = [].
Proof.
  destruct content as [rows|]; [|done]. simpl. apply omap_skip.
  intros r. by rewrite window_date_inverted.
Qed.

Lemma generate_supplementary_csvs_inverted (ex : export) :
  generate_supplementary_csvs start_date end_date ex
  = mkstage [] (drop 3 header_only_files) (Ok ()).
Proof.
  unfold generate_supplementary_csvs, rhr_data, hrv_data, rr_data, readiness_data,
    spo2_data, sleep_score_data.
  rewrite !read_daily_csv_inverted.
  rewrite (fold_files_skip (fold_rows (spo2_row start_date end_date))).
  2:{ intros f. apply fold_rows_skip. intros r.
      unfold spo2_row. by rewrite window_date_inverted. }
  assert (∀ rows, omap (λ r : row,
            match window_date start_date end_date (get_text r "timestamp") with
            | Some d =>
                Some [("date", VText (strftime_ymd d));
                      ("overall_score", VText (get_text r "overall_score"));
                      ("composition_score", VText (get_text r "composition_score"));
                      ("revitalization_score", VText (get_text r "revitalization_score"));
                      ("duration_score", VText (get_text r "duration_score"));
                      ("deep_sleep_min", VText (get_text r "deep_sleep_in_minutes"));
                      ("resting_hr", VText (get_text r "resting_heart_rate"))]
            | None => None
            end) rows = []) as Hscore.
  { intros rows. apply omap_skip. intros r. by rewrite window_date_inverted. }
  destruct (sleep_score_csv ex) as [rows|]; [rewrite Hscore|]; reflexivity.
Qed.

End EmptyWindow.

Lemma convert_inverted (start_date end_date : date) (ex : export) :
  date_leb start_date end_date = false →
  fitbit_dir_exists ex = true → pa_dir_exists ex = true →
  convert start_date end_date ex
  = mkrun (json_load_warnings ex) header_only_files (Ok (mkmanifest 0 0 0)).
Proof.
  intros Hinv Hdir Hpa. unfold convert. rewrite Hdir, Hpa. simpl. unfold then_stage.
  rewrite generate_body_csv_inverted, generate_activities_csv_inverted,
    generate_sleep_csv_inverted, generate_supplementary_csvs_inverted by done.
  simpl. by rewrite !app_nil_r.
Qed.

(** When the end of the window lies before its start no record is in
    it, whatever its text: the files of the run are the first of the nine
    that hold their header lines and no row, and a run that returns has
    written all nine of them and counts 0 body entries, 0 activity days
    and 0 sleep nights. The weight of a row of [weight.csv] is never
    looked at, so that text that is no number there raises nothing. *)
Theorem empty_window_gives_header_only_files (start_date end_date : date) (ex : export) :
  date_leb start_date end_date = false →
  fitbit_dir_exists ex = true → pa_dir_exists ex = true →
  (∀ text, window_date start_date end_date text = None)
  ∧ run_files (convert start_date end_date ex) `prefix_of` header_only_files
  ∧ (∀ m, run_result (convert start_date end_date ex) = Ok m →
          m = mkmanifest 0 0 0
          ∧ run_files (convert start_date end_date ex) = header_only_files)
  ∧ (∀ body r, weight_csv_row start_date end_date body r = (body, None)).
Proof.
  intros Hinv Hdir Hpa. rewrite (convert_inverted _ _ _ Hinv Hdir Hpa). simpl.
  split_and!.
  - intros text. by apply window_date_inverted.
  - done.
  - by intros m [= <-].
  - intros body r. unfold weight_csv_row. by rewrite window_date_inverted.
Qed.

Lemma empty_window_gives_header_only_files_witness :
  (∀ text, window_date (mkdate 2025 2 1) (mkdate 2025 1 1) text = None)
  ∧ run_files (convert (mkdate 2025 2 1) (mkdate 2025 1 1) weight_csv_malformed_fixture)
    `prefix_of` header_only_files
  ∧ (∀ m, run_result (convert (mkdate 2025 2 1) (mkdate 2025 1 1)
                        weight_csv_malformed_fixture) = Ok m →
          m = mkmanifest 0 0 0
          ∧ run_files (convert (mkdate 2025 2 1) (mkdate 2025 1 1)
                         weight_csv_malformed_fixture) = header_only_files)
  ∧ (∀ body r,
       weight_csv_row (mkdate 2025 2 1) (mkdate 2025 1 1) body r = (body, None)).
Proof.
  apply (empty_window_gives_header_only_files (mkdate 2025 2 1) (mkdate 2025 1 1)
           weight_csv_malformed_fixture); reflexivity.
Defined.

(** ** Dates read back *)

Lemma all_month_day_checked :
  forall_below 13 (λ m, forall_below 32 (λ d, month_day_check m d)) = true.
Proof. vm_compute. reflexivity. Qed.

Lemma fmap_bind_ext {A B C} (f : B → C) (g : A → list B) (h : A → list C)
  (l : list A) :
  (∀ x, f <$> g x = h x) → f <$> (l ≫= g) = l ≫= h.
Proof.
  intros Hgh. induction l as [|x l IH]; [done|].
  by rewrite !bind_cons, fmap_app, IH, Hgh.
Qed.

Lemma strptime_ymd_month_day_paths (y : Z) (r : string) :
  0 ≤ y < 10000 →
  strptime_ymd (pad4 y +:+ r)
  = first_match ((λ p : Z * Z * string, (y, p.1.1, p.1.2, p.2)) <$> month_day_paths r).
Proof.
  intros Hy. unfold strptime_ymd, month_day_paths. rewrite four_digits_pad4 by done.
  rewrite bind_singleton. f_equal. symmetry.
  apply fmap_bind_ext. intros s2.
  apply fmap_bind_ext. intros [m s3].
  apply fmap_bind_ext. intros s4.
  apply fmap_bind_ext. by intros [d s5].
Qed.

(** [strptime] reads a date written as [YYYY-MM-DD] back. *)
Lemma strptime_ymd_strftime_ymd (d : date) :
  valid_date (year d) (month d) (day d) = true →
  strptime_ymd (strftime_ymd d) = Some d.
Proof.
  intros Hv. pose proof (valid_date_bounds _ _ _ Hv) as (Hy & Hm & Hd).
  unfold strftime_ymd. rewrite strptime_ymd_month_day_paths by lia.
  pose proof (forall_below_spec _ _ all_month_day_checked (month d)
                ltac:(simpl; lia)) as H.
  cbv beta in H.
  pose proof (forall_below_spec _ _ H (day d) ltac:(simpl; lia)) as H'.
  cbv beta in H'. unfold month_day_check in H'.
  destruct (Z.eqb_spec (month d) 0); [lia|]. destruct (Z.eqb_spec (day d) 0); [lia|].
  simpl in H'. apply bool_decide_eq_true in H'.
  destruct (month_day_paths _) as [|p ps]; [done|].
  simpl in H'. injection H' as ->. simpl.
  rewrite make_date_valid by done. by destruct d.
Qed.

Lemma free_of_strftime_ymd (p : ascii → bool) (d : date) :
  digit_free p → p "-"%char = false → free_of p (strftime_ymd d) = true.
Proof. destruct d as [y m n]. apply (free_of_iso_text p y m n). Qed.

(** [parse_date] reads a date written as [YYYY-MM-DD] back. *)
Lemma parse_date_strftime_ymd (d : date) :
  valid_date (year d) (month d) (day d) = true →
  parse_date (strftime_ymd d) = Some d.
Proof.
  intros Hv. unfold parse_date.
  rewrite free_of_strip by (by apply free_of_strftime_ymd; [apply digit_free_space|]).
  rewrite free_of_contains by (by apply free_of_strftime_ymd; [apply digit_free_eqb|]).
  by rewrite strptime_ymd_strftime_ymd.
Qed.

(** A date that the converter writes, in a year of four digits, is read
    back by [parse_date] as the same date; so is the date part of a row
    it wrote when the row is read again. *)
Theorem written_date_is_read_back (d : date) :
  valid_date (year d) (month d) (day d) = true → 1000 ≤ year d →
  parse_date (strftime_ymd d) = Some d
  ∧ strptime_ymd (strftime_ymd d) = Some d
  ∧ ∀ start_date end_date,
      window_date start_date end_date (strftime_ymd d)
      = if in_window start_date end_date d then Some d else None.
Proof.
  intros Hv _. split_and!.
  - by apply parse_date_strftime_ymd.
  - by apply strptime_ymd_strftime_ymd.
  - intros s e. unfold window_date. by rewrite parse_date_strftime_ymd.
Qed.

Lemma written_date_is_read_back_witness :
  parse_date (strftime_ymd (mkdate 2024 2 29)) = Some (mkdate 2024 2 29)
  ∧ strptime_ymd (strftime_ymd (mkdate 2024 2 29)) = Some (mkdate 2024 2 29)
  ∧ ∀ start_date end_date,
      window_date start_date end_date (strftime_ymd (mkdate 2024 2 29))
      = if in_window start_date end_date (mkdate 2024 2 29)
        then Some (mkdate 2024 2 29) else None.
Proof.
  apply (written_date_is_read_back (mkdate 2024 2 29)); [reflexivity|simpl; lia].
Defined.

(** ** White space around a timestamp *)

Lemma lstrip_all_space (s : string) : all_space s = true → PyStr.lstrip s = EmptyString.
Proof.
  induction s as [|c s IH]; simpl; [done|].
  unfold all_space. simpl. rewrite andb_true_iff, negb_involutive.
  intros [-> Hs]. by apply IH.
Qed.

Lemma lstrip_app_space (pre s : string) :
  all_space pre = true → PyStr.lstrip (pre +:+ s) = PyStr.lstrip s.
Proof.
  induction pre as [|c pre IH]; [done|].
  unfold all_space. simpl. rewrite andb_true_iff, negb_involutive.
  intros [Hc Hpre]. rewrite ?app_String. simpl. rewrite Hc. by apply IH.
Qed.

Lemma rstrip_all_space (s : string) : all_space s = true → PyStr.rstrip s = EmptyString.
Proof.
  induction s as [|c s IH]; simpl; [done|].
  unfold all_space. simpl. rewrite andb_true_iff, negb_involutive.
  intros [Hc Hs]. rewrite (IH Hs). by rewrite Hc.
Qed.

Lemma rstrip_app_space (s post : string) :
  all_space post = true → PyStr.rstrip (s +:+ post) = PyStr.rstrip s.
Proof.
  intros Hpost. induction s as [|c s IH].
  - rewrite ?app_empty. by apply rstrip_all_space.
  - rewrite ?app_String. simpl. by rewrite IH.
Qed.

Lemma strip_app_space (pre s post : string) :
  all_space pre = true → all_space post = true →
  PyStr.strip (pre +:+ s +:+ post) = PyStr.strip s.
Proof.
  intros Hpre Hpost. unfold PyStr.strip. rewrite lstrip_app_space by done.
  induction s as [|c s IH].
  - rewrite ?app_empty. by rewrite (lstrip_all_space post).
  - rewrite ?app_String. simpl. destruct (PyStr.is_space c); [done|].
    by rewrite <- app_String, rstrip_app_space.
Qed.

(** White space before and after a timestamp makes no difference to
    [parse_date] and [parse_sleep_datetime], and so none to the reading
    of a row. *)
Theorem white_space_around_timestamp_ignored (pre s post : string) :
  all_space pre = true → all_space post = true →
  parse_date (pre +:+ s +:+ post) = parse_date s
  ∧ parse_sleep_datetime (pre +:+ s +:+ post) = parse_sleep_datetime s
  ∧ ∀ start_date end_date,
      window_date start_date end_date (pre +:+ s +:+ post)
      = window_date start_date end_date s.
Proof.
  intros Hpre Hpost.
  assert (parse_date (pre +:+ s +:+ post) = parse_date s) as Hd.
  { unfold parse_date. by rewrite strip_app_space. }
  split_and!; [done| |].
  - unfold parse_sleep_datetime. by rewrite strip_app_space.
  - intros start_date end_date. unfold window_date. by rewrite Hd.
Qed.

Lemma white_space_around_timestamp_ignored_witness :
  parse_date (" " +:+ "01/15/25" +:+ String "009" (String "010" EmptyString))
  = parse_date "01/15/25"
  ∧ parse_sleep_datetime
      (" " +:+ "01/15/25" +:+ String "009" (String "010" EmptyString))
    = parse_sleep_datetime "01/15/25"
  ∧ ∀ start_date end_date,
      window_date start_date end_date
        (" " +:+ "01/15/25" +:+ String "009" (String "010" EmptyString))
      = window_date start_date end_date "01/15/25".
Proof.
  apply (white_space_around_timestamp_ignored " " "01/15/25"
           (String "009" (String "010" EmptyString))); reflexivity.
Defined.

(** ** The command line *)

(** [main] takes a date option that is absent or empty as the default,
    2000-01-01 for the start and 2099-12-31 for the end; a date written
    as [YYYY-MM-DD] is taken as that date; and when an option is no date
    in this form the program exits before it reads or writes anything,
    the start being looked at first. *)
Theorem main_reads_the_window (ex : export) :
  (∀ (a b : option string),
     (a = None ∨ a = Some EmptyString) → (b = None ∨ b = Some EmptyString) →
     main a b ex = convert default_start default_end ex)
  ∧ (∀ d1 d2 : date,
       valid_date (year d1) (month d1) (day d1) = true →
       valid_date (year d2) (month d2) (day d2) = true →
       main (Some (strftime_ymd d1)) (Some (strftime_ymd d2)) ex = convert d1 d2 ex
       ∧ main (Some (strftime_ymd d1)) None ex = convert d1 default_end ex
       ∧ main None (Some (strftime_ymd d2)) ex = convert default_start d2 ex)
  ∧ (∀ (s : string) (b : option string),
       s ≠ EmptyString → strptime_ymd s = None →
       main (Some s) b ex = mkrun [] [] (Raise SystemExit))
  ∧ (∀ (a : option string) (s : string),
       s ≠ EmptyString → strptime_ymd s = None →
       is_ok (run_result (main a (Some s) ex)) = false
       ∧ run_files (main a (Some s) ex) = []
       ∧ run_warnings (main a (Some s) ex) = [])
  ∧ strptime_ymd "01/15/25" = None
  ∧ strptime_ymd " 2025-01-15" = None
  ∧ strptime_ymd "2025-02-30" = None
  ∧ strptime_ymd "2025-1-5" = Some (mkdate 2025 1 5).
Proof.
  assert (∀ d, valid_date (year d) (month d) (day d) = true →
               ∀ dflt, arg_date (Some (strftime_ymd d)) dflt = Ok d) as Harg.
  { intros d Hv dflt. unfold arg_date.
    rewrite strptime_ymd_strftime_ymd by done.
    destruct (strftime_ymd d) eqn:Htext; [|done].
    unfold strftime_ymd, pad4 in Htext. by rewrite app_String in Htext. }
  assert (∀ s dflt, s ≠ EmptyString → strptime_ymd s = None →
                    arg_date (Some s) dflt = Raise SystemExit) as Hbad.
  { intros s dflt Hs Hp. unfold arg_date. rewrite Hp. by destruct s. }
  split_and!.
  - by intros a b [-> | ->] [-> | ->].
  - intros d1 d2 H1 H2. unfold main. by rewrite ?Harg.
  - intros s b Hs Hp. unfold main. by rewrite Hbad.
  - intros a s Hs Hp. unfold main. rewrite (Hbad s) by done.
    by destruct (arg_date a default_start).
  - vm_compute. reflexivity.
  - vm_compute. reflexivity.
  - vm_compute. reflexivity.
  - vm_compute. reflexivity.
Qed.

(** ** Sedentary minutes *)

Lemma read_activities_sedentary (start_date end_date : date) (ex : export) :
  daily_sedentary (read_activities start_date end_date ex).1
  = (fold_files (fold_rows (activity_level_row start_date end_date)) ∅
       (sorted_files (activity_level_csv ex))).1.
Proof.
  unfold read_activities.
  destruct (_aggregate_csv _ _ (steps_csv ex) _ _) as [steps w1].
  destruct (_aggregate_csv _ _ (calories_csv ex) _ _) as [cal w2].
  destruct (_aggregate_csv _ _ (distance_csv ex) _ _) as [dist w3].
  destruct (_aggregate_csv _ _ (floors_csv ex) _ _) as [fl w4].
  destruct (fold_files (fold_rows (active_minutes_row _ _)) _ _) as [act w5].
  by destruct (fold_files (fold_rows (activity_level_row _ _)) _ _) as [sed w6].
Qed.

Section Sedentary.
Variables start_date end_date : date.

Lemma activity_level_row_count (m : gmap string Z) (r : row) (k : string) :
  (activity_level_row start_date end_date m r).2 = None
  ∧ default 0 ((activity_level_row start_date end_date m r).1 !! k)
    = default 0 (m !! k) + (if sedentary_on start_date end_date k r then 1 else 0).
Proof.
  unfold activity_level_row, sedentary_on.
  destruct (window_date _ _ _) as [d|]; [|split; [done|cbn [fst]; lia]].
  destruct (String.eqb (get_text r "level") "SEDENTARY"); cbn [fst snd].
  - split; [done|]. rewrite andb_true_r.
    destruct (String.eqb_spec (strftime_ymd d) k) as [->|Hne].
    + rewrite lookup_insert_eq. simpl. lia.
    + rewrite lookup_insert_ne by done. simpl. lia.
  - rewrite andb_false_r. split; [done|lia].
Qed.

Lemma activity_level_rows_count (m : gmap string Z) (rows : list row) (k : string) :
  (fold_rows (activity_level_row start_date end_date) m rows).2 = None
  ∧ default 0 ((fold_rows (activity_level_row start_date end_date) m rows).1 !! k)
    = default 0 (m !! k)
      + Z.of_nat (length (List.filter (sedentary_on start_date end_date k) rows)).
Proof.
  revert m. induction rows as [|r rows IH]; intros m; simpl; [split; [done|lia]|].
  destruct (activity_level_row_count m r k) as [Hnone Hcount].
  destruct (activity_level_row start_date end_date m r) as [m' oe]. simpl in *. subst oe.
  destruct (IH m') as [IH1 IH2]. split; [done|]. rewrite IH2, Hcount.
  destruct (sedentary_on start_date end_date k r); simpl length; lia.
Qed.

Lemma activity_level_files_count (m : gmap string Z) (files : list (string * list row))
  (k : string) :
  (fold_files (fold_rows (activity_level_row start_date end_date)) m files).2 = []
  ∧ default 0
      ((fold_files (fold_rows (activity_level_row start_date end_date)) m files).1 !! k)
    = default 0 (m !! k)
      + Z.of_nat (length (List.filter (sedentary_on start_date end_date k)
                            (concat files.*2))).
Proof.
  revert m. induction files as [|[name rows] files IH]; intros m; simpl;
    [split; [done|lia]|].
  destruct (activity_level_rows_count m rows k) as [Hnone Hcount].
  destruct (fold_rows (activity_level_row start_date end_date) m rows) as [m' oe].
  simpl in *. subst oe. destruct (IH m') as [IH1 IH2].
  destruct (fold_files _ m' files) as [m'' ws]. simpl in *. subst ws.
  split; [done|].
  rewrite IH2, Hcount, List.filter_app, length_app, Nat2Z.inj_add, Z.add_assoc.
  reflexivity.
Qed.

End Sedentary.

(** The sedentary minutes of a day are the number of rows read from the
    activity level files, inside the window and on that day, whose level
    is the text [SEDENTARY], and a row of the Activities table carries
    that number. *)
Theorem sedentary_minutes_count_rows (start_date end_date : date) (ex : export) :
  let a := (read_activities start_date end_date ex).1 in
  let count := λ k, Z.of_nat (length (List.filter (sedentary_on start_date end_date k)
                                        (rows_in_order (activity_level_csv ex)))) in
  (∀ k, default 0 (daily_sedentary a !! k) = count k)
  ∧ (∀ r, r ∈ (activity_rows start_date end_date ex).1 →
          ar_sedentary r = count (ar_date r)).
Proof.
  cbv zeta.
  assert (∀ k, default 0 (daily_sedentary (read_activities start_date end_date ex).1 !! k)
               = Z.of_nat (length (List.filter (sedentary_on start_date end_date k)
                                     (rows_in_order (activity_level_csv ex))))) as Hk.
  { intros k. rewrite read_activities_sedentary.
    destruct (activity_level_files_count start_date end_date ∅
                (sorted_files (activity_level_csv ex)) k) as [_ ->].
    by rewrite lookup_empty. }
  split; [done|].
  intros r Hr. unfold activity_rows in Hr. cbv zeta in Hr.
  apply emit_elem_of in Hr as (ds & _ & Hrow).
  rewrite <- Hk. clear Hk. unfold activity_row_of in Hrow.
  repeat match type of Hrow with
         | (let! _ := ?x in _) = _ => destruct x; simpl in Hrow; try discriminate
         end.
  by injection Hrow as <-.
Qed.

(** ** Totals that are no number *)

Lemma activity_row_of_calories_not_finite (a : activity_data) (ds : string) (x : pyfloat) :
  daily_calories a !! ds = Some x → is_finite x = false →
  is_ok (activity_row_of a ds) = false.
Proof. intros Hx Hfin. unfold activity_row_of. rewrite Hx. by destruct x. Qed.

Lemma emit_stops {X Y} (f : X → result Y) (xs : list X) (x : X) :
  x ∈ xs → is_ok (f x) = false →
  is_Some (emit f xs).2 ∧ x ∈ drop (length (emit f xs).1) xs.
Proof.
  induction xs as [|x' xs IH]; [by intros ?%elem_of_nil|].
  intros Hin Hx. simpl. destruct (f x') as [y|e] eqn:Hx'.
  - apply elem_of_cons in Hin as [->|Hin]; [by rewrite Hx' in Hx|].
    destruct (IH Hin Hx) as [Hsome Hdrop].
    by destruct (emit f xs) as [ys oe].
  - by split.
Qed.

(** [float] reads [nan] and [inf], so the reading loop takes them; a
    calories total that is no finite number then makes [round] raise in
    the writing loop, which is under no [try]: the run ends there, after
    the rows of the earlier dates, and the Sleep table and the
    supplementary files are never written. *)
Theorem calories_not_finite_end_the_run (start_date end_date : date) (ex : export)
  (ds : string) (x : pyfloat) :
  daily_calories (read_activities start_date end_date ex).1 !! ds = Some x →
  is_finite x = false →
  is_Some (activity_rows start_date end_date ex).2
  ∧ (∀ r, r ∈ (activity_rows start_date end_date ex).1 →
          String.ltb (ar_date r) ds = true)
  ∧ is_ok (st_returned (generate_activities_csv start_date end_date ex)) = false
  ∧ is_ok (run_result (convert start_date end_date ex)) = false
  ∧ (∀ f, f ∈ run_files (convert start_date end_date ex) →
          f.1 = "garmin_body.csv" ∨ f.1 = "garmin_activities.csv").
Proof.
  intros Hx Hfin.
  set (a := (read_activities start_date end_date ex).1) in *.
  assert (ds ∈ all_dates a) as Hds.
  { apply elem_of_all_dates. right. left. by apply elem_of_dom. }
  pose proof (activity_row_of_calories_not_finite a ds x Hx Hfin) as Hrow.
  destruct (emit_stops (activity_row_of a) (all_dates a) ds Hds Hrow) as [Hsome Hdrop].
  assert (is_ok (st_returned (generate_activities_csv start_date end_date ex)) = false)
    as Hstage.
  { unfold generate_activities_csv. subst a.
    destruct (read_activities start_date end_date ex) as [a ws]. simpl in *.
    destruct (emit (activity_row_of a) (all_dates a)) as [rows oe]. simpl in *.
    by destruct Hsome as [e ->]. }
  split_and!; [done| |done| |].
  - intros r Hr. unfold activity_rows in Hr. cbv zeta in Hr. fold a in Hr.
    pose proof (emit_prefix (activity_row_of a) (all_dates a)) as Hpre.
    apply emit_dates in Hpre.
    assert (ar_date r ∈ take (length (emit (activity_row_of a) (all_dates a)).1)
                          (all_dates a)) as Hin.
    { rewrite <- Hpre. by apply list_elem_of_fmap_2. }
    pose proof (all_dates_strict a) as Hs.
    rewrite <- (take_drop (length (emit (activity_row_of a) (all_dates a)).1)
                  (all_dates a)) in Hs.
    by eapply (StronglySorted_app_1_elem_of _ _ _ _ _ Hs).
  - unfold convert. destruct (fitbit_dir_exists ex); [|done].
    destruct (pa_dir_exists ex); [|done]. simpl. unfold then_stage.
    destruct (st_returned (generate_body_csv start_date end_date ex)); [|done].
    by destruct (st_returned (generate_activities_csv start_date end_date ex)).
  - unfold convert. destruct (fitbit_dir_exists ex); [|by intros f ?%elem_of_nil].
    destruct (pa_dir_exists ex); [|by intros f ?%elem_of_nil]. simpl. unfold then_stage.
    destruct (generate_body_csv_cases start_date end_date ex)
      as [(ws & e & ->)|(ws & b & ->)]; simpl; [by intros f ?%elem_of_nil|].
    destruct (generate_activities_csv_cases start_date end_date ex)
      as (ws2 & rows & r2 & Heq & _). rewrite Heq in Hstage |- *. simpl in *.
    destruct r2; [done|]. simpl. intros f.
    rewrite !elem_of_cons, elem_of_nil. intros [->|[->|[]]]; auto.
Qed.

Lemma calories_not_finite_end_the_run_witness :
  is_Some (activity_rows default_start default_end (calories_fixture "nan")).2
  ∧ (∀ r, r ∈ (activity_rows default_start default_end (calories_fixture "nan")).1 →
          String.ltb (ar_date r) "2025-01-15" = true)
  ∧ is_ok (st_returned (generate_activities_csv default_start default_end
                          (calories_fixture "nan"))) = false
  ∧ is_ok (run_result (convert default_start default_end (calories_fixture "nan")))
    = false
  ∧ (∀ f, f ∈ run_files (convert default_start default_end (calories_fixture "nan")) →
          f.1 = "garmin_body.csv" ∨ f.1 = "garmin_activities.csv").
Proof.
  apply (calories_not_finite_end_the_run default_start default_end
           (calories_fixture "nan") "2025-01-15" S754_nan).
  - vm_compute. reflexivity.
  - reflexivity.
Defined.

(** ** A row that raises half way *)

(** [daily[k] += cast(...)] looks [daily[k]] up before the cast is
    evaluated, and the lookup on a [defaultdict] stores 0.0 for a new
    key: a step count that is no number, in the first row of a file,
    ends the file with a warning and still leaves its date in the totals
    with 0.0, and so among the dates of the Activities table. *)
Theorem malformed_steps_still_make_the_date (start_date end_date : date)
  (text : string) (r : row) (d : date) :
  window_date start_date end_date (get_text r "timestamp") = Some d →
  r !! "steps" = Some text → float_of_string text = Raise ValueError →
  (∀ daily : gmap string pyfloat,
     aggregate_row start_date end_date "steps" cast_int daily r
     = (<[strftime_ymd d := default float_zero (daily !! strftime_ymd d)]> daily,
        Some ValueError))
  ∧ (∀ ex name rows,
       steps_csv ex = [(name, r :: rows)] → calories_csv ex = [] → distance_csv ex = [] →
       daily_steps (read_activities start_date end_date ex).1
       = {[strftime_ymd d := float_zero]}
       ∧ all_dates (read_activities start_date end_date ex).1 = [strftime_ymd d]
       ∧ (name, ValueError) ∈ (read_activities start_date end_date ex).2).
Proof.
  intros Hd Hcell Htext.
  assert (∀ daily : gmap string pyfloat,
            aggregate_row start_date end_date "steps" cast_int daily r
            = (<[strftime_ymd d := default float_zero (daily !! strftime_ymd d)]> daily,
               Some ValueError)) as Hrow.
  { intros daily. unfold aggregate_row. rewrite Hd, Hcell. unfold apply_cast.
    by rewrite (cell_int_malformed _ Htext). }
  split; [done|]. intros ex name rows Hsteps Hcal Hdist.
  assert (_aggregate_csv start_date end_date [(name, r :: rows)] "steps" cast_int
          = ({[strftime_ymd d := float_zero]}, [(name, ValueError)])) as Hfile.
  { unfold _aggregate_csv, sorted_files. simpl. rewrite Hrow. by rewrite lookup_empty. }
  unfold all_dates, read_activities. rewrite Hsteps, Hcal, Hdist, Hfile.
  change (_aggregate_csv start_date end_date [] ?col ?c) with
    (∅ : gmap string pyfloat, [] : list warning).
  destruct (_aggregate_csv _ _ (floors_csv ex) _ _) as [fl w4].
  destruct (fold_files (fold_rows (active_minutes_row _ _)) _ _) as [act w5].
  destruct (fold_files (fold_rows (activity_level_row _ _)) _ _) as [sed w6].
  cbn [fst snd daily_steps daily_calories daily_distance].
  rewrite dom_empty_L, !union_empty_r_L, dom_singleton_L, elements_singleton.
  split_and!; [done..|]. apply list_elem_of_here.
Qed.

Lemma malformed_steps_still_make_the_date_witness :
  (∀ daily : gmap string pyfloat,
     aggregate_row default_start default_end "steps" cast_int daily
       (row_of [("timestamp", "2025-01-15T00:00:00Z"); ("steps", "abc")])
     = (<[strftime_ymd (mkdate 2025 1 15) :=
            default float_zero (daily !! strftime_ymd (mkdate 2025 1 15))]> daily,
        Some ValueError))
  ∧ (∀ ex name rows,
       steps_csv ex
       = [(name, row_of [("timestamp", "2025-01-15T00:00:00Z"); ("steps", "abc")]
                 :: rows)] →
       calories_csv ex = [] → distance_csv ex = [] →
       daily_steps (read_activities default_start default_end ex).1
       = {[strftime_ymd (mkdate 2025 1 15) := float_zero]}
       ∧ all_dates (read_activities default_start default_end ex).1
         = [strftime_ymd (mkdate 2025 1 15)]
       ∧ (name, ValueError) ∈ (read_activities default_start default_end ex).2).
Proof.
  apply (malformed_steps_still_make_the_date default_start default_end "abc"
           (row_of [("timestamp", "2025-01-15T00:00:00Z"); ("steps", "abc")])
           (mkdate 2025 1 15)); vm_compute; reflexivity.
Defined.

(** ** Sessions without an offset column *)

(** A session file without the columns [start_utc_offset] and
    [end_utc_offset] gives every session the offset [+01:00]: the times
    written for it are its start and end plus one hour. *)
Theorem missing_offset_columns_add_one_hour (start_date end_date : date)
  (sleeps : list (string * session)) (r : row) (start_dt end_dt : datetime)
  (asleep awake in_period : Z) :
  parse_sleep_datetime (get_text r "sleep_start") = Some start_dt →
  in_window start_date end_date (dt_date start_dt) = true →
  parse_sleep_datetime (get_text r "sleep_end") = Some end_dt →
  cell_int (r !! "minutes_asleep") = Ok asleep →
  cell_int (r !! "minutes_awake") = Ok awake →
  cell_int (r !! "minutes_in_sleep_period") = Ok in_period →
  r !! "start_utc_offset" = None → r !! "end_utc_offset" = None →
  ∃ s, user_sleeps_row start_date end_date sleeps r
       = (dict_set (get_text r "sleep_id") s sleeps, None)
    ∧ s_start_offset s = "+01:00" ∧ s_end_offset s = "+01:00"
    ∧ offset_hours (s_start_offset s) = 1 ∧ offset_hours (s_end_offset s) = 1
    ∧ ∀ stages row,
        sleep_row_of stages (get_text r "sleep_id", s) = Ok (Some row) →
        add_hours start_dt 1 = Ok (sr_start_local row)
        ∧ add_hours end_dt 1 = Ok (sr_end_local row).
Proof.
  intros Hstart Hwin Hend Ha Hw Hp Hso Heo.
  eexists. split.
  { unfold user_sleeps_row. rewrite Hstart, Hwin, Hend, Ha, Hw, Hp, Hso, Heo.
    simpl. reflexivity. }
  split_and!; [done|done|by vm_compute|by vm_compute|].
  intros stages row Hrow. apply sleep_row_of_Some in Hrow as (_ & e & He & Hs & Hev).
  cbn [fst snd s_end_dt s_start_dt s_start_offset s_end_offset] in *.
  injection He as <-.
  change (offset_hours "+01:00") with 1 in *. done.
Qed.

Lemma missing_offset_columns_add_one_hour_witness :
  ∃ s, user_sleeps_row default_start default_end []
         (row_of [("sleep_id", "s1");
                  ("sleep_start", "2025-01-15 22:10:00+0000");
                  ("sleep_end", "2025-01-16 06:10:00+0000");
                  ("minutes_asleep", "420"); ("minutes_awake", "60");
                  ("minutes_in_sleep_period", "480")])
       = (dict_set
            (get_text
               (row_of [("sleep_id", "s1");
                        ("sleep_start", "2025-01-15 22:10:00+0000");
                        ("sleep_end", "2025-01-16 06:10:00+0000");
                        ("minutes_asleep", "420"); ("minutes_awake", "60");
                        ("minutes_in_sleep_period", "480")]) "sleep_id") s [], None)
    ∧ s_start_offset s = "+01:00" ∧ s_end_offset s = "+01:00"
    ∧ offset_hours (s_start_offset s) = 1 ∧ offset_hours (s_end_offset s) = 1
    ∧ ∀ stages row,
        sleep_row_of stages
          (get_text
             (row_of [("sleep_id", "s1");
                      ("sleep_start", "2025-01-15 22:10:00+0000");
                      ("sleep_end", "2025-01-16 06:10:00+0000");
                      ("minutes_asleep", "420"); ("minutes_awake", "60");
                      ("minutes_in_sleep_period", "480")]) "sleep_id", s)
        = Ok (Some row) →
        add_hours (mkdt (mkdate 2025 1 15) 22 10 0 0 (Some 0)) 1 = Ok (sr_start_local row)
        ∧ add_hours (mkdt (mkdate 2025 1 16) 6 10 0 0 (Some 0)) 1 = Ok (sr_end_local row).
Proof.
  apply (missing_offset_columns_add_one_hour default_start default_end []
           (row_of [("sleep_id", "s1");
                    ("sleep_start", "2025-01-15 22:10:00+0000");
                    ("sleep_end", "2025-01-16 06:10:00+0000");
                    ("minutes_asleep", "420"); ("minutes_awake", "60");
                    ("minutes_in_sleep_period", "480")])
           (mkdt (mkdate 2025 1 15) 22 10 0 0 (Some 0))
           (mkdt (mkdate 2025 1 16) 6 10 0 0 (Some 0)) 420 60 480);
    vm_compute; reflexivity.
Defined.

(** ** Daily supplementary tables *)

Lemma dict_get_set_eq {V} (k : string) (v : V) (d : list (string * V)) :
  dict_get k (dict_set k v d) = Some v.
Proof.
  induction d as [|[k' v'] d IH]; simpl.
  - by rewrite String.eqb_refl.
  - destruct (String.eqb k k') eqn:Hk; simpl; by rewrite ?String.eqb_refl, ?Hk.
Qed.

Lemma dict_get_set_ne {V} (k k' : string) (v : V) (d : list (string * V)) :
  k ≠ k' → dict_get k (dict_set k' v d) = dict_get k d.
Proof.
  intros Hne. induction d as [|[k0 v0] d IH]; simpl.
  - by apply String.eqb_neq in Hne as ->.
  - destruct (String.eqb k' k0) eqn:Hk; simpl.
    + apply String.eqb_eq in Hk as ->. by apply String.eqb_neq in Hne as ->.
    + by rewrite IH.
Qed.

Lemma read_daily_entry_keeps (r : row) (value_cols : list (string * string))
  (e0 : list (string * pyval)) (k : string) :
  k ∉ value_cols.*1 →
  dict_get k (foldl (λ (e : list (string * pyval)) '(out_key, csv_key),
                       dict_set out_key (VText (get_text r csv_key)) e) e0 value_cols)
  = dict_get k e0.
Proof.
  revert e0. induction value_cols as [|[o c] cols IH]; intros e0 Hk; simpl; [done|].
  apply not_elem_of_cons in Hk as [Hne Hk]. rewrite IH by done.
  by apply dict_get_set_ne.
Qed.

Lemma read_daily_entry_cells (r : row) (value_cols : list (string * string))
  (e0 : list (string * pyval)) (out_key csv_key : string) :
  NoDup value_cols.*1 → (out_key, csv_key) ∈ value_cols →
  dict_get out_key
    (foldl (λ (e : list (string * pyval)) '(out_key, csv_key),
              dict_set out_key (VText (get_text r csv_key)) e) e0 value_cols)
  = Some (VText (get_text r csv_key)).
Proof.
  revert e0. induction value_cols as [|[o c] cols IH]; intros e0 Hnd Hin; simpl.
  { by apply elem_of_nil in Hin. }
  apply NoDup_cons in Hnd as [Ho Hnd].
  apply elem_of_cons in Hin as [[= -> ->]|Hin]; [|by apply IH].
  rewrite read_daily_entry_keeps by done. apply dict_get_set_eq.
Qed.

(** A daily supplementary table holds, under its header line, one entry
    for each row of its source file that is inside the window, in the
    order of the file; dates are neither sorted nor merged. An entry has
    the date as text and, under each output column, the cell of the
    source column as it was read, the empty text when the file has no
    such column. A file that does not exist gives the header line
    alone. *)
Theorem daily_rows_are_copied_in_order (start_date end_date : date)
  (rows : list row) (value_cols : list (string * string)) :
  "date" ∉ value_cols.*1 → NoDup value_cols.*1 →
  Forall2 (copied_from start_date end_date value_cols)
    (List.filter (row_in_window start_date end_date) rows)
    (_read_daily_csv start_date end_date (Some rows) value_cols)
  ∧ _read_daily_csv start_date end_date None value_cols = []
  ∧ (∀ filename fieldnames data,
       length (_write_supplement filename fieldnames data).2 = S (length data))
  ∧ (∀ filename fieldnames,
       (_write_supplement filename fieldnames
          (_read_daily_csv start_date end_date None value_cols))
       = (filename, [join "," (csv_field <$> fieldnames)])).
Proof.
  intros Hdate Hnd. split_and!; [|done| |done].
  - simpl. induction rows as [|r rows IH]; simpl; [constructor|].
    unfold row_in_window at 1.
    destruct (window_date start_date end_date (get_text r "timestamp")) as [d|] eqn:Hd;
      [|done].
    constructor; [|done]. exists d. split; [done|].
    split; [by rewrite read_daily_entry_keeps|].
    intros out_key csv_key Hin. by apply read_daily_entry_cells.
  - intros filename fieldnames data. unfold _write_supplement. simpl.
    by rewrite length_fmap.
Qed.

Lemma daily_rows_are_copied_in_order_witness :
  Forall2 (copied_from default_start default_end [("resting_hr", "beats per minute")])
    (List.filter (row_in_window default_start default_end)
       [row_of [("timestamp", "2025-01-16"); ("beats per minute", "61.26")];
        row_of [("timestamp", "1999-01-01"); ("beats per minute", "50")];
        row_of [("timestamp", "2025-01-15")]])
    (_read_daily_csv default_start default_end
       (Some [row_of [("timestamp", "2025-01-16"); ("beats per minute", "61.26")];
              row_of [("timestamp", "1999-01-01"); ("beats per minute", "50")];
              row_of [("timestamp", "2025-01-15")]])
       [("resting_hr", "beats per minute")])
  ∧ _read_daily_csv default_start default_end None [("resting_hr", "beats per minute")]
    = []
  ∧ (∀ filename fieldnames data,
       length (_write_supplement filename fieldnames data).2 = S (length data))
  ∧ (∀ filename fieldnames,
       (_write_supplement filename fieldnames
          (_read_daily_csv default_start default_end None
             [("resting_hr", "beats per minute")]))
       = (filename, [join "," (csv_field <$> fieldnames)])).
Proof.
  apply (daily_rows_are_copied_in_order default_start default_end
           [row_of [("timestamp", "2025-01-16"); ("beats per minute", "61.26")];
            row_of [("timestamp", "1999-01-01"); ("beats per minute", "50")];
            row_of [("timestamp", "2025-01-15")]]
           [("resting_hr", "beats per minute")]).
  - simpl. rewrite list_elem_of_singleton. discriminate.
  - simpl. apply NoDup_singleton.
Defined.

(** ** Sleep timestamps as the export writes them *)

Lemma rstrip_space_free (s : string) :
  free_of PyStr.is_space s = true → PyStr.rstrip s = s.
Proof.
  induction s as [|c s IH]; [done|]. simpl. rewrite andb_true_iff, negb_true_iff.
  intros [Hc Hs]. rewrite (IH Hs). rewrite Hc. by destruct s.
Qed.

Lemma replace_first_app (c : ascii) (new a b : string) :
  free_of (Ascii.eqb c) a = true →
  PyStr.replace_first c new (a +:+ String c b) = a +:+ new +:+ b.
Proof.
  induction a as [|x a IH]; simpl.
  - intros _. rewrite ?app_empty. simpl. by rewrite Ascii.eqb_refl.
  - rewrite andb_true_iff, negb_true_iff. intros [Hx Ha].
    rewrite ?app_String. simpl. rewrite Hx. by rewrite IH.
Qed.

Lemma strftime_ymd_head (d : date) :
  ∃ r, strftime_ymd d = String (digit_char (year d / 1000 mod 10)) r.
Proof. unfold strftime_ymd, pad4. rewrite app_String. by eexists. Qed.

(** Text that starts with a date and ends in text without white space
    is left as it is by [strip]. *)
Lemma strip_dated (d : date) (a b : string) (c : ascii) (b' : string) :
  b = String c b' → free_of PyStr.is_space b = true →
  PyStr.strip (strftime_ymd d +:+ a +:+ b) = strftime_ymd d +:+ a +:+ b.
Proof.
  intros Hb Hfree. unfold PyStr.strip.
  destruct (strftime_ymd_head d) as [r ->]. rewrite app_String.
  assert (PyStr.is_space (digit_char (year d / 1000 mod 10)) = false) as Hsp.
  { apply digit_free_space. lia. }
  cbn [PyStr.lstrip]. rewrite Hsp.
  rewrite <- app_String, <- app_assoc_string.
  rewrite (rstrip_app _ b c b') by (by rewrite rstrip_space_free).
  by rewrite rstrip_space_free.
Qed.

Lemma free_of_sleep_text (p : ascii → bool) (d : date) (h mi s : Z) :
  digit_free p → p "-"%char = false → p " "%char = false → p ":"%char = false →
  free_of p (sleep_text d h mi s) = true.
Proof.
  intros Hp H1 H2 H3. unfold sleep_text.
  rewrite free_of_app, free_of_strftime_ymd by done. cbn [free_of andb].
  rewrite H2. cbn [negb andb]. by apply free_of_hms_text.
Qed.

Lemma tz_offset_hh_mm (oh om : Z) :
  0 ≤ oh < 100 → 0 ≤ om < 100 →
  tz_offset (pad2 oh +:+ String ":" (pad2 om))
  = Some (((oh * 60 + om) * 60 + 0) * 1000000 + 0).
Proof.
  intros Hoh Hom. unfold tz_offset.
  assert (String.length (pad2 oh +:+ String ":" (pad2 om)) = 5%nat) as -> by done.
  cbn [bool_decide decide_rel orb]. simpl orb. cbv iota.
  unfold hh_mm_ss_ff. rewrite two_digits_pad2 by done. cbn iota.
  by rewrite two_digits_pad2_end by done.
Qed.

Lemma isoformat_time_offset (h mi s oh om : Z) :
  0 ≤ h < 100 → 0 ≤ mi < 100 → 0 ≤ s < 100 → 0 ≤ oh < 100 → 0 ≤ om < 100 →
  isoformat_time (hms_text h mi s +:+ String "+" (pad2 oh +:+ String ":" (pad2 om)))
  = Some (h, mi, s, 0, Some (((oh * 60 + om) * 60 + 0) * 1000000 + 0)).
Proof.
  intros Hh Hmi Hs Hoh Hom. unfold isoformat_time.
  rewrite free_of_break by (by apply free_of_hms_text; [apply digit_free_sign|]).
  change (break is_sign (String "+" ?z)) with (EmptyString, String "+" z).
  cbn [fst snd]. rewrite app_nil_r_string, hh_mm_ss_ff_hms by done.
  by rewrite tz_offset_hh_mm.
Qed.

Lemma make_datetime_valid_fields (d : date) (h mi s : Z) (tz : option Z) :
  valid_date (year d) (month d) (day d) = true →
  0 ≤ h < 24 → 0 ≤ mi < 60 → 0 ≤ s < 60 →
  (∀ o, tz = Some o → -86400000000 < o < 86400000000) →
  make_datetime (year d) (month d) (day d) h mi s 0 tz = Some (mkdt d h mi s 0 tz).
Proof.
  intros Hv Hh Hmi Hs Htz. unfold make_datetime. rewrite make_date_valid by done.
  rewrite !(proj2 (Z.ltb_lt _ _)) by lia. destruct d. simpl.
  destruct tz as [o|]; [|done].
  specialize (Htz o eq_refl). by rewrite !(proj2 (Z.ltb_lt _ _)) by lia.
Qed.

Lemma fromisoformat_dated (d : date) (sep : ascii) (rest : string) :
  valid_date (year d) (month d) (day d) = true →
  fromisoformat (strftime_ymd d +:+ String sep rest)
  = match isoformat_time rest with
    | Some (h, mi, sec, us, tz) =>
        make_datetime (year d) (month d) (day d) h mi sec us tz
    | None => None
    end.
Proof.
  intros (Hy & Hm & Hd)%valid_date_bounds.
  destruct d as [y m n]. apply (fromisoformat_iso_prefix y m n); simpl in *; lia.
Qed.

Section SleepText.
Variables (d : date) (h mi s : Z).
Hypothesis valid : valid_date (year d) (month d) (day d) = true.
Hypothesis hours : 0 ≤ h < 24.
Hypothesis minutes : 0 ≤ mi < 60.
Hypothesis seconds : 0 ≤ s < 60.

Lemma hms_text_head : ∃ c r, hms_text h mi s = String c r.
Proof. unfold hms_text, pad2. rewrite app_String. by eexists _, _. Qed.

Lemma parse_sleep_datetime_naive :
  parse_sleep_datetime (sleep_text d h mi s) = Some (mkdt d h mi s 0 None).
Proof.
  unfold parse_sleep_datetime, sleep_text.
  destruct hms_text_head as (c & r & Hhms).
  replace (strftime_ymd d +:+ String " " (hms_text h mi s))
    with (strftime_ymd d +:+ " " +:+ hms_text h mi s) by done.
  rewrite (strip_dated d " " (hms_text h mi s) c r Hhms)
    by (by apply free_of_hms_text; [apply digit_free_space|]).
  change (strftime_ymd d +:+ " " +:+ hms_text h mi s) with (sleep_text d h mi s).
  unfold sleep_iso_text.
  rewrite !free_of_contains
    by (by apply free_of_sleep_text; [apply digit_free_eqb|..]).
  cbn [andb negb]. unfold sleep_text.
  rewrite replace_first_app
    by (by apply free_of_strftime_ymd; [apply digit_free_eqb|]).
  rewrite replace_app.
  rewrite free_of_replace by (by apply free_of_strftime_ymd; [apply digit_free_eqb|]).
  rewrite replace_app. change (PyStr.replace "Z" "+00:00" "T") with "T".
  rewrite free_of_replace by (by apply free_of_hms_text; [apply digit_free_eqb|]).
  change (strftime_ymd d +:+ "T" +:+ hms_text h mi s)
    with (strftime_ymd d +:+ String "T" (hms_text h mi s)).
  rewrite fromisoformat_dated by done.
  pose proof (isoformat_time_text h mi s false ltac:(lia) ltac:(lia) ltac:(lia)) as Ht.
  cbv iota in Ht. rewrite app_nil_r_string in Ht. rewrite Ht.
  by apply make_datetime_valid_fields.
Qed.

Lemma parse_sleep_datetime_zulu :
  parse_sleep_datetime (sleep_text d h mi s +:+ "Z") = Some (mkdt d h mi s 0 (Some 0)).
Proof.
  unfold parse_sleep_datetime, sleep_text.
  replace ((strftime_ymd d +:+ String " " (hms_text h mi s)) +:+ "Z")
    with (strftime_ymd d +:+ (String " " (hms_text h mi s)) +:+ "Z")
    by (by rewrite !app_assoc_string).
  rewrite (strip_dated d _ "Z" "Z" EmptyString) by done.
  unfold sleep_iso_text.
  assert (∀ c : ascii, digit_val c = None → Ascii.eqb c "-" = false →
            Ascii.eqb c " " = false → Ascii.eqb c ":" = false → Ascii.eqb c "Z" = false →
            PyStr.contains c (strftime_ymd d +:+ String " " (hms_text h mi s) +:+ "Z")
            = false) as Hfree.
  { intros c Hc H1 H2 H3 H4. apply free_of_contains.
    rewrite <- app_assoc_string, free_of_app.
    change (strftime_ymd d +:+ String " " (hms_text h mi s)) with (sleep_text d h mi s).
    rewrite free_of_sleep_text by (by try apply digit_free_eqb).
    simpl. by rewrite H4. }
  rewrite !Hfree by done. cbn [andb negb]. rewrite app_String.
  rewrite replace_first_app
    by (by apply free_of_strftime_ymd; [apply digit_free_eqb|]).
  rewrite replace_app.
  rewrite free_of_replace by (by apply free_of_strftime_ymd; [apply digit_free_eqb|]).
  rewrite !replace_app. change (PyStr.replace "Z" "+00:00" "T") with "T".
  rewrite free_of_replace by (by apply free_of_hms_text; [apply digit_free_eqb|]).
  change (PyStr.replace "Z" "+00:00" "Z") with "+00:00".
  change (strftime_ymd d +:+ "T" +:+ hms_text h mi s +:+ "+00:00")
    with (strftime_ymd d +:+ String "T" (hms_text h mi s +:+ "+00:00")).
  rewrite fromisoformat_dated by done.
  pose proof (isoformat_time_text h mi s true ltac:(lia) ltac:(lia) ltac:(lia)) as Ht.
  cbv iota in Ht. rewrite Ht.
  apply make_datetime_valid_fields; try done. intros o [= <-]. lia.
Qed.

Lemma parse_sleep_datetime_offset (oh om : Z) :
  0 ≤ oh < 24 → 0 ≤ om < 60 →
  parse_sleep_datetime (sleep_text d h mi s +:+ plus_offset_text oh om)
  = Some (mkdt d h mi s 0 (Some ((oh * 60 + om) * 60000000))).
Proof.
  intros Hoh Hom. unfold parse_sleep_datetime, sleep_text, plus_offset_text.
  assert (free_of PyStr.is_space (pad2 oh +:+ pad2 om) = true) as Hsp.
  { by rewrite free_of_app, !free_of_pad2 by apply digit_free_space. }
  replace ((strftime_ymd d +:+ String " " (hms_text h mi s))
           +:+ String "+" (pad2 oh +:+ pad2 om))
    with (strftime_ymd d +:+ (String " " (hms_text h mi s))
          +:+ String "+" (pad2 oh +:+ pad2 om))
    by (by rewrite !app_assoc_string).
  rewrite (strip_dated d _ _ "+" (pad2 oh +:+ pad2 om) eq_refl)
    by (cbn [free_of]; rewrite Hsp; reflexivity).
  rewrite <- app_assoc_string.
  change (strftime_ymd d +:+ String " " (hms_text h mi s)) with (sleep_text d h mi s).
  unfold sleep_iso_text.
  assert (PyStr.contains "+" (pad2 oh +:+ pad2 om) = false) as Hplus.
  { apply free_of_contains.
    by rewrite free_of_app, !free_of_pad2 by (by apply digit_free_eqb). }
  assert (PyStr.contains "T" (pad2 oh +:+ pad2 om) = false) as HT.
  { apply free_of_contains.
    by rewrite free_of_app, !free_of_pad2 by (by apply digit_free_eqb). }
  rewrite !contains_app.
  rewrite (free_of_contains "T" (sleep_text d h mi s))
    by (by apply free_of_sleep_text; [apply digit_free_eqb|..]).
  cbn [PyStr.contains]. change (Ascii.eqb "+" "+") with true.
  change (Ascii.eqb "T" "+") with false. rewrite HT, orb_true_r. cbn [orb andb negb].
  rewrite rsplit1_last by done.
  assert ((PyStr.len (pad2 oh +:+ pad2 om) =? 4) = true) as -> by done.
  change (PyStr.take 2 (pad2 oh +:+ pad2 om)) with (pad2 oh).
  change (PyStr.drop 2 (pad2 oh +:+ pad2 om)) with (pad2 om).
  replace (sleep_text d h mi s +:+ "+" +:+ pad2 oh +:+ ":" +:+ pad2 om)
    with (strftime_ymd d
          +:+ String " " (hms_text h mi s
                          +:+ String "+" (pad2 oh +:+ String ":" (pad2 om))))
    by (unfold sleep_text; by rewrite !app_assoc_string, !app_String, !app_empty).
  rewrite replace_first_app
    by (by apply free_of_strftime_ymd; [apply digit_free_eqb|]).
  rewrite free_of_replace.
  2:{ rewrite !free_of_app, free_of_strftime_ymd, free_of_hms_text
        by (by try apply digit_free_eqb).
      cbn [free_of]. rewrite free_of_app, free_of_pad2 by (by apply digit_free_eqb).
      cbn [free_of]. by rewrite free_of_pad2 by (by apply digit_free_eqb). }
  change (strftime_ymd d +:+ "T"
          +:+ hms_text h mi s +:+ String "+" (pad2 oh +:+ String ":" (pad2 om)))
    with (strftime_ymd d
          +:+ String "T" (hms_text h mi s
                          +:+ String "+" (pad2 oh +:+ String ":" (pad2 om)))).
  rewrite fromisoformat_dated by done.
  rewrite isoformat_time_offset by lia.
  rewrite make_datetime_valid_fields; try done.
  - do 3 f_equal. lia.
  - intros o [= <-]. lia.
Qed.

End SleepText.

(** A timestamp as the sleep files write it, [YYYY-MM-DD HH:MM:SS]
    followed by an offset [+HHMM], by [Z] or by nothing, is read as that
    date and time of day: with the offset in the first case, with offset
    zero in the second, and without a time zone in the third. *)
Theorem sleep_timestamp_is_read (d : date) (h mi s oh om : Z) :
  valid_date (year d) (month d) (day d) = true →
  0 ≤ h < 24 → 0 ≤ mi < 60 → 0 ≤ s < 60 → 0 ≤ oh < 24 → 0 ≤ om < 60 →
  parse_sleep_datetime (sleep_text d h mi s +:+ plus_offset_text oh om)
  = Some (mkdt d h mi s 0 (Some ((oh * 60 + om) * 60000000)))
  ∧ parse_sleep_datetime (sleep_text d h mi s +:+ "Z")
    = Some (mkdt d h mi s 0 (Some 0))
  ∧ parse_sleep_datetime (sleep_text d h mi s) = Some (mkdt d h mi s 0 None).
Proof.
  intros. split_and!.
  - by apply parse_sleep_datetime_offset.
  - by apply parse_sleep_datetime_zulu.
  - by apply parse_sleep_datetime_naive.
Qed.

Lemma sleep_timestamp_is_read_witness :
  parse_sleep_datetime (sleep_text (mkdate 2025 12 3) 21 12 30 +:+ plus_offset_text 5 30)
  = Some (mkdt (mkdate 2025 12 3) 21 12 30 0 (Some ((5 * 60 + 30) * 60000000)))
  ∧ parse_sleep_datetime (sleep_text (mkdate 2025 12 3) 21 12 30 +:+ "Z")
    = Some (mkdt (mkdate 2025 12 3) 21 12 30 0 (Some 0))
  ∧ parse_sleep_datetime (sleep_text (mkdate 2025 12 3) 21 12 30)
    = Some (mkdt (mkdate 2025 12 3) 21 12 30 0 None).
Proof.
  apply (sleep_timestamp_is_read (mkdate 2025 12 3) 21 12 30 5 30); [reflexivity|lia..].
Defined.
